(** * Calendly clone: slot generation, booking, availability save, cancellation

    A shallow embedding of the backend routes
      - GET /api/booking/slots/:eventSlug and POST /api/booking
        (booking routes, in [backend/config/database.js]),
      - POST /api/availability
        (availability routes, in [backend/config/database.js]),
      - PATCH /api/meetings/:id/cancel
        (meetings routes, in [backend/routes/eventTypes.js]),
    over the tables of the schema script (in [backend/config/database.js]).

    Conventions of the model.
    - An instant is a number of milliseconds since the Unix epoch (what
      [moment#valueOf] and a JS [Date] hold).  A civil datetime is the same
      kind of number read on the wall clock of some zone.
    - A calendar date [YYYY-MM-DD] is its day number since 1970-01-01; a
      time of day [HH:MM:SS] is its number of seconds since midnight.
    - Each [await db.query(...)] is one atomic statement on the database.
    - The rows of [availability] and [availability_overrides] are modelled
      without their AUTO_INCREMENT id, and no row carries [created_at] or
      [updated_at]: replies built by [SELECT *] and tables are compared up
      to these generated columns.
    - An INSERT into [availability] is refused on the UNIQUE key, on NULL
      and on a value outside the type of its column (the engine in its
      default strict mode); for the other tables the values are assumed to
      fit their columns.
    - The slot loop is followed on instants within the range of a JS [Date]
      (8.64e15 ms on either side of the epoch). *)

From Stdlib Require Import ZArith List String Bool Lia.
From Stdlib Require Import Sorting.Sorted Sorting.Permutation.
Import ListNotations.
Open Scope string_scope.
Open Scope Z_scope.

(* ===================================================================== *)
(** ** Time conversion (moment / moment-timezone) *)

Abbreviation Instant := Z (only parsing).
Abbreviation Civil := Z (only parsing).

Definition msPerSecond : Z := 1000.
Definition msPerMinute : Z := 60000.
Definition msPerDay : Z := 86400000.

(** A zone of the timezone database.  [utcOffset] is the offset (ms east of
    UTC) in force at an instant, used when formatting; [parseOffset] is the
    offset chosen for a wall-clock reading, used when parsing
    ([Zone#utcOffset] and [Zone#parse] of moment-timezone). *)
Record Zone := mkZone {
  utcOffset : Instant -> Z;
  parseOffset : Civil -> Z
}.

Definition fixedZone (offsetMinutes : Z) : Zone :=
  {| utcOffset := fun _ => offsetMinutes * msPerMinute;
     parseOffset := fun _ => offsetMinutes * msPerMinute |}.

Definition utcZone : Zone := fixedZone 0.

(** [m.tz(zone)] followed by reading the wall clock. *)
Definition toCivil (z : Zone) (t : Instant) : Civil := t + utcOffset z t.

(** [moment.tz(civil, zone)]: the instant of a wall-clock reading. *)
Definition toUTC (z : Zone) (c : Civil) : Instant := c - parseOffset z c.

(** [m.add(n, 'minutes')] moves the instant. *)
Definition addMinutes (t : Instant) (n : Z) : Instant := t + n * msPerMinute.

(** [m.format('YYYY-MM-DDTHH:mm:ss')]: the wall clock, milliseconds dropped. *)
Definition formatCivil (z : Zone) (t : Instant) : Civil :=
  msPerSecond * (toCivil z t / msPerSecond).

(** Day of week of a day number; 1970-01-01 was a Thursday (4). *)
Definition weekday (dayNumber : Z) : Z := (dayNumber + 4) mod 7.

Definition civilDay (c : Civil) : Z := c / msPerDay.

(** [`${date} ${time}`] parsed with ['YYYY-MM-DD HH:mm:ss'], where [time] is
    the text of a TIME value ([-]HH:MM:SS, hours up to 838).  The parser is
    forgiving: it skips what a token does not match, so a leading [-] is
    dropped and [HH] takes the first two digits of the hours, the third
    being skipped.  Hours 00..23 are accepted, and 24:00:00 as the next
    midnight; anything else is an overflow and the moment is invalid. *)
Definition civilAt (date : Z) (timeOfDay : Z) : option Civil :=
  let hours := Z.abs timeOfDay / 3600 in
  let minutes := (Z.abs timeOfDay / 60) mod 60 in
  let seconds := Z.abs timeOfDay mod 60 in
  let hourField := if hours <? 100 then hours else hours / 10 in
  if (hours <? 1000)
     && ((hourField <? 24)
         || ((hourField =? 24) && (minutes =? 0) && (seconds =? 0)))
  then Some (date * msPerDay + hourField * 3600000 + minutes * msPerMinute
             + seconds * msPerSecond)
  else None.

(** The value of [startTime] in a booking request: an ISO string without
    offset is a wall-clock reading; one with [Z] or [+hh:mm] fixes the
    instant by itself. *)
Inductive DateTimeInput :=
| LocalTime (c : Civil)
| OffsetTime (t : Instant).

(* ===================================================================== *)
(** ** Tables ([database/schema.sql]) *)

Record EventType := mkEventType {
  et_id : Z;
  et_name : string;
  et_slug : string;
  duration_minutes : Z
}.

Record Availability := mkAvailability {
  av_event_type_id : Z;
  day_of_week : Z;
  av_start_time : Z;
  av_end_time : Z;
  av_timezone : string
}.

Record Override := mkOverride {
  ov_event_type_id : Z;
  override_date : Z;
  is_available : bool;
  ov_start_time : option Z;
  ov_end_time : option Z
}.

Inductive Status := scheduled | cancelled | completed.

Record Meeting := mkMeeting {
  m_id : Z;
  m_event_type_id : Z;
  invitee_name : string;
  invitee_email : string;
  m_start_time : Instant;
  m_end_time : Instant;
  m_timezone : string;
  m_status : Status
}.

Record DB := mkDB {
  event_types : list EventType;
  availability : list Availability;
  availability_overrides : list Override;
  meetings : list Meeting;
  next_meeting_id : Z
}.

Definition status_eqb (a b : Status) : bool :=
  match a, b with
  | scheduled, scheduled | cancelled, cancelled | completed, completed => true
  | _, _ => false
  end.

(** What a route sends back: [res.status(s).json(body)] or
    [res.status(s).json({ error })]. *)
Inductive Reply (A : Type) :=
| Json (status : Z) (body : A)
| Failure (status : Z) (error : string).
Arguments Json {A} status body.
Arguments Failure {A} status error.

Definition replyStatus {A} (r : Reply A) : Z :=
  match r with Json s _ => s | Failure s _ => s end.

(** The error kinds of the specification, as the routes encode them. *)
Inductive ErrorKind := ValidationError | NotFound | Conflict | StorageError.

Definition errorKind {A} (r : Reply A) : option ErrorKind :=
  match r with
  | Json _ _ => None
  | Failure s _ =>
      if s =? 400 then Some ValidationError
      else if s =? 404 then Some NotFound
      else if s =? 409 then Some Conflict
      else Some StorageError
  end.

(** JS truthiness of an optional string field of a request body. *)
Definition truthy (s : option string) : bool :=
  match s with
  | Some v => negb (String.eqb v "")
  | None => false
  end.

Definition orElse (s : option string) (d : string) : string :=
  match s with
  | Some v => if String.eqb v "" then d else v
  | None => d
  end.

(* ===================================================================== *)
(** ** Statements shared by the routes *)

(** [SELECT * FROM event_types WHERE slug = ?], first row. *)
Definition eventTypeBySlug (db : DB) (slug : string) : option EventType :=
  find (fun e => String.eqb (et_slug e) slug) (event_types db).

(** [SELECT id FROM event_types WHERE id = ?], first row. *)
Definition eventTypeById (db : DB) (id : Z) : option EventType :=
  find (fun e => et_id e =? id) (event_types db).

(** [SELECT * FROM meetings WHERE id = ?], first row. *)
Definition meetingById (db : DB) (id : Z) : option Meeting :=
  find (fun m => m_id m =? id) (meetings db).

(** A meeting joined with its event type
    ([SELECT m.*, et.name, et.slug FROM meetings m JOIN event_types et]). *)
Record MeetingView := mkMeetingView {
  mv_meeting : Meeting;
  event_type_name : string;
  event_type_slug : string
}.

Definition joinedMeetingById (db : DB) (id : Z) : option MeetingView :=
  hd_error
    (flat_map
       (fun m =>
          map (fun e => mkMeetingView m (et_name e) (et_slug e))
              (filter (fun e => et_id e =? m_event_type_id m) (event_types db)))
       (filter (fun m => m_id m =? id) (meetings db))).

(* ===================================================================== *)
(** ** Request bodies *)

(** Body of POST /api/booking.  [None] is an absent field; [startTime] is
    the parsed value of a well-formed, non-empty datetime string. *)
Record BookingRequest := mkBookingRequest {
  eventSlug : option string;
  inviteeName : option string;
  inviteeEmail : option string;
  startTime : option DateTimeInput;
  timezone : option string
}.

(** A numeric field of a JSON body as JS sees it: absent, [null], or a
    number. *)
Inductive JsNumber :=
| JsUndefined
| JsNull
| JsNum (n : Z).

(** One element of the [availability] array of POST /api/availability.
    [in_startTime]/[in_endTime] are [None] when the field is falsy (absent,
    [null] or empty) and otherwise the time of day the string denotes. *)
Record AvailabilityInput := mkAvailabilityInput {
  in_dayOfWeek : JsNumber;
  in_startTime : option Z;
  in_endTime : option Z;
  in_timezone : option string
}.

(** Body of POST /api/availability; [in_availability = None] when the field
    is not an array. *)
Record SaveRequest := mkSaveRequest {
  eventTypeId : option Z;
  in_availability : option (list AvailabilityInput)
}.

(** An emitted slot [{ start, end, timezone }]. *)
Record Slot := mkSlot {
  slot_start : Civil;
  slot_end : Civil;
  slot_timezone : string
}.

(** An element of [timeRanges]: a row of [availability], or the object built
    from an override. *)
Record TimeRange := mkTimeRange {
  range_start : Z;
  range_end : Z;
  range_timezone : string
}.

Definition text (s : option string) : string :=
  match s with Some v => v | None => "" end.

(** Stable insertion sort: [Array.prototype.sort] with a comparator that
    orders by a key, and ORDER BY on a key. *)
Fixpoint insertBy {A} (le : A -> A -> bool) (x : A) (l : list A) : list A :=
  match l with
  | [] => [x]
  | y :: tl => if le x y then x :: y :: tl else y :: insertBy le x tl
  end.

Fixpoint sortBy {A} (le : A -> A -> bool) (l : list A) : list A :=
  match l with
  | [] => []
  | x :: tl => insertBy le x (sortBy le tl)
  end.

Section Backend.

(** The timezone database of moment-timezone, and the zone of the server
    process (used by [moment(string)] without a zone). *)
Variable tzdb : string -> option Zone.
Variable serverZone : Zone.

(** An unknown zone name is logged by moment-timezone and read as UTC. *)
Definition getZone (name : string) : Zone :=
  match tzdb name with
  | Some z => z
  | None => utcZone
  end.

(** [moment.tz(input, timezone)]. *)
Definition momentTz (input : DateTimeInput) (tz : string) : Instant :=
  match input with
  | LocalTime c => toUTC (getZone tz) c
  | OffsetTime t => t
  end.

(* --------------------------------------------------------------------- *)
(** *** POST /api/booking *)

(** [SELECT id FROM meetings WHERE event_type_id = ? AND status = 'scheduled'
     AND start_time < ? AND end_time > ?] with [endTimeUTC, startTimeUTC]. *)
Definition conflictingBookings (db : DB) (etId : Z) (endTimeUTC startTimeUTC : Instant)
  : list Meeting :=
  filter (fun m => (m_event_type_id m =? etId)
                   && status_eqb (m_status m) scheduled
                   && (m_start_time m <? endTimeUTC)
                   && (m_end_time m >? startTimeUTC))
         (meetings db).

(** [INSERT INTO meetings (...) VALUES (?, ?, ?, ?, ?, ?, 'scheduled')];
    returns [insertId]. *)
Definition insertMeeting (db : DB) (etId : Z) (name email : string)
    (startTimeUTC endTimeUTC : Instant) (tz : string) : Z * DB :=
  let id := next_meeting_id db in
  (id,
   {| event_types := event_types db;
      availability := availability db;
      availability_overrides := availability_overrides db;
      meetings := (meetings db
                   ++ [mkMeeting id etId name email startTimeUTC endTimeUTC tz scheduled])%list;
      next_meeting_id := id + 1 |}).

Definition bookingFieldsPresent (req : BookingRequest) : bool :=
  truthy (eventSlug req) && truthy (inviteeName req) && truthy (inviteeEmail req)
  && (match startTime req with Some _ => true | None => false end)
  && truthy (timezone req).

Definition missingFields : string :=
  "eventSlug, inviteeName, inviteeEmail, startTime, and timezone are required".

Definition createBooking (db : DB) (req : BookingRequest)
  : Reply (option MeetingView) * DB :=
  match startTime req with
  | Some st =>
      if bookingFieldsPresent req then
        match eventTypeBySlug db (text (eventSlug req)) with
        | None => (Failure 404 "Event type not found", db)
        | Some eventType =>
            let startTimeUTC := momentTz st (text (timezone req)) in
            let endTimeUTC := addMinutes startTimeUTC (duration_minutes eventType) in
            match conflictingBookings db (et_id eventType) endTimeUTC startTimeUTC with
            | _ :: _ => (Failure 409 "This time slot is already booked", db)
            | [] =>
                let '(insertId, db') :=
                  insertMeeting db (et_id eventType) (text (inviteeName req))
                                (text (inviteeEmail req)) startTimeUTC endTimeUTC
                                (text (timezone req)) in
                (Json 201 (joinedMeetingById db' insertId), db')
            end
        end
      else (Failure 400 missingFields, db)
  | None => (Failure 400 missingFields, db)
  end.

(** The same route as the sequence of its [await]s: between two of them
    other requests may run.  A task records where a request stands. *)
Inductive BookingTask :=
| AtLookup (req : BookingRequest)
| AtCheck (req : BookingRequest) (eventType : EventType) (startTimeUTC endTimeUTC : Instant)
| AtInsert (req : BookingRequest) (eventType : EventType) (startTimeUTC endTimeUTC : Instant)
| AtFetch (insertId : Z)
| Replied (r : Reply (option MeetingView)).

Definition bookingStep (db : DB) (t : BookingTask) : BookingTask * DB :=
  match t with
  | AtLookup req =>
      match startTime req with
      | Some st =>
          if bookingFieldsPresent req then
            match eventTypeBySlug db (text (eventSlug req)) with
            | None => (Replied (Failure 404 "Event type not found"), db)
            | Some eventType =>
                let startTimeUTC := momentTz st (text (timezone req)) in
                (AtCheck req eventType startTimeUTC
                         (addMinutes startTimeUTC (duration_minutes eventType)), db)
            end
          else (Replied (Failure 400 missingFields), db)
      | None => (Replied (Failure 400 missingFields), db)
      end
  | AtCheck req eventType startTimeUTC endTimeUTC =>
      match conflictingBookings db (et_id eventType) endTimeUTC startTimeUTC with
      | _ :: _ => (Replied (Failure 409 "This time slot is already booked"), db)
      | [] => (AtInsert req eventType startTimeUTC endTimeUTC, db)
      end
  | AtInsert req eventType startTimeUTC endTimeUTC =>
      let '(insertId, db') :=
        insertMeeting db (et_id eventType) (text (inviteeName req))
                      (text (inviteeEmail req)) startTimeUTC endTimeUTC
                      (text (timezone req)) in
      (AtFetch insertId, db')
  | AtFetch insertId => (Replied (Json 201 (joinedMeetingById db insertId)), db)
  | Replied r => (Replied r, db)
  end.

(** Two requests in flight on one database; a schedule says which one
    performs its next statement ([false]: the first, [true]: the second). *)
Fixpoint runSchedule (sched : list bool) (db : DB) (t1 t2 : BookingTask)
  : DB * BookingTask * BookingTask :=
  match sched with
  | [] => (db, t1, t2)
  | false :: rest => let '(t1', db') := bookingStep db t1 in runSchedule rest db' t1' t2
  | true :: rest => let '(t2', db') := bookingStep db t2 in runSchedule rest db' t1 t2'
  end.

(** The open-interval overlap of two stored intervals. *)
Definition overlaps (s1 e1 s2 e2 : Instant) : Prop := s1 < e2 /\ s2 < e1.

(* --------------------------------------------------------------------- *)
(** *** GET /api/booking/slots/:eventSlug *)

(** [SELECT * FROM availability WHERE event_type_id = ?]. *)
Definition availabilityOf (db : DB) (etId : Z) : list Availability :=
  filter (fun a => av_event_type_id a =? etId) (availability db).

(** [SELECT * FROM availability_overrides WHERE event_type_id = ? AND
     override_date = ?], first row. *)
Definition overrideFor (db : DB) (etId : Z) (date : Z) : option Override :=
  find (fun o => (ov_event_type_id o =? etId) && (override_date o =? date))
       (availability_overrides db).

(** [moment.tz(date, timezone)]: midnight of [date] on the viewer's clock. *)
Definition requestedDate (tz : string) (date : Z) : Instant :=
  toUTC (getZone tz) (date * msPerDay).

(** [requestedDate.day()]. *)
Definition dayOfWeek (tz : string) (date : Z) : Z :=
  weekday (civilDay (toCivil (getZone tz) (requestedDate tz date))).

(** [requestedDate.clone().startOf('day').utc()] and
    [requestedDate.clone().endOf('day').utc()] (23:59:59.999). *)
Definition startOfDay (tz : string) (date : Z) : Instant :=
  toUTC (getZone tz)
        (civilDay (toCivil (getZone tz) (requestedDate tz date)) * msPerDay).

Definition endOfDay (tz : string) (date : Z) : Instant :=
  toUTC (getZone tz)
        (civilDay (toCivil (getZone tz) (requestedDate tz date)) * msPerDay
         + msPerDay - 1).

(** [SELECT start_time, end_time FROM meetings WHERE event_type_id = ? AND
     status = 'scheduled' AND start_time >= ? AND start_time < ?]. *)
Definition inDayWindow (etId : Z) (tz : string) (date : Z) (m : Meeting) : bool :=
  (m_event_type_id m =? etId)
  && status_eqb (m_status m) scheduled
  && (startOfDay tz date <=? m_start_time m)
  && (m_start_time m <? endOfDay tz date).

Definition existingBookings (db : DB) (etId : Z) (tz : string) (date : Z)
  : list (Instant * Instant) :=
  map (fun m => (m_start_time m, m_end_time m))
      (filter (inDayWindow etId tz date) (meetings db)).

Definition rowRange (a : Availability) : TimeRange :=
  mkTimeRange (av_start_time a) (av_end_time a) (av_timezone a).

(** [override && override.is_available && override.start_time &&
     override.end_time ? [{...override times, timezone}] : dayAvailability]. *)
Definition timeRanges (override : option Override)
    (dayAvailability : list Availability) (tz : string) : list TimeRange :=
  match override with
  | Some o =>
      match is_available o, ov_start_time o, ov_end_time o with
      | true, Some s, Some e => [mkTimeRange s e tz]
      | _, _, _ => map rowRange dayAvailability
      end
  | None => map rowRange dayAvailability
  end.

(** [slotStartUTC.isBefore(bookingEnd) && slotEndUTC.isAfter(bookingStart)]
    for some loaded booking. *)
Definition hasConflict (bookings : list (Instant * Instant))
    (slotStartUTC slotEndUTC : Instant) : bool :=
  existsb (fun b => (slotStartUTC <? snd b) && (slotEndUTC >? fst b)) bookings.

Definition isPast (now : Instant) (slotStartUTC : Instant) : bool :=
  slotStartUTC <? now.

(** Body of the [while] loop for one candidate: the slot is pushed when it
    has no conflict and is not past.  It is formatted by the moment the loop
    walks, which lives in the zone of the range. *)
Definition pushIfFree (now : Instant) (bookings : list (Instant * Instant))
    (duration : Z) (availTimezone tz : string) (currentSlot : Instant) : list Slot :=
  let slotStart := currentSlot in
  let slotEnd := addMinutes currentSlot duration in
  if negb (hasConflict bookings slotStart slotEnd) && negb (isPast now slotStart)
  then [mkSlot (formatCivil (getZone availTimezone) slotStart)
               (formatCivil (getZone availTimezone) slotEnd) tz]
  else [].

(** The [while] loop over one range.  [None]: the loop did not finish within
    [fuel] iterations (it never finishes when the duration is not positive
    and the first candidate fits). *)
Fixpoint slotLoop (fuel : nat) (now : Instant) (bookings : list (Instant * Instant))
    (duration : Z) (availTimezone tz : string) (endMoment currentSlot : Instant)
  : option (list Slot) :=
  if addMinutes currentSlot duration <=? endMoment then
    match fuel with
    | O => None
    | S fuel' =>
        match slotLoop fuel' now bookings duration availTimezone tz endMoment
                       (addMinutes currentSlot duration) with
        | Some rest =>
            Some (pushIfFree now bookings duration availTimezone tz currentSlot
                  ++ rest)%list
        | None => None
        end
    end
  else Some [].

(** The first [n] candidate starts of a range: the values [currentSlot]
    takes. *)
Definition candidateStarts (duration : Z) (startMoment : Instant) (n : nat)
  : list Instant :=
  map (fun k => addMinutes startMoment (Z.of_nat k * duration)) (seq 0 n).

(** The instant of [`${date} ${time}`] on the clock of a zone; [None] for an
    invalid moment, with which every comparison is false. *)
Definition momentAt (date : Z) (timeOfDay : Z) (zoneName : string) : option Instant :=
  match civilAt date timeOfDay with
  | Some c => Some (toUTC (getZone zoneName) c)
  | None => None
  end.

(** Body of [for (const avail of timeRanges)]. *)
Definition rangeSlots (fuel : nat) (now : Instant) (bookings : list (Instant * Instant))
    (duration : Z) (date : Z) (tz : string) (avail : TimeRange) : option (list Slot) :=
  let availTimezone := orElse (Some (range_timezone avail)) "UTC" in
  match momentAt date (range_start avail) availTimezone,
        momentAt date (range_end avail) availTimezone with
  | Some startMoment, Some endMoment =>
      slotLoop fuel now bookings duration availTimezone tz endMoment startMoment
  | _, _ => Some []
  end.

Fixpoint allRangeSlots (fuel : nat) (now : Instant) (bookings : list (Instant * Instant))
    (duration : Z) (date : Z) (tz : string) (ranges : list TimeRange)
  : option (list Slot) :=
  match ranges with
  | [] => Some []
  | avail :: rest =>
      match rangeSlots fuel now bookings duration date tz avail,
            allRangeSlots fuel now bookings duration date tz rest with
      | Some l, Some ls => Some (l ++ ls)%list
      | _, _ => None
      end
  end.

(** [slots.sort((a, b) => moment(a.start).diff(moment(b.start)))]. *)
Definition startsNoLater (a b : Slot) : bool :=
  toUTC serverZone (slot_start a) <=? toUTC serverZone (slot_start b).

Definition blocked (override : option Override) : bool :=
  match override with
  | Some o => negb (is_available o)
  | None => false
  end.

Definition generateSlots (fuel : nat) (now : Instant) (db : DB) (slug : string)
    (date : option Z) (tzParam : option string) : option (Reply (list Slot)) :=
  let tz := match tzParam with Some t => t | None => "UTC" end in
  match date with
  | None => Some (Failure 400 "Date parameter is required")
  | Some date =>
      match eventTypeBySlug db slug with
      | None => Some (Failure 404 "Event type not found")
      | Some eventType =>
          match availabilityOf db (et_id eventType) with
          | [] => Some (Json 200 [])
          | rules =>
              match filter (fun a => day_of_week a =? dayOfWeek tz date) rules with
              | [] => Some (Json 200 [])
              | dayAvailability =>
                  let override := overrideFor db (et_id eventType) date in
                  if blocked override then Some (Json 200 [])
                  else
                    match allRangeSlots fuel now
                            (existingBookings db (et_id eventType) tz date)
                            (duration_minutes eventType) date tz
                            (timeRanges override dayAvailability tz) with
                    | Some slots => Some (Json 200 (sortBy startsNoLater slots))
                    | None => None
                    end
              end
          end
      end
  end.

(** The database with the meetings table cut down to the rows the slot
    route loads for an event slug, a date and a viewer zone. *)
Definition windowOnly (db : DB) (slug : string) (tz : string) (date : Z) : DB :=
  match eventTypeBySlug db slug with
  | Some eventType =>
      mkDB (event_types db) (availability db) (availability_overrides db)
           (filter (inDayWindow (et_id eventType) tz date) (meetings db))
           (next_meeting_id db)
  | None => db
  end.

(** The number of candidates of a range that fit, for a positive duration:
    the whole multiples of the duration between its start and its end. *)
Definition slotCount (duration : Z) (startMoment endMoment : Instant) : nat :=
  Z.to_nat ((endMoment - startMoment) / (duration * msPerMinute)).

(** The candidate starts of a range on a date; none when one of its two
    moments is invalid. *)
Definition rangeCandidates (duration : Z) (date : Z) (avail : TimeRange)
  : list Instant :=
  let availTimezone := orElse (Some (range_timezone avail)) "UTC" in
  match momentAt date (range_start avail) availTimezone,
        momentAt date (range_end avail) availTimezone with
  | Some startMoment, Some endMoment =>
      candidateStarts duration startMoment (slotCount duration startMoment endMoment)
  | _, _ => []
  end.

(** The slots pushed for a list of ranges, range after range and candidate
    after candidate. *)
Definition offered (now : Instant) (bookings : list (Instant * Instant))
    (duration : Z) (date : Z) (tz : string) (ranges : list TimeRange) : list Slot :=
  flat_map
    (fun avail =>
       flat_map (pushIfFree now bookings duration
                            (orElse (Some (range_timezone avail)) "UTC") tz)
                (rangeCandidates duration date avail))
    ranges.

(** The ranges the loop of the route walks for an event type on a date:
    none when the weekday has no rule or the date is blocked, the range of
    the override when it has one, the rules of the weekday otherwise. *)
Definition effectiveRanges (db : DB) (etId : Z) (tz : string) (date : Z)
  : list TimeRange :=
  match filter (fun a => day_of_week a =? dayOfWeek tz date) (availabilityOf db etId) with
  | [] => []
  | dayAvailability =>
      if blocked (overrideFor db etId date) then []
      else timeRanges (overrideFor db etId date) dayAvailability tz
  end.

(* --------------------------------------------------------------------- *)
(** *** POST /api/availability *)

(** Statements of a transaction either yield a value or throw; a throw
    skips the remaining statements. *)
Definition andThen {A B} (x : option A) (k : A -> option B) : option B :=
  match x with
  | Some a => k a
  | None => None
  end.

Notation "x <- e ;; k" := (andThen e (fun x => k))
  (at level 61, e at next level, right associativity).

(** The values bound to the INSERT of one element; a day of [None] is SQL
    NULL. *)
Record RuleValues := mkRuleValues {
  v_day_of_week : option Z;
  v_start_time : Z;
  v_end_time : Z;
  v_timezone : string
}.

(** The destructuring and the check
    [dayOfWeek === undefined || !startTime || !endTime] of one element;
    [None] is [throw new Error('Invalid availability data')].  A [null]
    dayOfWeek passes the check. *)
Definition checkedRow (avail : AvailabilityInput) : option RuleValues :=
  match in_dayOfWeek avail with
  | JsUndefined => None
  | day =>
      match in_startTime avail, in_endTime avail with
      | Some s, Some e =>
          Some (mkRuleValues (match day with JsNum n => Some n | _ => None end)
                             s e (orElse (in_timezone avail) "UTC"))
      | _, _ => None
      end
  end.

(** The types of the columns: [day_of_week TINYINT], [start_time] and
    [end_time TIME] (up to 838:59:59 either way), [timezone VARCHAR(50)]. *)
Definition fitsColumns (r : Availability) : bool :=
  (-128 <=? day_of_week r) && (day_of_week r <=? 127)
  && (-3020399 <=? av_start_time r) && (av_start_time r <=? 3020399)
  && (-3020399 <=? av_end_time r) && (av_end_time r <=? 3020399)
  && (String.length (av_timezone r) <=? 50)%nat.

(** The key [unique_availability (event_type_id, day_of_week, start_time,
    end_time)]. *)
Definition sameKey (a b : Availability) : bool :=
  (av_event_type_id a =? av_event_type_id b)
  && (day_of_week a =? day_of_week b)
  && (av_start_time a =? av_start_time b)
  && (av_end_time a =? av_end_time b).

(** No two rows of a list agree on the unique key. *)
Fixpoint noRepeatedKey (rows : list Availability) : bool :=
  match rows with
  | [] => true
  | r :: tl => negb (existsb (sameKey r) tl) && noRepeatedKey tl
  end.

(** [INSERT INTO availability ...]; [None] is an error of the statement:
    NULL in a NOT NULL column, a value outside the type of its column, or a
    duplicate of the unique key. *)
Definition insertAvailability (rows : list Availability) (etId : Z) (v : RuleValues)
  : option (list Availability) :=
  match v_day_of_week v with
  | None => None
  | Some d =>
      let r := mkAvailability etId d (v_start_time v) (v_end_time v) (v_timezone v) in
      if fitsColumns r && negb (existsb (sameKey r) rows)
      then Some (rows ++ [r])%list
      else None
  end.

(** [for (const avail of availability) { ... }] inside the transaction. *)
Fixpoint insertAll (etId : Z) (inputs : list AvailabilityInput)
    (rows : list Availability) : option (list Availability) :=
  match inputs with
  | [] => Some rows
  | avail :: rest =>
      v <- checkedRow avail ;;
      rows' <- insertAvailability rows etId v ;;
      insertAll etId rest rows'
  end.

(** The row an element of the request stands for: defined when the element
    carries a number as dayOfWeek, a startTime and an endTime. *)
Definition rowFor (etId : Z) (avail : AvailabilityInput) : option Availability :=
  match in_dayOfWeek avail, in_startTime avail, in_endTime avail with
  | JsNum d, Some s, Some e =>
      Some (mkAvailability etId d s e (orElse (in_timezone avail) "UTC"))
  | _, _, _ => None
  end.

(** [DELETE FROM availability WHERE event_type_id = ?]. *)
Definition deleteAvailability (rows : list Availability) (etId : Z) : list Availability :=
  filter (fun a => negb (av_event_type_id a =? etId)) rows.

(** The statements between [beginTransaction] and [commit], run on the
    connection's view of the table. *)
Definition replaceRules (etId : Z) (inputs : list AvailabilityInput)
    (rows : list Availability) : option (list Availability) :=
  insertAll etId inputs (deleteAvailability rows etId).

Definition withAvailability (db : DB) (rows : list Availability) : DB :=
  {| event_types := event_types db;
     availability := rows;
     availability_overrides := availability_overrides db;
     meetings := meetings db;
     next_meeting_id := next_meeting_id db |}.

(** [ORDER BY day_of_week, start_time]. *)
Definition ruleOrder (a b : Availability) : bool :=
  (day_of_week a <? day_of_week b)
  || ((day_of_week a =? day_of_week b) && (av_start_time a <=? av_start_time b)).

Definition saveAvailability (db : DB) (req : SaveRequest)
  : Reply (list Availability) * DB :=
  match eventTypeId req, in_availability req with
  | Some id, Some inputs =>
      if id =? 0
      then (Failure 400 "eventTypeId and availability array are required", db)
      else
        match eventTypeById db id with
        | None => (Failure 404 "Event type not found", db)
        | Some _ =>
            match replaceRules id inputs (availability db) with
            | Some rows =>
                (* commit *)
                let db' := withAvailability db rows in
                (Json 200 (sortBy ruleOrder (availabilityOf db' id)), db')
            | None =>
                (* rollback, rethrow, outer catch *)
                (Failure 500 "Failed to save availability", db)
            end
        end
  | _, _ => (Failure 400 "eventTypeId and availability array are required", db)
  end.

(* --------------------------------------------------------------------- *)
(** *** PATCH /api/meetings/:id/cancel *)

Definition withStatus (m : Meeting) (s : Status) : Meeting :=
  mkMeeting (m_id m) (m_event_type_id m) (invitee_name m) (invitee_email m)
            (m_start_time m) (m_end_time m) (m_timezone m) s.

(** [UPDATE meetings SET status = "cancelled" WHERE id = ?]. *)
Definition setCancelled (db : DB) (id : Z) : DB :=
  {| event_types := event_types db;
     availability := availability db;
     availability_overrides := availability_overrides db;
     meetings := map (fun m => if m_id m =? id then withStatus m cancelled else m)
                     (meetings db);
     next_meeting_id := next_meeting_id db |}.

Definition cancelMeeting (db : DB) (id : Z) : Reply (option Meeting) * DB :=
  match meetingById db id with
  | None => (Failure 404 "Meeting not found", db)
  | Some meeting =>
      if status_eqb (m_status meeting) cancelled
      then (Failure 400 "Meeting is already cancelled", db)
      else
        let db' := setCancelled db id in
        (Json 200 (meetingById db' id), db')
  end.

(* --------------------------------------------------------------------- *)
(** *** GET and DELETE /api/availability/:eventTypeId *)

(** [SELECT * FROM availability WHERE event_type_id = ? ORDER BY
     day_of_week, start_time]. *)
Definition getAvailability (db : DB) (etId : Z) : Reply (list Availability) :=
  Json 200 (sortBy ruleOrder (availabilityOf db etId)).

Definition clearAvailability (db : DB) (etId : Z) : Reply string * DB :=
  (Json 200 "Availability deleted successfully",
   withAvailability db (deleteAvailability (availability db) etId)).

(* --------------------------------------------------------------------- *)
(** *** Event type routes *)

(** Body of POST /api/event-types and PUT /api/event-types/:id; [None] is
    [undefined].  The columns [description] and [color] are not part of the
    rows of the model; the body fields only count as provided fields. *)
Record EventTypeBody := mkEventTypeBody {
  b_name : option string;
  b_slug : option string;
  b_duration_minutes : option Z;
  b_description : option string;
  b_color : option string
}.

(** JS truthiness of an optional number. *)
Definition truthyNumber (n : option Z) : bool :=
  match n with
  | Some v => negb (v =? 0)
  | None => false
  end.

Definition number (n : option Z) : Z :=
  match n with Some v => v | None => 0 end.

Definition withEventTypes (db : DB) (rows : list EventType) : DB :=
  {| event_types := rows;
     availability := availability db;
     availability_overrides := availability_overrides db;
     meetings := meetings db;
     next_meeting_id := next_meeting_id db |}.

(** POST /api/event-types.  [insertId] is the AUTO_INCREMENT value the
    engine assigns to the new row. *)
Definition createEventType (db : DB) (insertId : Z) (body : EventTypeBody)
  : Reply (option EventType) * DB :=
  if negb (truthy (b_name body)) || negb (truthy (b_slug body))
     || negb (truthyNumber (b_duration_minutes body))
  then (Failure 400 "Name, slug, and duration_minutes are required", db)
  else
    match eventTypeBySlug db (text (b_slug body)) with
    | Some _ => (Failure 400 "Slug already exists", db)
    | None =>
        let db' :=
          withEventTypes db
            (event_types db
             ++ [mkEventType insertId (text (b_name body)) (text (b_slug body))
                             (number (b_duration_minutes body))])%list in
        (Json 201 (eventTypeById db' insertId), db')
    end.

(** [SELECT id FROM event_types WHERE slug = ? AND id != ?] is not empty;
    also the condition under which the UNIQUE key on [slug] rejects an
    UPDATE of row [id]. *)
Definition slugUsedByOther (db : DB) (slug : string) (id : Z) : bool :=
  existsb (fun e => String.eqb (et_slug e) slug && negb (et_id e =? id))
          (event_types db).

(** [updates.length === 0]. *)
Definition noFields (body : EventTypeBody) : bool :=
  match b_name body, b_slug body, b_duration_minutes body,
        b_description body, b_color body with
  | None, None, None, None, None => true
  | _, _, _, _, _ => false
  end.

(** The [SET] list applied to a row. *)
Definition applyUpdate (body : EventTypeBody) (e : EventType) : EventType :=
  mkEventType (et_id e)
              (match b_name body with Some v => v | None => et_name e end)
              (match b_slug body with Some v => v | None => et_slug e end)
              (match b_duration_minutes body with
               | Some v => v
               | None => duration_minutes e
               end).

(** PUT /api/event-types/:id.  The row read first carries only [id], so
    [slug !== existing.slug] holds for every truthy slug. *)
Definition updateEventType (db : DB) (id : Z) (body : EventTypeBody)
  : Reply (option EventType) * DB :=
  match eventTypeById db id with
  | None => (Failure 404 "Event type not found", db)
  | Some _ =>
      if truthy (b_slug body) && slugUsedByOther db (text (b_slug body)) id
      then (Failure 400 "Slug already exists", db)
      else if noFields body
      then (Failure 400 "No fields to update", db)
      else if match b_slug body with
              | Some v => slugUsedByOther db v id
              | None => false
              end
      then (* ER_DUP_ENTRY *) (Failure 400 "Slug already exists", db)
      else
        let db' :=
          withEventTypes db
            (map (fun e => if et_id e =? id then applyUpdate body e else e)
                 (event_types db)) in
        (Json 200 (eventTypeById db' id), db')
  end.

(** DELETE /api/event-types/:id, with the ON DELETE CASCADE of the three
    referencing tables. *)
Definition deleteEventType (db : DB) (id : Z) : Reply string * DB :=
  match eventTypeById db id with
  | None => (Failure 404 "Event type not found", db)
  | Some _ =>
      (Json 200 "Event type deleted successfully",
       {| event_types := filter (fun e => negb (et_id e =? id)) (event_types db);
          availability :=
            filter (fun a => negb (av_event_type_id a =? id)) (availability db);
          availability_overrides :=
            filter (fun o => negb (ov_event_type_id o =? id))
                   (availability_overrides db);
          meetings := filter (fun m => negb (m_event_type_id m =? id)) (meetings db);
          next_meeting_id := next_meeting_id db |})
  end.

(* --------------------------------------------------------------------- *)
(** *** GET /api/meetings and GET /api/meetings/:id *)

(** The [status] query parameter: absent or empty, the name of a status, or
    a string that names none. *)
Inductive StatusParam :=
| NoStatus
| StatusNamed (s : Status)
| StatusUnknown.

Record MeetingsQuery := mkMeetingsQuery {
  q_status : StatusParam;
  q_upcoming : option string
}.

(** The WHERE clause the route assembles; [now] is the engine's [NOW()]. *)
Definition meetingSelected (now : Instant) (q : MeetingsQuery) (m : Meeting) : bool :=
  (match q_status q with
   | NoStatus => true
   | StatusNamed s => status_eqb (m_status m) s
   | StatusUnknown => false
   end)
  && (match q_upcoming q with
      | Some u =>
          if String.eqb u "true"
          then (m_start_time m >? now) && status_eqb (m_status m) scheduled
          else if String.eqb u "false" then m_start_time m <=? now
          else true
      | None => true
      end).

(** [FROM meetings m JOIN event_types et ON m.event_type_id = et.id]. *)
Definition joinedMeetings (db : DB) (rows : list Meeting) : list MeetingView :=
  flat_map
    (fun m =>
       map (fun e => mkMeetingView m (et_name e) (et_slug e))
           (filter (fun e => et_id e =? m_event_type_id m) (event_types db)))
    rows.

(** [ORDER BY m.start_time DESC]. *)
Definition startsNoEarlier (a b : MeetingView) : bool :=
  m_start_time (mv_meeting b) <=? m_start_time (mv_meeting a).

Definition listMeetings (now : Instant) (db : DB) (q : MeetingsQuery)
  : Reply (list MeetingView) :=
  Json 200 (sortBy startsNoEarlier
              (joinedMeetings db (filter (meetingSelected now q) (meetings db)))).

Definition getMeeting (db : DB) (id : Z) : Reply MeetingView :=
  match joinedMeetingById db id with
  | Some meeting => Json 200 meeting
  | None => Failure 404 "Meeting not found"
  end.

(* --------------------------------------------------------------------- *)
(** *** Invariants of the tables *)

(** A row references an event type that exists. *)
Definition isEventType (db : DB) (id : Z) : Prop :=
  exists e, In e (event_types db) /\ et_id e = id.

(** The three FOREIGN KEY constraints. *)
Definition foreignKeysHold (db : DB) : Prop :=
  (forall a, In a (availability db) -> isEventType db (av_event_type_id a))
  /\ (forall o, In o (availability_overrides db) -> isEventType db (ov_event_type_id o))
  /\ (forall m, In m (meetings db) -> isEventType db (m_event_type_id m)).

(** Primary key and UNIQUE slug of [event_types]. *)
Definition eventTypeKeys (db : DB) : Prop :=
  NoDup (map et_id (event_types db)) /\ NoDup (map et_slug (event_types db)).

(** Primary key of [meetings], with the counter ahead of every id. *)
Definition meetingKeys (db : DB) : Prop :=
  NoDup (map m_id (meetings db))
  /\ forall m, In m (meetings db) -> m_id m < next_meeting_id db.

(** Two scheduled meetings of one event type that overlap. *)
Definition doubleBooked (a b : Meeting) : Prop :=
  m_event_type_id a = m_event_type_id b
  /\ m_status a = scheduled /\ m_status b = scheduled
  /\ overlaps (m_start_time a) (m_end_time a) (m_start_time b) (m_end_time b).

(** No two rows of the meetings table are double booked. *)
Definition noDoubleBooking (db : DB) : Prop :=
  ForallOrdPairs (fun a b => ~ doubleBooked a b) (meetings db).

(* --------------------------------------------------------------------- *)
(** *** Sample data *)

(** Three zones without daylight saving. *)
Definition sampleZones (name : string) : option Zone :=
  if String.eqb name "UTC" then Some utcZone
  else if String.eqb name "Asia/Kolkata" then Some (fixedZone 330)
  else if String.eqb name "Asia/Tokyo" then Some (fixedZone 540)
  else None.

(** 2024-06-10, a Monday; the day before is a Sunday. *)
Definition monday : Z := 19884.
Definition sunday : Z := 19883.

Definition clock (date hours minutes : Z) : Z :=
  date * msPerDay + hours * 3600000 + minutes * msPerMinute.

Definition hhmm (hours minutes : Z) : Z := hours * 3600 + minutes * 60.

Definition thirtyMin : EventType := mkEventType 1 "30 Minute Meeting" "30-min" 30.
Definition oneHour : EventType := mkEventType 2 "One Hour" "one-hour" 60.

Definition emptyDb : DB := mkDB [thirtyMin; oneHour] [] [] [] 1.

(** Monday 09:00-10:00 UTC for the 30-minute event. *)
Definition simpleDayDb : DB :=
  mkDB [thirtyMin; oneHour] [mkAvailability 1 1 (hhmm 9 0) (hhmm 10 0) "UTC"] [] [] 1.

(** The same with 09:00-09:30 UTC taken. *)
Definition bookedDb : DB :=
  mkDB [thirtyMin; oneHour] [mkAvailability 1 1 (hhmm 9 0) (hhmm 10 0) "UTC"] []
       [mkMeeting 1 1 "Ann" "ann@example.org" (clock monday 9 0) (clock monday 9 30)
                  "UTC" scheduled] 2.

(** The same day blocked by an override. *)
Definition blockedDb : DB :=
  mkDB [thirtyMin; oneHour] [mkAvailability 1 1 (hhmm 9 0) (hhmm 10 0) "UTC"]
       [mkOverride 1 monday false None None] [] 1.

(** Monday 09:00-17:00 UTC, replaced on 2024-06-10 by 13:00-14:00. *)
Definition overrideDb : DB :=
  mkDB [thirtyMin; oneHour] [mkAvailability 1 1 (hhmm 9 0) (hhmm 17 0) "UTC"]
       [mkOverride 1 monday true (Some (hhmm 13 0)) (Some (hhmm 14 0))] [] 1.

(** Monday 09:00-10:00 on the clock of Asia/Kolkata. *)
Definition kolkataDb : DB :=
  mkDB [thirtyMin; oneHour] [mkAvailability 1 1 (hhmm 9 0) (hhmm 10 0) "Asia/Kolkata"]
       [] [] 1.

(** One-hour event, Monday 00:00-02:00 UTC, with a scheduled meeting from
    Sunday 23:30 to Monday 00:30 UTC. *)
Definition lateSundayMeeting : Meeting :=
  mkMeeting 1 2 "Bob" "bob@example.org" (clock sunday 23 30) (clock monday 0 30)
            "UTC" scheduled.

Definition midnightDb : DB :=
  mkDB [thirtyMin; oneHour] [mkAvailability 2 1 (hhmm 0 0) (hhmm 2 0) "UTC"] []
       [lateSundayMeeting] 2.

(** A database holding one meeting of each status. *)
Definition statusDb : DB :=
  mkDB [thirtyMin; oneHour] [] []
       [mkMeeting 1 1 "Ann" "ann@example.org" (clock monday 9 0) (clock monday 9 30)
                  "UTC" scheduled;
        mkMeeting 2 1 "Bob" "bob@example.org" (clock monday 10 0) (clock monday 10 30)
                  "UTC" cancelled;
        mkMeeting 3 1 "Cy" "cy@example.org" (clock sunday 10 0) (clock sunday 10 30)
                  "UTC" completed] 4.

Definition bookingAt (slug : string) (who mail : string) (c : Civil) (tz : string)
  : BookingRequest :=
  mkBookingRequest (Some slug) (Some who) (Some mail) (Some (LocalTime c)) (Some tz).

(** Two visitors asking for the same slot, Monday 09:00 UTC. *)
Definition annAtNine : BookingRequest :=
  bookingAt "30-min" "Ann" "ann@example.org" (clock monday 9 0) "UTC".

Definition bobAtNine : BookingRequest :=
  bookingAt "30-min" "Bob" "bob@example.org" (clock monday 9 0) "UTC".

(** The two requests taking turns statement by statement, and one request
    running to its reply before the other starts. *)
Definition takingTurns : list bool :=
  [false; true; false; true; false; true; false; true].

Definition oneAfterTheOther : list bool :=
  [false; false; false; false; true; true; true; true].

Definition annsMeeting (id : Z) : Meeting :=
  mkMeeting id 1 "Ann" "ann@example.org" (clock monday 9 0) (clock monday 9 30)
            "UTC" scheduled.

Definition bobsMeeting (id : Z) : Meeting :=
  mkMeeting id 1 "Bob" "bob@example.org" (clock monday 9 0) (clock monday 9 30)
            "UTC" scheduled.

(** A row with day of week 9 whose range runs backwards, 17:00 to 09:00. *)
Definition backwardsRow : AvailabilityInput :=
  mkAvailabilityInput (JsNum 9) (Some (hhmm 17 0)) (Some (hhmm 9 0)) (Some "UTC").

Definition mondayMorning : AvailabilityInput :=
  mkAvailabilityInput (JsNum 1) (Some (hhmm 9 0)) (Some (hhmm 12 0)) None.

Definition missingEnd : AvailabilityInput :=
  mkAvailabilityInput (JsNum 2) (Some (hhmm 9 0)) None (Some "UTC").

(** A complete row whose day of week does not fit a TINYINT. *)
Definition dayThousand : AvailabilityInput :=
  mkAvailabilityInput (JsNum 1000) (Some (hhmm 9 0)) (Some (hhmm 12 0)) None.

(** Bodies for the event type routes: a new event type, a new name, and a
    duration of zero. *)
Definition quickCallBody : EventTypeBody :=
  mkEventTypeBody (Some "Quick Call") (Some "quick-call") (Some 15) None None.

Definition renameBody : EventTypeBody :=
  mkEventTypeBody (Some "Intro Call") None None None None.

Definition zeroDurationBody : EventTypeBody :=
  mkEventTypeBody None None (Some 0) None None.

(** Monday 09:00-09:30 and 09:30-10:00 both taken. *)
Definition zedsMeeting (id : Z) : Meeting :=
  mkMeeting id 1 "Zed" "zed@example.org" (clock monday 9 30) (clock monday 10 0)
            "UTC" scheduled.

Definition twoBookingsDb : DB :=
  mkDB [thirtyMin; oneHour] [mkAvailability 1 1 (hhmm 9 0) (hhmm 10 0) "UTC"] []
       [annsMeeting 1; zedsMeeting 2] 3.

(** A single rule with day of week 9, and a single Monday rule of twenty
    minutes. *)
Definition dayNineDb : DB :=
  mkDB [thirtyMin; oneHour] [mkAvailability 1 9 (hhmm 17 0) (hhmm 9 0) "UTC"] [] [] 1.

Definition shortRangeDb : DB :=
  mkDB [thirtyMin; oneHour] [mkAvailability 1 1 (hhmm 9 0) (hhmm 9 20) "UTC"] [] [] 1.

(** A Monday rule 09:00-10:00 next to a rule 10:00-11:00 with day of week
    9. *)
Definition mixedDaysDb : DB :=
  mkDB [thirtyMin; oneHour]
       [mkAvailability 1 1 (hhmm 9 0) (hhmm 10 0) "UTC";
        mkAvailability 1 9 (hhmm 10 0) (hhmm 11 0) "UTC"] [] [] 1.

(** A Monday rule whose start is the TIME value -01:00:00 and whose end is
    02:00:00. *)
Definition negativeStartDb : DB :=
  mkDB [thirtyMin; oneHour] [mkAvailability 1 1 (- hhmm 1 0) (hhmm 2 0) "UTC"] [] [] 1.

(* ===================================================================== *)
(** ** Properties *)

(* --------------------------------------------------------------------- *)
(** *** Booking *)

Lemma truthy_nonempty (s : string) : s <> "" -> truthy (Some s) = true.
Proof.
  intros Hs. unfold truthy.
  destruct (String.eqb s "") eqn:E; [ | reflexivity ].
  apply String.eqb_eq in E. contradiction.
Qed.

Lemma status_eqb_eq (a b : Status) : status_eqb a b = true <-> a = b.
Proof. destruct a, b; simpl; split; intro H; try reflexivity; discriminate H. Qed.

(** The rows selected by the conflict query are the scheduled meetings of
    the event type that overlap the requested interval. *)
Lemma conflictingBookings_spec (db : DB) (etId : Z) (e s : Instant) (m : Meeting) :
  In m (conflictingBookings db etId e s) <->
  In m (meetings db) /\ m_event_type_id m = etId /\ m_status m = scheduled
  /\ m_start_time m < e /\ m_end_time m > s.
Proof.
  unfold conflictingBookings. rewrite filter_In.
  rewrite !andb_true_iff, Z.eqb_eq, status_eqb_eq, Z.ltb_lt, Z.gtb_gt.
  tauto.
Qed.

Lemma bookingFieldsPresent_full (slug who mail tz : string) (st : DateTimeInput) :
  slug <> "" -> who <> "" -> mail <> "" -> tz <> "" ->
  bookingFieldsPresent
    (mkBookingRequest (Some slug) (Some who) (Some mail) (Some st) (Some tz)) = true.
Proof.
  intros H1 H2 H3 H4. unfold bookingFieldsPresent. simpl eventSlug. simpl inviteeName.
  simpl inviteeEmail. simpl timezone. simpl startTime.
  rewrite !truthy_nonempty by assumption. reflexivity.
Qed.

(** The route is the run of its four statements. *)
Lemma createBooking_steps (db : DB) (req : BookingRequest) :
  let '(t1, db1) := bookingStep db (AtLookup req) in
  let '(t2, db2) := bookingStep db1 t1 in
  let '(t3, db3) := bookingStep db2 t2 in
  let '(t4, db4) := bookingStep db3 t3 in
  (t4, db4) = (Replied (fst (createBooking db req)), snd (createBooking db req)).
Proof.
  unfold createBooking. simpl bookingStep.
  destruct (startTime req) as [st|]; [ | reflexivity ].
  destruct (bookingFieldsPresent req); [ | reflexivity ].
  destruct (eventTypeBySlug db (text (eventSlug req))) as [et|]; [ | reflexivity ].
  simpl bookingStep.
  destruct (conflictingBookings db (et_id et)
              (addMinutes (momentTz st (text (timezone req))) (duration_minutes et))
              (momentTz st (text (timezone req)))); reflexivity.
Qed.

(** With every field present and the event type found, the route is its
    conflict check followed by the insert. *)
Lemma createBooking_present
    (db : DB) (slug who mail tz : string) (st : DateTimeInput) (et : EventType) :
  slug <> "" -> who <> "" -> mail <> "" -> tz <> "" ->
  eventTypeBySlug db slug = Some et ->
  createBooking db (mkBookingRequest (Some slug) (Some who) (Some mail) (Some st) (Some tz))
  = match conflictingBookings db (et_id et)
            (addMinutes (momentTz st tz) (duration_minutes et)) (momentTz st tz) with
    | _ :: _ => (Failure 409 "This time slot is already booked", db)
    | [] =>
        (Json 201
           (joinedMeetingById
              (snd (insertMeeting db (et_id et) who mail (momentTz st tz)
                      (addMinutes (momentTz st tz) (duration_minutes et)) tz))
              (next_meeting_id db)),
         snd (insertMeeting db (et_id et) who mail (momentTz st tz)
                (addMinutes (momentTz st tz) (duration_minutes et)) tz))
    end.
Proof.
  intros Hslug Hwho Hmail Htz Het.
  unfold createBooking. simpl startTime.
  rewrite bookingFieldsPresent_full by assumption.
  simpl text. rewrite Het. reflexivity.
Qed.

Lemma conflictingBookings_nonempty (db : DB) (etId : Z) (e s : Instant) :
  conflictingBookings db etId e s <> [] <->
  exists m, In m (meetings db) /\ m_event_type_id m = etId /\ m_status m = scheduled
            /\ m_start_time m < e /\ m_end_time m > s.
Proof.
  split.
  - intro Hne.
    destruct (conflictingBookings db etId e s) as [|m l] eqn:E; [ contradiction | ].
    exists m. apply conflictingBookings_spec. rewrite E. left. reflexivity.
  - intros [m Hm] E. apply conflictingBookings_spec in Hm.
    rewrite E in Hm. exact Hm.
Qed.

(** C1. Booking, one request at a time.  For a request with every required
    field present and an existing event type, with [startUTC] the requested
    start read in the requested zone and [endUTC] the start plus the
    duration: the route answers Conflict and leaves the database as it was
    exactly when some scheduled meeting of the event type has
    [start < endUTC] and [end > startUTC]; otherwise it answers 201 and the
    meetings table gains exactly one row, scheduled, holding
    [startUTC, endUTC). *)
Theorem createBooking_contract
    (db : DB) (slug who mail tz : string) (st : DateTimeInput) (et : EventType) :
  slug <> "" -> who <> "" -> mail <> "" -> tz <> "" ->
  eventTypeBySlug db slug = Some et ->
  let req := mkBookingRequest (Some slug) (Some who) (Some mail) (Some st) (Some tz) in
  let startUTC := momentTz st tz in
  let endUTC := addMinutes startUTC (duration_minutes et) in
  let clash :=
    exists m, In m (meetings db) /\ m_event_type_id m = et_id et
              /\ m_status m = scheduled
              /\ m_start_time m < endUTC /\ m_end_time m > startUTC in
  (clash <->
   errorKind (fst (createBooking db req)) = Some Conflict
   /\ snd (createBooking db req) = db)
  /\ (~ clash ->
      replyStatus (fst (createBooking db req)) = 201
      /\ meetings (snd (createBooking db req))
         = (meetings db
            ++ [mkMeeting (next_meeting_id db) (et_id et) who mail startUTC endUTC
                          tz scheduled])%list
      /\ event_types (snd (createBooking db req)) = event_types db
      /\ availability (snd (createBooking db req)) = availability db
      /\ availability_overrides (snd (createBooking db req))
         = availability_overrides db).
Proof.
  intros Hslug Hwho Hmail Htz Het req startUTC endUTC clash.
  unfold req. rewrite (createBooking_present db slug who mail tz st et) by assumption.
  fold startUTC. fold endUTC.
  pose proof (conflictingBookings_nonempty db (et_id et) endUTC startUTC) as Hclash.
  fold clash in Hclash.
  destruct (conflictingBookings db (et_id et) endUTC startUTC) as [|m l].
  - split.
    + split.
      * intro Hc. apply Hclash in Hc. contradiction.
      * intros [Hk _]. simpl in Hk. discriminate Hk.
    + intros _. simpl. repeat split; reflexivity.
  - split.
    + split.
      * intros _. simpl. split; reflexivity.
      * intros _. apply Hclash. discriminate.
    + intros Hn. exfalso. apply Hn. apply Hclash. discriminate.
Qed.

(** C9. The booking route looks at nothing but the scheduled meetings of the
    event type: whatever the availability rules and the overrides in the
    database are, a well-formed request that overlaps no scheduled meeting
    of the event type is answered 201 and its meeting is stored.  The route
    never reads the clock, so this includes start times in the past. *)
Theorem createBooking_ignores_availability
    (db : DB) (slug who mail tz : string) (st : DateTimeInput) (et : EventType)
    (rules : list Availability) (blocks : list Override) :
  slug <> "" -> who <> "" -> mail <> "" -> tz <> "" ->
  eventTypeBySlug db slug = Some et ->
  let req := mkBookingRequest (Some slug) (Some who) (Some mail) (Some st) (Some tz) in
  let startUTC := momentTz st tz in
  let endUTC := addMinutes startUTC (duration_minutes et) in
  (forall m, In m (meetings db) -> m_event_type_id m = et_id et ->
             m_status m = scheduled ->
             ~ overlaps (m_start_time m) (m_end_time m) startUTC endUTC) ->
  let db0 := mkDB (event_types db) rules blocks (meetings db) (next_meeting_id db) in
  replyStatus (fst (createBooking db0 req)) = 201
  /\ meetings (snd (createBooking db0 req))
     = (meetings db
        ++ [mkMeeting (next_meeting_id db) (et_id et) who mail startUTC endUTC
                      tz scheduled])%list.
Proof.
  intros Hslug Hwho Hmail Htz Het req startUTC endUTC Hfree db0.
  assert (Het0 : eventTypeBySlug db0 slug = Some et) by exact Het.
  unfold req. rewrite (createBooking_present db0 slug who mail tz st et) by assumption.
  fold startUTC. fold endUTC.
  pose proof (conflictingBookings_nonempty db0 (et_id et) endUTC startUTC) as Hclash.
  destruct (conflictingBookings db0 (et_id et) endUTC startUTC) as [|m l].
  - simpl. split; reflexivity.
  - exfalso.
    destruct (proj1 Hclash) as [m' (Hin & Hid & Hst & Hlt & Hgt)]; [ discriminate | ].
    apply (Hfree m' Hin Hid Hst). unfold overlaps. split.
    + exact Hlt.
    + apply Z.gt_lt. exact Hgt.
Qed.

(* --------------------------------------------------------------------- *)
(** *** Slot generation: the loop *)

Lemma hasConflict_spec (bookings : list (Instant * Instant)) (s e : Instant) :
  hasConflict bookings s e = true <->
  exists b, In b bookings /\ s < snd b /\ fst b < e.
Proof.
  unfold hasConflict. rewrite existsb_exists.
  split; intros [b [Hin H]]; exists b; split; try exact Hin.
  - apply andb_true_iff in H. destruct H as [H1 H2].
    apply Z.ltb_lt in H1. apply Z.gtb_gt in H2. split; [ exact H1 | lia ].
  - apply andb_true_iff. split; [ apply Z.ltb_lt | apply Z.gtb_gt ]; lia.
Qed.

Lemma addMinutes_addMinutes (t a b : Z) :
  addMinutes (addMinutes t a) b = addMinutes t (a + b).
Proof. unfold addMinutes. lia. Qed.

Lemma candidateStarts_succ (d : Z) (s : Instant) (n : nat) :
  candidateStarts d s (S n) = s :: candidateStarts d (addMinutes s d) n.
Proof.
  unfold candidateStarts. simpl seq. simpl map. f_equal.
  - unfold addMinutes. lia.
  - rewrite <- seq_shift, map_map. apply map_ext. intro k.
    rewrite addMinutes_addMinutes. f_equal. lia.
Qed.

Lemma candidateStarts_In (d : Z) (s : Instant) (n : nat) (a : Instant) :
  In a (candidateStarts d s n) <->
  exists k, (k < n)%nat /\ a = addMinutes s (Z.of_nat k * d).
Proof.
  unfold candidateStarts. rewrite in_map_iff. split.
  - intros [k [E Hk]]. apply in_seq in Hk. exists k. split; [ lia | now symmetry ].
  - intros [k [Hk E]]. exists k. split; [ now symmetry | apply in_seq; lia ].
Qed.

(** When the loop finishes it has walked the candidates in order, pushing
    each by [pushIfFree]; every candidate fits in the range and the next
    one does not. *)
Lemma slotLoop_candidates (now : Instant) (bookings : list (Instant * Instant))
    (d : Z) (availTz tz : string) (endM : Instant) :
  forall (fuel : nat) (cur : Instant) (l : list Slot),
    slotLoop fuel now bookings d availTz tz endM cur = Some l ->
    exists n,
      l = flat_map (pushIfFree now bookings d availTz tz) (candidateStarts d cur n)
      /\ (forall a, In a (candidateStarts d cur n) -> addMinutes a d <= endM)
      /\ ~ (addMinutes (addMinutes cur (Z.of_nat n * d)) d <= endM).
Proof.
  induction fuel as [|fuel IH]; intros cur l H; simpl in H.
  - destruct (addMinutes cur d <=? endM) eqn:G; [ discriminate | ].
    injection H as <-. exists O. apply Z.leb_gt in G.
    repeat split.
    + intros a [].
    + unfold addMinutes in *. simpl. lia.
  - destruct (addMinutes cur d <=? endM) eqn:G.
    + destruct (slotLoop fuel now bookings d availTz tz endM (addMinutes cur d))
        as [rest|] eqn:R; [ | discriminate ].
      injection H as <-.
      destruct (IH _ _ R) as [n (Hl & Hfit & Hstop)].
      exists (S n). rewrite candidateStarts_succ. repeat split.
      * simpl. rewrite Hl. reflexivity.
      * intros a [<- | Ha]; [ apply Z.leb_le; exact G | apply Hfit; exact Ha ].
      * unfold addMinutes in *. lia.
    + injection H as <-. exists O. apply Z.leb_gt in G.
      repeat split.
      * intros a [].
      * unfold addMinutes in *. simpl. lia.
Qed.

(** With a positive duration the loop finishes. *)
Lemma slotLoop_terminates (now : Instant) (bookings : list (Instant * Instant))
    (d : Z) (availTz tz : string) (endM : Instant) :
  0 < d ->
  forall (fuel : nat) (cur : Instant),
    (Z.to_nat (endM - cur) <= fuel)%nat ->
    exists l, slotLoop fuel now bookings d availTz tz endM cur = Some l.
Proof.
  intros Hd. induction fuel as [|fuel IH]; intros cur Hf; simpl.
  - destruct (addMinutes cur d <=? endM) eqn:G; [ | eexists; reflexivity ].
    apply Z.leb_le in G. unfold addMinutes, msPerMinute in G. lia.
  - destruct (addMinutes cur d <=? endM) eqn:G; [ | eexists; reflexivity ].
    apply Z.leb_le in G.
    destruct (IH (addMinutes cur d)) as [l Hl].
    + unfold addMinutes, msPerMinute in *. lia.
    + rewrite Hl. eexists; reflexivity.
Qed.

(** More fuel does not change a finished run. *)
Lemma slotLoop_more_fuel (now : Instant) (bookings : list (Instant * Instant))
    (d : Z) (availTz tz : string) (endM : Instant) :
  forall (fuel fuel' : nat) (cur : Instant) (l : list Slot),
    (fuel <= fuel')%nat ->
    slotLoop fuel now bookings d availTz tz endM cur = Some l ->
    slotLoop fuel' now bookings d availTz tz endM cur = Some l.
Proof.
  induction fuel as [|fuel IH]; intros fuel' cur l Hle H.
  - simpl in H. destruct (addMinutes cur d <=? endM) eqn:G; [ discriminate | ].
    destruct fuel'; simpl; rewrite G; exact H.
  - destruct fuel' as [|fuel']; [ lia | ].
    simpl in H |- *. destruct (addMinutes cur d <=? endM); [ | exact H ].
    destruct (slotLoop fuel now bookings d availTz tz endM (addMinutes cur d))
      as [rest|] eqn:R; [ | discriminate ].
    rewrite (IH fuel' _ rest); [ exact H | lia | exact R ].
Qed.

Lemma rangeSlots_more_fuel (now : Instant) (bookings : list (Instant * Instant))
    (d date : Z) (tz : string) (r : TimeRange) (fuel fuel' : nat) (l : list Slot) :
  (fuel <= fuel')%nat ->
  rangeSlots fuel now bookings d date tz r = Some l ->
  rangeSlots fuel' now bookings d date tz r = Some l.
Proof.
  unfold rangeSlots. intros Hle.
  destruct (momentAt date (range_start r) _); [ | trivial ].
  destruct (momentAt date (range_end r) _); [ | trivial ].
  apply slotLoop_more_fuel. exact Hle.
Qed.

Lemma rangeSlots_terminates (now : Instant) (bookings : list (Instant * Instant))
    (d date : Z) (tz : string) (r : TimeRange) :
  0 < d ->
  exists fuel l, rangeSlots fuel now bookings d date tz r = Some l.
Proof.
  intros Hd. unfold rangeSlots.
  destruct (momentAt date (range_start r) _) as [s|]; [ | exists O; eexists; reflexivity ].
  destruct (momentAt date (range_end r) _) as [e|]; [ | exists O; eexists; reflexivity ].
  exists (Z.to_nat (e - s)).
  apply slotLoop_terminates; [ exact Hd | lia ].
Qed.

Lemma allRangeSlots_more_fuel (now : Instant) (bookings : list (Instant * Instant))
    (d date : Z) (tz : string) (fuel fuel' : nat) :
  (fuel <= fuel')%nat ->
  forall (ranges : list TimeRange) (l : list Slot),
    allRangeSlots fuel now bookings d date tz ranges = Some l ->
    allRangeSlots fuel' now bookings d date tz ranges = Some l.
Proof.
  intros Hle. induction ranges as [|r rs IH]; intros l H; simpl in *.
  - exact H.
  - destruct (rangeSlots fuel now bookings d date tz r) as [l1|] eqn:R1; [ | discriminate ].
    destruct (allRangeSlots fuel now bookings d date tz rs) as [l2|] eqn:R2; [ | discriminate ].
    rewrite (rangeSlots_more_fuel _ _ _ _ _ _ _ _ _ Hle R1), (IH _ eq_refl). exact H.
Qed.

Lemma allRangeSlots_terminates (now : Instant) (bookings : list (Instant * Instant))
    (d date : Z) (tz : string) :
  0 < d ->
  forall ranges : list TimeRange,
    exists fuel l, allRangeSlots fuel now bookings d date tz ranges = Some l.
Proof.
  intros Hd. induction ranges as [|r rs IH].
  - exists O, []. reflexivity.
  - destruct IH as (f2 & l2 & H2).
    destruct (rangeSlots_terminates now bookings d date tz r Hd) as (f1 & l1 & H1).
    exists (Nat.max f1 f2), (l1 ++ l2)%list. simpl.
    rewrite (rangeSlots_more_fuel _ _ _ _ _ _ f1 (Nat.max f1 f2) l1 (Nat.le_max_l _ _) H1).
    rewrite (allRangeSlots_more_fuel _ _ _ _ _ f2 (Nat.max f1 f2) (Nat.le_max_r _ _) _ _ H2).
    reflexivity.
Qed.

(* --------------------------------------------------------------------- *)
(** *** Sorting *)

Section SortBy.
Context {A : Type} (le : A -> A -> bool).

Lemma insertBy_perm (x : A) (l : list A) : Permutation (insertBy le x l) (x :: l).
Proof.
  induction l as [|y tl IH]; simpl.
  - apply Permutation_refl.
  - destruct (le x y).
    + apply Permutation_refl.
    + apply perm_trans with (y :: x :: tl).
      * apply perm_skip. exact IH.
      * apply perm_swap.
Qed.

Lemma sortBy_perm (l : list A) : Permutation (sortBy le l) l.
Proof.
  induction l as [|x tl IH]; simpl.
  - apply perm_nil.
  - apply perm_trans with (x :: sortBy le tl).
    + apply insertBy_perm.
    + apply perm_skip. exact IH.
Qed.

Lemma sortBy_In (x : A) (l : list A) : In x (sortBy le l) <-> In x l.
Proof.
  split; apply Permutation_in;
    [ apply sortBy_perm | apply Permutation_sym, sortBy_perm ].
Qed.

Hypothesis le_total : forall a b, le a b = false -> le b a = true.

Lemma insertBy_sorted (x : A) (l : list A) :
  Sorted (fun a b => le a b = true) l ->
  Sorted (fun a b => le a b = true) (insertBy le x l).
Proof.
  induction l as [|y tl IH]; intro Hs; simpl.
  - constructor; constructor.
  - destruct (le x y) eqn:E.
    + constructor; [ exact Hs | constructor; exact E ].
    + inversion Hs as [|? ? Htl Hhd]; subst.
      constructor; [ apply IH; exact Htl | ].
      destruct tl as [|z tl']; simpl.
      * constructor. apply le_total. exact E.
      * destruct (le x z); constructor.
        -- apply le_total. exact E.
        -- inversion Hhd; assumption.
Qed.

Lemma sortBy_sorted (l : list A) : Sorted (fun a b => le a b = true) (sortBy le l).
Proof.
  induction l as [|x tl IH]; simpl.
  - constructor.
  - apply insertBy_sorted. exact IH.
Qed.
End SortBy.

(* --------------------------------------------------------------------- *)
(** *** Slot generation: the route *)

Lemma generateSlots_more_fuel (fuel fuel' : nat) (now : Instant) (db : DB)
    (slug : string) (date : option Z) (tzParam : option string) (r : Reply (list Slot)) :
  (fuel <= fuel')%nat ->
  generateSlots fuel now db slug date tzParam = Some r ->
  generateSlots fuel' now db slug date tzParam = Some r.
Proof.
  intros Hle. unfold generateSlots.
  destruct date as [date|]; [ | trivial ].
  destruct (eventTypeBySlug db slug) as [et|]; [ | trivial ].
  destruct (availabilityOf db (et_id et)) as [|a rules]; [ trivial | ].
  destruct (filter _ (a :: rules)) as [|a' day]; [ trivial | ].
  destruct (blocked _); [ trivial | ].
  destruct (allRangeSlots fuel _ _ _ _ _ _) as [slots|] eqn:R; [ | discriminate ].
  rewrite (allRangeSlots_more_fuel _ _ _ _ _ _ _ Hle _ _ R). trivial.
Qed.

(** With a positive duration the route answers. *)
Lemma generateSlots_terminates (now : Instant) (db : DB) (slug : string)
    (date : option Z) (tzParam : option string) :
  (forall et, eventTypeBySlug db slug = Some et -> 0 < duration_minutes et) ->
  exists fuel r, generateSlots fuel now db slug date tzParam = Some r.
Proof.
  intros Hd. unfold generateSlots.
  destruct date as [date|]; [ | exists O; eexists; reflexivity ].
  destruct (eventTypeBySlug db slug) as [et|]; [ | exists O; eexists; reflexivity ].
  specialize (Hd et eq_refl).
  destruct (availabilityOf db (et_id et)) as [|a rules];
    [ exists O; eexists; reflexivity | ].
  destruct (filter _ (a :: rules)) as [|a' day]; [ exists O; eexists; reflexivity | ].
  destruct (blocked _); [ exists O; eexists; reflexivity | ].
  match goal with
  | |- context [allRangeSlots _ ?n ?b ?d ?dt ?z ?rs] =>
      destruct (allRangeSlots_terminates n b d dt z Hd rs) as (fuel & l & Hl)
  end.
  exists fuel. rewrite Hl. eexists; reflexivity.
Qed.

(** The answer is ordered by start as the server's clock reads it. *)
Lemma generateSlots_sorted (fuel : nat) (now : Instant) (db : DB) (slug : string)
    (date : option Z) (tzParam : option string) (slots : list Slot) :
  generateSlots fuel now db slug date tzParam = Some (Json 200 slots) ->
  Sorted (fun a b => startsNoLater a b = true) slots.
Proof.
  unfold generateSlots.
  destruct date as [date|]; [ | discriminate ].
  destruct (eventTypeBySlug db slug) as [et|]; [ | discriminate ].
  destruct (availabilityOf db (et_id et)) as [|a rules];
    [ intro H; injection H as <-; constructor | ].
  destruct (filter _ (a :: rules)) as [|a' day];
    [ intro H; injection H as <-; constructor | ].
  destruct (blocked _); [ intro H; injection H as <-; constructor | ].
  destruct (allRangeSlots fuel _ _ _ _ _ _) as [l|]; [ | discriminate ].
  intro H. injection H as <-. apply sortBy_sorted.
  intros x y Hxy. unfold startsNoLater in *.
  apply Z.leb_gt in Hxy. apply Z.leb_le. lia.
Qed.

Lemma pushIfFree_In (now : Instant) (bookings : list (Instant * Instant))
    (d : Z) (availTz tz : string) (cur : Instant) (x : Slot) :
  In x (pushIfFree now bookings d availTz tz cur) ->
  x = mkSlot (formatCivil (getZone availTz) cur)
             (formatCivil (getZone availTz) (addMinutes cur d)) tz
  /\ hasConflict bookings cur (addMinutes cur d) = false
  /\ isPast now cur = false.
Proof.
  unfold pushIfFree.
  destruct (hasConflict bookings cur (addMinutes cur d)); simpl; [ intros [] | ].
  destruct (isPast now cur); simpl; [ intros [] | ].
  intros [<- | []]. repeat split.
Qed.

Lemma pushIfFree_spec (now : Instant) (bookings : list (Instant * Instant))
    (d : Z) (availTz tz : string) (cur : Instant) (x : Slot) :
  In x (pushIfFree now bookings d availTz tz cur) <->
  x = mkSlot (formatCivil (getZone availTz) cur)
             (formatCivil (getZone availTz) (addMinutes cur d)) tz
  /\ hasConflict bookings cur (addMinutes cur d) = false
  /\ now <= cur.
Proof.
  unfold pushIfFree, isPast.
  destruct (hasConflict bookings cur (addMinutes cur d)); simpl.
  - split; [ intros [] | intros (_ & H & _); discriminate H ].
  - destruct (Z.ltb_spec cur now); simpl.
    + split; [ intros [] | intros (_ & _ & H'); lia ].
    + split.
      * intros [<- | []]. repeat split. exact H.
      * intros (-> & _ & _). left. reflexivity.
Qed.

(** With a positive duration, a finished loop has walked the whole
    multiples of the duration that fit between the start and the end of the
    range. *)
Lemma slotLoop_exact (now : Instant) (bookings : list (Instant * Instant))
    (d : Z) (availTz tz : string) (endM : Instant) :
  0 < d ->
  forall (fuel : nat) (cur : Instant) (l : list Slot),
    slotLoop fuel now bookings d availTz tz endM cur = Some l ->
    l = flat_map (pushIfFree now bookings d availTz tz)
                 (candidateStarts d cur (slotCount d cur endM)).
Proof.
  intros Hd fuel cur l H.
  destruct (slotLoop_candidates now bookings d availTz tz endM fuel cur l H)
    as [n (Hl & Hfit & Hstop)].
  assert (E : n = slotCount d cur endM); [ | rewrite <- E; exact Hl ].
  unfold slotCount.
  assert (HD : 0 < d * msPerMinute) by (unfold msPerMinute; lia).
  destruct n as [|m].
  - assert (Hq : (endM - cur) / (d * msPerMinute) < 1).
    { apply Z.div_lt_upper_bound; [ exact HD | ].
      unfold addMinutes, msPerMinute in *. simpl in Hstop. lia. }
    lia.
  - assert (Hlast : In (addMinutes cur (Z.of_nat m * d)) (candidateStarts d cur (S m))).
    { apply candidateStarts_In. exists m. split; [ lia | reflexivity ]. }
    apply Hfit in Hlast.
    rewrite <- (Z.div_unique (endM - cur) (d * msPerMinute) (Z.of_nat (S m))
                  (endM - cur - d * msPerMinute * Z.of_nat (S m))).
    + rewrite Nat2Z.id. reflexivity.
    + left. unfold addMinutes, msPerMinute in *. lia.
    + lia.
Qed.

Lemma rangeSlots_exact (fuel : nat) (now : Instant) (bookings : list (Instant * Instant))
    (d date : Z) (tz : string) (r : TimeRange) (l : list Slot) :
  0 < d ->
  rangeSlots fuel now bookings d date tz r = Some l ->
  l = flat_map (pushIfFree now bookings d (orElse (Some (range_timezone r)) "UTC") tz)
               (rangeCandidates d date r).
Proof.
  intros Hd. unfold rangeSlots, rangeCandidates.
  destruct (momentAt date (range_start r) _) as [s|];
    [ | intro H; injection H as <-; reflexivity ].
  destruct (momentAt date (range_end r) _) as [e|];
    [ | intro H; injection H as <-; reflexivity ].
  apply slotLoop_exact. exact Hd.
Qed.

Lemma allRangeSlots_exact (fuel : nat) (now : Instant) (bookings : list (Instant * Instant))
    (d date : Z) (tz : string) :
  0 < d ->
  forall (ranges : list TimeRange) (l : list Slot),
    allRangeSlots fuel now bookings d date tz ranges = Some l ->
    l = offered now bookings d date tz ranges.
Proof.
  intros Hd. induction ranges as [|r rs IH]; intros l H; simpl in H.
  - injection H as <-. reflexivity.
  - destruct (rangeSlots fuel now bookings d date tz r) as [l1|] eqn:R1; [ | discriminate ].
    destruct (allRangeSlots fuel now bookings d date tz rs) as [l2|] eqn:R2; [ | discriminate ].
    injection H as <-. unfold offered. simpl.
    rewrite (rangeSlots_exact _ _ _ _ _ _ _ _ Hd R1), (IH l2 eq_refl). reflexivity.
Qed.

(** The candidates of a range, for a positive duration: the start of the
    range moved by whole multiples of the duration, as long as the slot
    still ends by the end of the range. *)
Lemma rangeCandidates_spec (d date : Z) (r : TimeRange) (cur : Instant) :
  0 < d ->
  (In cur (rangeCandidates d date r) <->
   exists S E k,
     momentAt date (range_start r) (orElse (Some (range_timezone r)) "UTC") = Some S
     /\ momentAt date (range_end r) (orElse (Some (range_timezone r)) "UTC") = Some E
     /\ cur = addMinutes S (Z.of_nat k * d)
     /\ addMinutes cur d <= E).
Proof.
  intros Hd. unfold rangeCandidates.
  destruct (momentAt date (range_start r) _) as [s|];
    [ | split; [ intros [] | intros (S & E & k & H & _); discriminate H ] ].
  destruct (momentAt date (range_end r) _) as [e|];
    [ | split; [ intros [] | intros (S & E & k & _ & H & _); discriminate H ] ].
  rewrite candidateStarts_In. unfold slotCount.
  assert (HD : 0 < d * msPerMinute) by (unfold msPerMinute; lia).
  pose proof (Z.mul_div_le (e - s) (d * msPerMinute) HD) as Hlo.
  pose proof (Z.mul_succ_div_gt (e - s) (d * msPerMinute) HD) as Hhi.
  set (q := (e - s) / (d * msPerMinute)) in *.
  split.
  - intros [k [Hk ->]]. exists s, e, k. repeat split.
    assert (Z.of_nat k + 1 <= q) by lia.
    unfold addMinutes, msPerMinute in *. nia.
  - intros (S & E & k & HS & HE & -> & Hfit).
    injection HS as <-. injection HE as <-.
    exists k. split; [ | reflexivity ].
    assert (Z.of_nat k < q); [ | lia ].
    unfold addMinutes, msPerMinute in *. nia.
Qed.

(** The slots pushed for a list of ranges. *)
Lemma offered_In (now : Instant) (bookings : list (Instant * Instant))
    (d date : Z) (tz : string) (ranges : list TimeRange) (x : Slot) :
  In x (offered now bookings d date tz ranges) <->
  exists r cur,
    In r ranges
    /\ In cur (rangeCandidates d date r)
    /\ hasConflict bookings cur (addMinutes cur d) = false
    /\ now <= cur
    /\ x = mkSlot (formatCivil (getZone (orElse (Some (range_timezone r)) "UTC")) cur)
                  (formatCivil (getZone (orElse (Some (range_timezone r)) "UTC"))
                               (addMinutes cur d))
                  tz.
Proof.
  unfold offered. rewrite in_flat_map. split.
  - intros [r [Hr Hx]]. apply in_flat_map in Hx. destruct Hx as [cur [Hcur Hx]].
    apply pushIfFree_spec in Hx. destruct Hx as (Hx & Hc & Hn).
    exists r, cur. repeat split; assumption.
  - intros (r & cur & Hr & Hcur & Hc & Hn & Hx). exists r. split; [ exact Hr | ].
    apply in_flat_map. exists cur. split; [ exact Hcur | ].
    apply pushIfFree_spec. repeat split; assumption.
Qed.

(** The answer of the route for an event type with a positive duration:
    the slots pushed for the ranges it walks, sorted. *)
Lemma generateSlots_exact (fuel : nat) (now : Instant) (db : DB) (slug : string)
    (date : Z) (tzParam : option string) (et : EventType) (r : Reply (list Slot)) :
  eventTypeBySlug db slug = Some et ->
  0 < duration_minutes et ->
  generateSlots fuel now db slug (Some date) tzParam = Some r ->
  r = Json 200
        (sortBy startsNoLater
           (offered now
              (existingBookings db (et_id et)
                 (match tzParam with Some t => t | None => "UTC" end) date)
              (duration_minutes et) date
              (match tzParam with Some t => t | None => "UTC" end)
              (effectiveRanges db (et_id et)
                 (match tzParam with Some t => t | None => "UTC" end) date))).
Proof.
  intros Het Hd. unfold generateSlots, effectiveRanges. rewrite Het.
  set (tz := match tzParam with Some t => t | None => "UTC" end).
  destruct (availabilityOf db (et_id et)) as [|a rules];
    [ intro H; injection H as <-; reflexivity | ].
  destruct (filter _ (a :: rules)) as [|a' day];
    [ intro H; injection H as <-; reflexivity | ].
  destruct (blocked _); [ intro H; injection H as <-; reflexivity | ].
  destruct (allRangeSlots fuel _ _ _ _ _ _) as [l|] eqn:R; [ | discriminate ].
  intro H. injection H as <-.
  rewrite (allRangeSlots_exact _ _ _ _ _ _ Hd _ _ R). reflexivity.
Qed.

Lemma generateSlots_answers (now : Instant) (db : DB) (slug : string)
    (date : Z) (tzParam : option string) (et : EventType) :
  eventTypeBySlug db slug = Some et ->
  0 < duration_minutes et ->
  exists fuel,
    generateSlots fuel now db slug (Some date) tzParam
    = Some (Json 200
        (sortBy startsNoLater
           (offered now
              (existingBookings db (et_id et)
                 (match tzParam with Some t => t | None => "UTC" end) date)
              (duration_minutes et) date
              (match tzParam with Some t => t | None => "UTC" end)
              (effectiveRanges db (et_id et)
                 (match tzParam with Some t => t | None => "UTC" end) date)))).
Proof.
  intros Het Hd.
  destruct (generateSlots_terminates now db slug (Some date) tzParam) as (fuel & r & H).
  - intros et' Het'. rewrite Het in Het'. injection Het' as <-. exact Hd.
  - exists fuel. rewrite H. f_equal.
    exact (generateSlots_exact fuel now db slug date tzParam et r Het Hd H).
Qed.

(** The ranges walked when the date has an override that is available and
    carries both times: its single range, once the weekday has a rule. *)
Lemma effectiveRanges_override (db : DB) (etId : Z) (tz : string) (date : Z)
    (ov : Override) (s e : Z) :
  overrideFor db etId date = Some ov ->
  is_available ov = true -> ov_start_time ov = Some s -> ov_end_time ov = Some e ->
  effectiveRanges db etId tz date
  = match filter (fun a => day_of_week a =? dayOfWeek tz date) (availabilityOf db etId) with
    | [] => []
    | _ :: _ => [mkTimeRange s e tz]
    end.
Proof.
  intros Hov Hav Hs He. unfold effectiveRanges.
  destruct (filter _ (availabilityOf db etId)) as [|a day]; [ reflexivity | ].
  rewrite Hov. unfold blocked, timeRanges. rewrite Hav, Hs, He. reflexivity.
Qed.

(** C4. Conflict filtering in the slot loop.  A candidate that is not past
    is dropped exactly when some loaded meeting has
    [slotStartUTC < meetingEnd] and [meetingStart < slotEndUTC], and is
    pushed otherwise; a past candidate is dropped; a meeting that ends at
    the instant a candidate starts is no conflict; a finished loop has
    applied this decision to each candidate of the range in order; and with
    a positive duration the loop finishes. *)
Theorem slot_conflict_filter
    (now : Instant) (bookings : list (Instant * Instant)) (d : Z) (availTz tz : string) :
  (forall slotStartUTC,
      let slotEndUTC := addMinutes slotStartUTC d in
      let conflict :=
        exists b, In b bookings /\ slotStartUTC < snd b /\ fst b < slotEndUTC in
      (isPast now slotStartUTC = false ->
       (pushIfFree now bookings d availTz tz slotStartUTC = [] <-> conflict)
       /\ (~ conflict ->
           pushIfFree now bookings d availTz tz slotStartUTC
           = [mkSlot (formatCivil (getZone availTz) slotStartUTC)
                     (formatCivil (getZone availTz) slotEndUTC) tz]))
      /\ (isPast now slotStartUTC = true ->
          pushIfFree now bookings d availTz tz slotStartUTC = []))
  /\ (forall meetingStart t, hasConflict [(meetingStart, t)] t (addMinutes t d) = false)
  /\ (forall fuel endMoment startMoment slots,
        slotLoop fuel now bookings d availTz tz endMoment startMoment = Some slots ->
        exists n,
          slots = flat_map (pushIfFree now bookings d availTz tz)
                           (candidateStarts d startMoment n)
          /\ (forall a, In a (candidateStarts d startMoment n) ->
                        addMinutes a d <= endMoment)
          /\ ~ (addMinutes (addMinutes startMoment (Z.of_nat n * d)) d <= endMoment))
  /\ (0 < d ->
      forall endMoment startMoment,
      exists fuel slots,
        slotLoop fuel now bookings d availTz tz endMoment startMoment = Some slots).
Proof.
  split; [ | split; [ | split ] ].
  - intros s slotEndUTC conflict.
    pose proof (hasConflict_spec bookings s slotEndUTC) as Hc. fold conflict in Hc.
    unfold pushIfFree. fold slotEndUTC.
    destruct (hasConflict bookings s slotEndUTC) eqn:E.
    + split; [ | reflexivity ].
      intros _. simpl. split.
      * split; [ intros _; apply Hc; reflexivity | reflexivity ].
      * intro Hn. exfalso. apply Hn, Hc. reflexivity.
    + split.
      * intros ->. simpl. split; [ | reflexivity ].
        split; [ discriminate | ].
        intro H. apply Hc in H. discriminate H.
      * intros ->. reflexivity.
  - intros ms t. unfold hasConflict. simpl.
    rewrite Z.ltb_irrefl. reflexivity.
  - intros fuel endM startM slots H.
    exact (slotLoop_candidates now bookings d availTz tz endM fuel startM slots H).
  - intros Hd endM startM. exists (Z.to_nat (endM - startM)).
    apply slotLoop_terminates; [ exact Hd | apply Nat.le_refl ].
Qed.

(** C5. Overrides.  When the override row found for the event type and the
    date is unavailable, the route answers the empty list whatever the
    weekly rules are.  When it is available and carries a start and an end,
    [timeRanges] is the single range of the override in the viewer's zone
    whatever the weekly rows are; the route, which has looked at the weekly
    rules first, answers the empty list when the weekday has no rule, and
    otherwise, for a positive duration, it answers, and its answer is
    exactly the sorted list of the slots pushed for the candidates of that
    single range: the times of the weekly rules play no part.  The
    candidates are the start of the override moved by whole multiples of
    the duration for which the slot ends by the end of the override. *)
Theorem override_replaces_rules
    (now : Instant) (db : DB) (slug : string) (date : Z)
    (tzParam : option string) (et : EventType) (ov : Override) :
  eventTypeBySlug db slug = Some et ->
  overrideFor db (et_id et) date = Some ov ->
  let tz := match tzParam with Some t => t | None => "UTC" end in
  let zoneName := orElse (Some tz) "UTC" in
  let d := duration_minutes et in
  let weekdayRules :=
    filter (fun a => day_of_week a =? dayOfWeek tz date) (availabilityOf db (et_id et)) in
  (is_available ov = false ->
   forall fuel,
     generateSlots fuel now db slug (Some date) tzParam = Some (Json 200 []))
  /\ (forall s e,
        is_available ov = true -> ov_start_time ov = Some s -> ov_end_time ov = Some e ->
        let answer :=
          Json 200
            (sortBy startsNoLater
               (flat_map
                  (pushIfFree now (existingBookings db (et_id et) tz date) d zoneName tz)
                  (rangeCandidates d date (mkTimeRange s e tz)))) in
        (forall dayAvailability,
            timeRanges (Some ov) dayAvailability tz = [mkTimeRange s e tz])
        /\ (weekdayRules = [] ->
            forall fuel,
              generateSlots fuel now db slug (Some date) tzParam = Some (Json 200 []))
        /\ (weekdayRules <> [] -> 0 < d ->
            (exists fuel,
                generateSlots fuel now db slug (Some date) tzParam = Some answer)
            /\ (forall fuel r,
                   generateSlots fuel now db slug (Some date) tzParam = Some r ->
                   r = answer))
        /\ (0 < d ->
            forall cur,
              In cur (rangeCandidates d date (mkTimeRange s e tz)) <->
              exists S E k,
                momentAt date s zoneName = Some S
                /\ momentAt date e zoneName = Some E
                /\ cur = addMinutes S (Z.of_nat k * d)
                /\ addMinutes cur d <= E)).
Proof.
  intros Het Hov tz zoneName d weekdayRules. split.
  - intros Hna fuel. unfold generateSlots. rewrite Het.
    destruct (availabilityOf db (et_id et)) as [|a rules]; [ reflexivity | ].
    destruct (filter _ (a :: rules)) as [|a' day]; [ reflexivity | ].
    rewrite Hov. unfold blocked. rewrite Hna. reflexivity.
  - intros s e Hav Hs He answer. split; [ | split; [ | split ] ].
    + intros day. unfold timeRanges. rewrite Hav, Hs, He. reflexivity.
    + intros Hnone fuel. unfold generateSlots. rewrite Het.
      destruct (availabilityOf db (et_id et)) as [|a rules] eqn:Hrules; [ reflexivity | ].
      fold tz. unfold weekdayRules in Hnone. rewrite Hnone. reflexivity.
    + intros Hsome Hd.
      assert (Heff : offered now (existingBookings db (et_id et) tz date) d date tz
                             (effectiveRanges db (et_id et) tz date)
                     = flat_map
                         (pushIfFree now (existingBookings db (et_id et) tz date) d
                                     zoneName tz)
                         (rangeCandidates d date (mkTimeRange s e tz))).
      { rewrite (effectiveRanges_override db (et_id et) tz date ov s e Hov Hav Hs He).
        fold weekdayRules. destruct weekdayRules as [|a day]; [ contradiction Hsome; reflexivity | ].
        unfold offered. simpl. rewrite app_nil_r. reflexivity. }
      split.
      * destruct (generateSlots_answers now db slug date tzParam et Het Hd) as [fuel H].
        exists fuel. rewrite H. fold tz d. rewrite Heff. reflexivity.
      * intros fuel r H.
        rewrite (generateSlots_exact fuel now db slug date tzParam et r Het Hd H).
        fold tz d. rewrite Heff. reflexivity.
    + intros Hd cur.
      exact (rangeCandidates_spec d date (mkTimeRange s e tz) cur Hd).
Qed.

(* --------------------------------------------------------------------- *)
(** *** Availability save *)

Lemma sameKey_sym (a b : Availability) : sameKey a b = sameKey b a.
Proof.
  unfold sameKey.
  rewrite (Z.eqb_sym (av_event_type_id a)), (Z.eqb_sym (day_of_week a)),
          (Z.eqb_sym (av_start_time a)), (Z.eqb_sym (av_end_time a)).
  reflexivity.
Qed.

Lemma existsb_false {A} (p : A -> bool) (l : list A) :
  existsb p l = false <-> forall x, In x l -> p x = false.
Proof.
  induction l as [|y tl IH]; simpl.
  - split; [ intros _ x [] | reflexivity ].
  - rewrite orb_false_iff, IH. split.
    + intros [Hy Htl] x [<- | Hx]; [ exact Hy | apply Htl; exact Hx ].
    + intro H. split; [ apply H; left; reflexivity | intros x Hx; apply H; right; exact Hx ].
Qed.

Lemma filter_all {A} (p : A -> bool) (l : list A) :
  (forall x, In x l -> p x = true) -> filter p l = l.
Proof.
  induction l as [|x tl IH]; intro H; simpl.
  - reflexivity.
  - rewrite (H x (or_introl eq_refl)). f_equal. apply IH.
    intros y Hy. apply H. right. exact Hy.
Qed.

Lemma filter_none {A} (p : A -> bool) (l : list A) :
  (forall x, In x l -> p x = false) -> filter p l = [].
Proof.
  induction l as [|x tl IH]; intro H; simpl.
  - reflexivity.
  - rewrite (H x (or_introl eq_refl)). apply IH.
    intros y Hy. apply H. right. exact Hy.
Qed.

(** One turn of the insert loop, in terms of the row the element stands
    for. *)
Lemma insertAll_cons (etId : Z) (a : AvailabilityInput) (rest : list AvailabilityInput)
    (rows0 : list Availability) :
  insertAll etId (a :: rest) rows0
  = match rowFor etId a with
    | Some r =>
        if fitsColumns r && negb (existsb (sameKey r) rows0)
        then insertAll etId rest (rows0 ++ [r])
        else None
    | None => None
    end.
Proof.
  simpl. unfold checkedRow, rowFor, insertAvailability.
  destruct (in_dayOfWeek a), (in_startTime a), (in_endTime a); simpl; try reflexivity.
  destruct (fitsColumns _ && negb _); reflexivity.
Qed.

Lemma rowFor_event (etId : Z) (a : AvailabilityInput) (r : Availability) :
  rowFor etId a = Some r -> av_event_type_id r = etId.
Proof.
  unfold rowFor.
  destruct (in_dayOfWeek a), (in_startTime a), (in_endTime a); try discriminate.
  intro H. injection H as <-. reflexivity.
Qed.

(** An element stands for no row exactly when its dayOfWeek is not a number
    or it has no startTime or no endTime. *)
Lemma rowFor_None (etId : Z) (a : AvailabilityInput) :
  rowFor etId a = None <->
  (forall n, in_dayOfWeek a <> JsNum n) \/ in_startTime a = None \/ in_endTime a = None.
Proof.
  unfold rowFor.
  destruct (in_dayOfWeek a) as [| |n], (in_startTime a), (in_endTime a);
    split; intro H; try reflexivity; try discriminate H;
    try (left; discriminate); try (right; left; reflexivity);
    try (right; right; reflexivity).
  destruct H as [H | [H | H]]; [ exfalso; exact (H n eq_refl) | discriminate H | discriminate H ].
Qed.

Lemma checked_rows_event (etId : Z) :
  forall (inputs : list AvailabilityInput) (rows : list Availability),
    map (rowFor etId) inputs = map Some rows ->
    forall r, In r rows -> av_event_type_id r = etId.
Proof.
  induction inputs as [|a rest IH]; intros rows Hm r Hr;
    destruct rows as [|r0 rows]; simpl in Hm; try discriminate Hm.
  - destruct Hr.
  - injection Hm as Ha Hm. destruct Hr as [<- | Hr].
    + apply (rowFor_event etId a). exact Ha.
    + apply (IH rows Hm). exact Hr.
Qed.

(** A finished run of the insert loop has appended, in order, the rows the
    elements stand for; they fit their columns and repeat no key, among
    themselves or with the rows the loop started from. *)
Lemma insertAll_Some (etId : Z) :
  forall (inputs : list AvailabilityInput) (rows0 rows' : list Availability),
    insertAll etId inputs rows0 = Some rows' ->
    exists rows, map (rowFor etId) inputs = map Some rows
                 /\ rows' = (rows0 ++ rows)%list
                 /\ forallb fitsColumns rows = true
                 /\ noRepeatedKey rows = true
                 /\ forall x y, In x rows0 -> In y rows -> sameKey y x = false.
Proof.
  induction inputs as [|a rest IH]; intros rows0 rows' H.
  - simpl in H. injection H as <-. exists []. rewrite app_nil_r.
    repeat split. intros x y _ [].
  - rewrite insertAll_cons in H.
    destruct (rowFor etId a) as [r|] eqn:C; [ | discriminate ].
    destruct (fitsColumns r) eqn:F; simpl in H; [ | discriminate ].
    destruct (existsb (sameKey r) rows0) eqn:E; simpl in H; [ discriminate | ].
    destruct (IH _ _ H) as [rows (Hm & -> & Hf & Hk & Hfresh)].
    exists (r :: rows). simpl. rewrite C, Hm, <- app_assoc, F, Hf, Hk.
    split; [ reflexivity | split; [ reflexivity | split; [ reflexivity | split ] ] ].
    + rewrite andb_true_r. apply negb_true_iff, existsb_false.
      intros y Hy. rewrite sameKey_sym.
      apply Hfresh; [ apply in_or_app; right; left; reflexivity | exact Hy ].
    + intros x y Hx [<- | Hy].
      * exact (proj1 (existsb_false _ _) E x Hx).
      * apply Hfresh; [ apply in_or_app; left; exact Hx | exact Hy ].
Qed.

(** One element that stands for no row makes the loop throw. *)
Lemma insertAll_invalid (etId : Z) (a : AvailabilityInput) :
  rowFor etId a = None ->
  forall (inputs : list AvailabilityInput) (rows0 : list Availability),
    In a inputs -> insertAll etId inputs rows0 = None.
Proof.
  intros Ha. induction inputs as [|b rest IH]; intros rows0 Hin.
  - destruct Hin.
  - rewrite insertAll_cons. destruct Hin as [-> | Hin].
    + rewrite Ha. reflexivity.
    + destruct (rowFor etId b) as [r|]; [ | reflexivity ].
      destruct (fitsColumns r && negb (existsb (sameKey r) rows0)); [ | reflexivity ].
      apply IH. exact Hin.
Qed.

(** Rows that fit their columns and do not collide on the key are all
    inserted. *)
Lemma insertAll_distinct (etId : Z) :
  forall (inputs : list AvailabilityInput) (rows rows0 : list Availability),
    map (rowFor etId) inputs = map Some rows ->
    forallb fitsColumns rows = true ->
    noRepeatedKey rows = true ->
    (forall x y, In x rows0 -> In y rows -> sameKey y x = false) ->
    insertAll etId inputs rows0 = Some (rows0 ++ rows)%list.
Proof.
  induction inputs as [|a rest IH]; intros rows rows0 Hm Hf Hk Hfresh;
    destruct rows as [|r rows]; simpl in Hm; try discriminate Hm.
  - simpl. rewrite app_nil_r. reflexivity.
  - injection Hm as Ha Hm. simpl in Hk, Hf.
    apply andb_true_iff in Hk. destruct Hk as [Hr Hk]. apply negb_true_iff in Hr.
    apply andb_true_iff in Hf. destruct Hf as [Hfr Hf].
    rewrite insertAll_cons, Ha, Hfr.
    assert (E : existsb (sameKey r) rows0 = false).
    { apply existsb_false. intros x Hx. apply Hfresh; [ exact Hx | left; reflexivity ]. }
    rewrite E. simpl.
    rewrite (IH rows (rows0 ++ [r])%list Hm Hf Hk).
    + rewrite <- app_assoc. reflexivity.
    + intros x y Hx Hy. apply in_app_or in Hx. destruct Hx as [Hx | [<- | []]].
      * apply Hfresh; [ exact Hx | right; exact Hy ].
      * rewrite sameKey_sym. revert y Hy. apply existsb_false. exact Hr.
Qed.

Lemma deleted_rows_are_fresh (rows0 rows : list Availability) (etId : Z) :
  (forall r, In r rows -> av_event_type_id r = etId) ->
  forall x y, In x (deleteAvailability rows0 etId) -> In y rows -> sameKey y x = false.
Proof.
  intros Hev x y Hx Hy. unfold deleteAvailability in Hx. apply filter_In in Hx.
  destruct Hx as [_ Hx]. apply negb_true_iff in Hx.
  unfold sameKey. rewrite (Hev y Hy), (Z.eqb_sym etId), Hx. reflexivity.
Qed.

(** After the delete and the inserts, the rows of the event type are the
    new rows and the rows of every other event type are as before. *)
Lemma replaced_rows (db : DB) (etId : Z) (rows : list Availability) :
  (forall r, In r rows -> av_event_type_id r = etId) ->
  availabilityOf (withAvailability db (deleteAvailability (availability db) etId ++ rows))
                 etId = rows
  /\ forall j, j <> etId ->
       availabilityOf (withAvailability db
                         (deleteAvailability (availability db) etId ++ rows)) j
       = availabilityOf db j.
Proof.
  intros Hev. unfold availabilityOf, withAvailability, deleteAvailability. simpl. split.
  - rewrite filter_app. rewrite filter_none, filter_all.
    + reflexivity.
    + intros r Hr. apply Z.eqb_eq. apply Hev. exact Hr.
    + intros r Hr. apply filter_In in Hr. destruct Hr as [_ Hr].
      apply negb_true_iff in Hr. exact Hr.
  - intros j Hj. rewrite filter_app. rewrite (filter_none _ rows).
    + rewrite app_nil_r. induction (availability db) as [|x tl IH]; simpl.
      * reflexivity.
      * destruct (av_event_type_id x =? etId) eqn:E; simpl.
        -- apply Z.eqb_eq in E. destruct (av_event_type_id x =? j) eqn:Ej.
           ++ apply Z.eqb_eq in Ej. congruence.
           ++ exact IH.
        -- destruct (av_event_type_id x =? j); [ f_equal | ]; exact IH.
    + intros r Hr. apply Z.eqb_neq. rewrite (Hev r Hr). congruence.
Qed.

Lemma saveAvailability_found (db : DB) (id : Z) (inputs : list AvailabilityInput)
    (et : EventType) :
  id <> 0 -> eventTypeById db id = Some et ->
  saveAvailability db (mkSaveRequest (Some id) (Some inputs))
  = match replaceRules id inputs (availability db) with
    | Some rows =>
        (Json 200 (sortBy ruleOrder (availabilityOf (withAvailability db rows) id)),
         withAvailability db rows)
    | None => (Failure 500 "Failed to save availability", db)
    end.
Proof.
  intros Hid Het. unfold saveAvailability. simpl.
  apply Z.eqb_neq in Hid. rewrite Hid, Het. reflexivity.
Qed.

(** The save, for an existing event type, in terms of the rows its elements
    stand for. *)
Lemma saveAvailability_replaces (db : DB) (id : Z) (inputs : list AvailabilityInput)
    (et : EventType) (rows : list Availability) :
  id <> 0 -> eventTypeById db id = Some et ->
  map (rowFor id) inputs = map Some rows ->
  forallb fitsColumns rows = true ->
  noRepeatedKey rows = true ->
  saveAvailability db (mkSaveRequest (Some id) (Some inputs))
  = (Json 200 (sortBy ruleOrder rows),
     withAvailability db (deleteAvailability (availability db) id ++ rows)).
Proof.
  intros Hid Het Hm Hf Hk.
  rewrite (saveAvailability_found db id inputs et Hid Het). unfold replaceRules.
  pose proof (checked_rows_event id inputs rows Hm) as Hev.
  rewrite (insertAll_distinct id inputs rows _ Hm Hf Hk
             (deleted_rows_are_fresh (availability db) rows id Hev)).
  rewrite (proj1 (replaced_rows db id rows Hev)). reflexivity.
Qed.

(** C6, as the code has it.  For a save addressed to an existing event
    type, the route answers 200 exactly when every row carries a number as
    dayOfWeek, a startTime and an endTime, the values fit the types of
    their columns, and no two rows agree on (dayOfWeek, startTime,
    endTime).  When it answers 200, all prior rules of the event type are
    gone and its rules are exactly the provided rows, in order, every other
    row of the database being as before.  In every other case (a row
    without one of the fields, a value its column refuses, a repeated key)
    it answers 500 and the database is unchanged. *)
Theorem saveAvailability_all_or_nothing
    (db : DB) (id : Z) (inputs : list AvailabilityInput) (et : EventType) :
  id <> 0 -> eventTypeById db id = Some et ->
  let r := saveAvailability db (mkSaveRequest (Some id) (Some inputs)) in
  (replyStatus (fst r) = 200 <->
   exists rows, map (rowFor id) inputs = map Some rows
                /\ forallb fitsColumns rows = true
                /\ noRepeatedKey rows = true)
  /\ (replyStatus (fst r) = 200 ->
      exists rows,
        map (rowFor id) inputs = map Some rows
        /\ availabilityOf (snd r) id = rows
        /\ fst r = Json 200 (sortBy ruleOrder rows)
        /\ (forall j, j <> id -> availabilityOf (snd r) j = availabilityOf db j)
        /\ event_types (snd r) = event_types db
        /\ availability_overrides (snd r) = availability_overrides db
        /\ meetings (snd r) = meetings db)
  /\ (replyStatus (fst r) <> 200 -> replyStatus (fst r) = 500 /\ snd r = db).
Proof.
  intros Hid Het r. unfold r.
  rewrite (saveAvailability_found db id inputs et Hid Het). unfold replaceRules.
  destruct (insertAll id inputs (deleteAvailability (availability db) id))
    as [rows'|] eqn:E.
  - cbn [fst snd replyStatus].
    apply insertAll_Some in E. destruct E as [rows (Hm & -> & Hf & Hk & _)].
    destruct (replaced_rows db id rows (checked_rows_event id inputs rows Hm))
      as [Hnew Hold].
    split; [ | split ].
    + split; [ intros _; exists rows; repeat split; assumption | reflexivity ].
    + intros _. exists rows. rewrite Hnew. repeat split; assumption.
    + intro H. contradiction H. reflexivity.
  - cbn [fst snd replyStatus]. split; [ | split ].
    + split; [ discriminate | ].
      intros [rows (Hm & Hf & Hk)]. exfalso.
      pose proof (checked_rows_event id inputs rows Hm) as Hev.
      rewrite (insertAll_distinct id inputs rows _ Hm Hf Hk
                 (deleted_rows_are_fresh (availability db) rows id Hev)) in E.
      discriminate E.
    + discriminate.
    + intros _. split; reflexivity.
Qed.

(** C7, as the code has it.  The range of the day of week and the order of
    the two times are not checked: a save to an existing event type whose
    list contains a row with a day of week outside 0..6 or with a start
    that is not before its end, and whose rows all carry dayOfWeek,
    startTime and endTime, fit their columns and repeat no key, is answered
    200 and every row is stored as given. *)
Theorem saveAvailability_accepts_any_day_and_order
    (db : DB) (id : Z) (inputs : list AvailabilityInput) (et : EventType)
    (rows : list Availability) :
  id <> 0 -> eventTypeById db id = Some et ->
  map (rowFor id) inputs = map Some rows ->
  forallb fitsColumns rows = true ->
  noRepeatedKey rows = true ->
  (exists v, In v rows
             /\ (~ (0 <= day_of_week v <= 6) \/ ~ (av_start_time v < av_end_time v))) ->
  let r := saveAvailability db (mkSaveRequest (Some id) (Some inputs)) in
  replyStatus (fst r) = 200
  /\ availabilityOf (snd r) id = rows
  /\ forall v, In v rows -> In v (availability (snd r)).
Proof.
  intros Hid Het Hm Hf Hk _ r. unfold r.
  rewrite (saveAvailability_replaces db id inputs et rows Hid Het Hm Hf Hk).
  cbn [fst snd replyStatus]. split; [ reflexivity | split ].
  - apply (replaced_rows db id rows (checked_rows_event id inputs rows Hm)).
  - intros v Hv. simpl. apply in_or_app. right. exact Hv.
Qed.

(* --------------------------------------------------------------------- *)
(** *** Cancellation *)

Lemma find_cancelled (id : Z) (m : Meeting) :
  forall rows : list Meeting,
    find (fun r => m_id r =? id) rows = Some m ->
    find (fun r => m_id r =? id)
         (map (fun r => if m_id r =? id then withStatus r cancelled else r) rows)
    = Some (withStatus m cancelled).
Proof.
  induction rows as [|x tl IH]; simpl; intro H.
  - discriminate H.
  - destruct (m_id x =? id) eqn:E.
    + injection H as <-. simpl. rewrite E. reflexivity.
    + rewrite E. apply IH. exact H.
Qed.

(** C8, as the code has it.  Cancelling an absent meeting answers NotFound;
    cancelling a meeting whose status is [cancelled] answers 400 and leaves
    the database as it was; cancelling a meeting with any other status,
    [scheduled] or [completed], answers 200 and sets the status of the rows
    with that id to [cancelled], every other row and column staying as it
    was. *)
Theorem cancelMeeting_transitions (db : DB) (id : Z) :
  let r := cancelMeeting db id in
  (meetingById db id = None -> errorKind (fst r) = Some NotFound /\ snd r = db)
  /\ (forall m, meetingById db id = Some m -> m_status m = cancelled ->
                replyStatus (fst r) = 400 /\ snd r = db)
  /\ (forall m, meetingById db id = Some m -> m_status m <> cancelled ->
                fst r = Json 200 (Some (withStatus m cancelled))
                /\ meetings (snd r)
                   = map (fun x => if m_id x =? id then withStatus x cancelled else x)
                         (meetings db)
                /\ event_types (snd r) = event_types db
                /\ availability (snd r) = availability db
                /\ availability_overrides (snd r) = availability_overrides db).
Proof.
  intro r. unfold r, cancelMeeting. split; [ | split ].
  - intros ->. split; reflexivity.
  - intros m -> ->. split; reflexivity.
  - intros m Hm Hs. rewrite Hm.
    destruct (status_eqb (m_status m) cancelled) eqn:E.
    + apply status_eqb_eq in E. contradiction.
    + simpl. repeat split.
      unfold meetingById, setCancelled. simpl.
      unfold meetingById in Hm. rewrite (find_cancelled id m _ Hm). reflexivity.
Qed.

End Backend.

(* ===================================================================== *)
(** ** The routes on the sample data *)

(** C2. Two requests for the same free slot whose statements take turns:
    both conflict checks run before either insert, both requests are
    answered 201, and the table holds two scheduled meetings of the same
    event type over the same interval. *)
Theorem double_booking_race :
  runSchedule sampleZones takingTurns emptyDb (AtLookup annAtNine) (AtLookup bobAtNine)
  = (mkDB [thirtyMin; oneHour] [] [] [annsMeeting 1; bobsMeeting 2] 3,
     Replied (Json 201 (Some (mkMeetingView (annsMeeting 1) "30 Minute Meeting" "30-min"))),
     Replied (Json 201 (Some (mkMeetingView (bobsMeeting 2) "30 Minute Meeting" "30-min"))))
  /\ overlaps (m_start_time (annsMeeting 1)) (m_end_time (annsMeeting 1))
              (m_start_time (bobsMeeting 2)) (m_end_time (bobsMeeting 2)).
Proof.
  split.
  - vm_compute. reflexivity.
  - unfold overlaps. vm_compute. split; reflexivity.
Qed.

(** The same two requests one after the other: the second is refused. *)
Example bookings_in_sequence :
  runSchedule sampleZones oneAfterTheOther emptyDb (AtLookup annAtNine) (AtLookup bobAtNine)
  = (mkDB [thirtyMin; oneHour] [] [] [annsMeeting 1] 2,
     Replied (Json 201 (Some (mkMeetingView (annsMeeting 1) "30 Minute Meeting" "30-min"))),
     Replied (Failure 409 "This time slot is already booked")).
Proof. vm_compute. reflexivity. Qed.

(** C3. A Monday rule 09:00-10:00 stored with zone Asia/Kolkata, viewed
    from UTC.  The first candidate is the instant 03:30 UTC, whose wall
    clock in the viewer's zone reads 03:30; the emitted slot says 09:00,
    the wall clock of the rule's zone, and is labelled UTC. *)
Theorem slots_formatted_in_rule_zone :
  generateSlots sampleZones utcZone 10 0 kolkataDb "30-min" (Some monday) (Some "UTC")
  = Some (Json 200 [mkSlot (clock monday 9 0) (clock monday 9 30) "UTC";
                    mkSlot (clock monday 9 30) (clock monday 10 0) "UTC"])
  /\ momentAt sampleZones monday (hhmm 9 0) "Asia/Kolkata" = Some (clock monday 3 30)
  /\ formatCivil (getZone sampleZones "UTC") (clock monday 3 30) = clock monday 3 30
  /\ clock monday 3 30 <> clock monday 9 0.
Proof.
  repeat split; try (vm_compute; reflexivity).
  vm_compute. discriminate.
Qed.

(** Booking the first of those slots as the page does, with the viewer's
    zone, stores 09:00-09:30 UTC, which is 14:30-15:00 in Asia/Kolkata and
    outside the rule. *)
Example booking_the_mislabelled_slot :
  meetings (snd (createBooking sampleZones kolkataDb
                   (bookingAt "30-min" "Ann" "ann@example.org" (clock monday 9 0) "UTC")))
  = [annsMeeting 1]
  /\ formatCivil (getZone sampleZones "Asia/Kolkata") (m_start_time (annsMeeting 1))
     = clock monday 14 30.
Proof. split; vm_compute; reflexivity. Qed.

(* --------------------------------------------------------------------- *)
(** *** The meetings the slot route loads *)

Lemma filter_twice {A} (p : A -> bool) (l : list A) :
  filter p (filter p l) = filter p l.
Proof.
  apply filter_all. intros x Hx. apply filter_In in Hx. exact (proj2 Hx).
Qed.

Lemma inDayWindow_spec (tzdb : string -> option Zone) (etId : Z) (tz : string)
    (date : Z) (m : Meeting) :
  inDayWindow tzdb etId tz date m = true <->
  m_event_type_id m = etId /\ m_status m = scheduled
  /\ startOfDay tzdb tz date <= m_start_time m < endOfDay tzdb tz date.
Proof.
  unfold inDayWindow.
  rewrite !andb_true_iff, Z.eqb_eq, status_eqb_eq, Z.leb_le, Z.ltb_lt. tauto.
Qed.

(** Cutting the meetings table down to the loaded rows does not change the
    answer of the slot route. *)
Lemma generateSlots_windowOnly (tzdb : string -> option Zone) (serverZone : Zone)
    (fuel : nat) (now : Instant) (db : DB) (slug tz : string) (date : Z) :
  generateSlots tzdb serverZone fuel now (windowOnly tzdb db slug tz date) slug
                (Some date) (Some tz)
  = generateSlots tzdb serverZone fuel now db slug (Some date) (Some tz).
Proof.
  unfold windowOnly. destruct (eventTypeBySlug db slug) as [et|] eqn:Het; [ | reflexivity ].
  unfold generateSlots.
  replace (eventTypeBySlug (mkDB (event_types db) (availability db)
             (availability_overrides db)
             (filter (inDayWindow tzdb (et_id et) tz date) (meetings db))
             (next_meeting_id db)) slug) with (Some et) by (symmetry; exact Het).
  rewrite Het. unfold availabilityOf, overrideFor, existingBookings. simpl.
  rewrite filter_twice. reflexivity.
Qed.

(** The rows the slot route loads from [meetings]. *)
Lemma existingBookings_spec (tzdb : string -> option Zone) (db : DB) (etId : Z)
    (tz : string) (date : Z) (b : Instant * Instant) :
  In b (existingBookings tzdb db etId tz date) <->
  exists m, In m (meetings db)
            /\ m_event_type_id m = etId /\ m_status m = scheduled
            /\ startOfDay tzdb tz date <= m_start_time m < endOfDay tzdb tz date
            /\ b = (m_start_time m, m_end_time m).
Proof.
  unfold existingBookings. rewrite in_map_iff. split.
  - intros [m [Hb Hm]]. apply filter_In in Hm. destruct Hm as [Hin Hw].
    apply inDayWindow_spec in Hw. exists m. split; [ exact Hin | ].
    destruct Hw as (H1 & H2 & H3). repeat split; try assumption; try apply H3.
    symmetry. exact Hb.
  - intros [m (Hin & H1 & H2 & H3 & Hb)]. exists m. split; [ symmetry; exact Hb | ].
    apply filter_In. split; [ exact Hin | ].
    apply inDayWindow_spec. repeat split; try assumption; apply H3.
Qed.

(** C10. The slot route loads exactly the scheduled meetings of the event
    type whose start lies in [startOfDay, endOfDay) of the requested date on
    the viewer's clock, and its answer depends on the meetings table through
    those rows only: removing every other meeting leaves the answer
    unchanged, and, for a positive duration, a candidate of a range the
    route walks is offered exactly when it is not past and no meeting of
    that window overlaps it.  So a slot can be emitted although a scheduled
    meeting that started before the window overlaps it: with a one-hour
    event, a Monday rule 00:00-02:00 UTC and a meeting from Sunday 23:30 to
    Monday 00:30 UTC, the slot 00:00-01:00 is offered. *)
Theorem slots_consult_day_window_only :
  (forall tzdb db etId tz date b,
      In b (existingBookings tzdb db etId tz date) <->
      exists m, In m (meetings db)
                /\ m_event_type_id m = etId /\ m_status m = scheduled
                /\ startOfDay tzdb tz date <= m_start_time m < endOfDay tzdb tz date
                /\ b = (m_start_time m, m_end_time m))
  /\ (forall tzdb serverZone fuel now db slug tz date,
        generateSlots tzdb serverZone fuel now (windowOnly tzdb db slug tz date) slug
                      (Some date) (Some tz)
        = generateSlots tzdb serverZone fuel now db slug (Some date) (Some tz))
  /\ (forall tzdb serverZone fuel now db slug tz date et slots,
        eventTypeBySlug db slug = Some et ->
        0 < duration_minutes et ->
        generateSlots tzdb serverZone fuel now db slug (Some date) (Some tz)
        = Some (Json 200 slots) ->
        forall x,
          In x slots <->
          exists range cur,
            In range (effectiveRanges tzdb db (et_id et) tz date)
            /\ In cur (rangeCandidates tzdb (duration_minutes et) date range)
            /\ now <= cur
            /\ (forall m,
                   In m (meetings db) ->
                   m_event_type_id m = et_id et -> m_status m = scheduled ->
                   startOfDay tzdb tz date <= m_start_time m < endOfDay tzdb tz date ->
                   ~ overlaps cur (addMinutes cur (duration_minutes et))
                              (m_start_time m) (m_end_time m))
            /\ x = mkSlot
                     (formatCivil (getZone tzdb (orElse (Some (range_timezone range)) "UTC"))
                                  cur)
                     (formatCivil (getZone tzdb (orElse (Some (range_timezone range)) "UTC"))
                                  (addMinutes cur (duration_minutes et)))
                     tz)
  /\ (exists slots s m,
        generateSlots sampleZones utcZone 10 0 midnightDb "one-hour" (Some monday)
                      (Some "UTC") = Some (Json 200 slots)
        /\ In s slots
        /\ In m (meetings midnightDb)
        /\ m_status m = scheduled
        /\ eventTypeBySlug midnightDb "one-hour" = Some oneHour
        /\ m_event_type_id m = et_id oneHour
        /\ m_start_time m < startOfDay sampleZones "UTC" monday
        /\ overlaps (toUTC (getZone sampleZones (slot_timezone s)) (slot_start s))
                    (toUTC (getZone sampleZones (slot_timezone s)) (slot_end s))
                    (m_start_time m) (m_end_time m)).
Proof.
  split; [ | split; [ | split ] ].
  - intros tzdb db etId tz date b. apply existingBookings_spec.
  - intros. apply generateSlots_windowOnly.
  - intros tzdb serverZone fuel now db slug tz date et slots Het Hd Hgen x.
    apply (generateSlots_exact tzdb serverZone fuel now db slug date (Some tz) et _ Het Hd)
      in Hgen.
    injection Hgen as ->. rewrite sortBy_In, offered_In.
    split.
    + intros (r & cur & Hr & Hcur & Hc & Hn & Hx). exists r, cur.
      split; [ exact Hr | split; [ exact Hcur | split; [ exact Hn | split; [ | exact Hx ] ] ] ].
      intros m Hm He Hs Hw [Ho1 Ho2].
      assert (Hex : hasConflict (existingBookings tzdb db (et_id et) tz date) cur
                                (addMinutes cur (duration_minutes et)) = true).
      { apply hasConflict_spec. exists (m_start_time m, m_end_time m).
        split; [ | split; [ exact Ho1 | exact Ho2 ] ].
        apply existingBookings_spec. exists m. repeat split; try assumption; apply Hw. }
      rewrite Hex in Hc. discriminate Hc.
    + intros (r & cur & Hr & Hcur & Hn & Hfree & Hx). exists r, cur.
      split; [ exact Hr | split; [ exact Hcur | split; [ | split; [ exact Hn | exact Hx ] ] ] ].
      destruct (hasConflict _ cur _) eqn:Hc; [ exfalso | reflexivity ].
      apply hasConflict_spec in Hc. destruct Hc as [b (Hb & H1 & H2)].
      apply existingBookings_spec in Hb. destruct Hb as [m (Hm & He & Hs & Hw & ->)].
      apply (Hfree m Hm He Hs Hw). split; [ exact H1 | exact H2 ].
  - exists [mkSlot (clock monday 0 0) (clock monday 1 0) "UTC";
            mkSlot (clock monday 1 0) (clock monday 2 0) "UTC"],
           (mkSlot (clock monday 0 0) (clock monday 1 0) "UTC"),
           lateSundayMeeting.
    repeat split; try (vm_compute; reflexivity).
    + left. reflexivity.
    + left. reflexivity.
Qed.

(* --------------------------------------------------------------------- *)
(** *** Instances *)

(** The slot after a booked one is free: 09:30 on a day with 09:00-09:30
    taken. *)
Lemma createBooking_contract_witness :
  replyStatus (fst (createBooking sampleZones bookedDb
                      (bookingAt "30-min" "Zed" "zed@example.org" (clock monday 9 30) "UTC")))
  = 201
  /\ meetings (snd (createBooking sampleZones bookedDb
                      (bookingAt "30-min" "Zed" "zed@example.org" (clock monday 9 30) "UTC")))
     = (meetings bookedDb
        ++ [mkMeeting 2 1 "Zed" "zed@example.org" (clock monday 9 30) (clock monday 10 0)
                      "UTC" scheduled])%list.
Proof.
  destruct (createBooking_contract sampleZones bookedDb "30-min" "Zed" "zed@example.org"
              "UTC" (LocalTime (clock monday 9 30)) thirtyMin) as [_ H];
    try discriminate; try reflexivity.
  destruct H as (H1 & H2 & _).
  - intros [m (Hin & _ & _ & _ & Hgt)].
    destruct Hin as [<- | []]. vm_compute in Hgt. discriminate Hgt.
  - split; [ exact H1 | exact H2 ].
Defined.

(** With 09:00-09:30 taken by a meeting of the window, the route offers
    09:30-10:00 and not 09:00-09:30. *)
Lemma slots_consult_day_window_only_witness :
  exists slots,
    generateSlots sampleZones utcZone 10 0 bookedDb "30-min" (Some monday) (Some "UTC")
    = Some (Json 200 slots)
    /\ In (mkSlot (clock monday 9 30) (clock monday 10 0) "UTC") slots
    /\ ~ In (mkSlot (clock monday 9 0) (clock monday 9 30) "UTC") slots.
Proof.
  destruct slots_consult_day_window_only as (_ & _ & H & _).
  assert (G : generateSlots sampleZones utcZone 10 0 bookedDb "30-min" (Some monday)
                (Some "UTC")
              = Some (Json 200 [mkSlot (clock monday 9 30) (clock monday 10 0) "UTC"])).
  { vm_compute. reflexivity. }
  pose proof (H sampleZones utcZone 10%nat 0 bookedDb "30-min" "UTC" monday thirtyMin
                [mkSlot (clock monday 9 30) (clock monday 10 0) "UTC"]
                eq_refl eq_refl G) as Hiff.
  exists [mkSlot (clock monday 9 30) (clock monday 10 0) "UTC"].
  split; [ exact G | split ].
  - apply Hiff.
    exists (mkTimeRange (hhmm 9 0) (hhmm 10 0) "UTC"), (clock monday 9 30).
    split; [ vm_compute; left; reflexivity | ].
    split; [ vm_compute; right; left; reflexivity | ].
    split; [ vm_compute; discriminate | ].
    split; [ | vm_compute; reflexivity ].
    intros m [<- | []] _ _ _ [H1 _]. vm_compute in H1. discriminate H1.
  - intro Hin. apply Hiff in Hin.
    destruct Hin as (r & cur & Hr & Hcur & _ & Hfree & Hx).
    vm_compute in Hr. destruct Hr as [<- | []].
    vm_compute in Hcur. destruct Hcur as [<- | [<- | []]].
    + apply (Hfree (mkMeeting 1 1 "Ann" "ann@example.org" (clock monday 9 0)
                              (clock monday 9 30) "UTC" scheduled)).
      * left. reflexivity.
      * reflexivity.
      * reflexivity.
      * vm_compute. split; [ discriminate | reflexivity ].
      * vm_compute. split; reflexivity.
    + vm_compute in Hx. discriminate Hx.
Defined.

(** A request for Monday 15:00 UTC on a day blocked by an override, outside
    the 09:00-10:00 rule, is stored. *)
Lemma createBooking_ignores_availability_witness :
  replyStatus (fst (createBooking sampleZones blockedDb
                      (bookingAt "30-min" "Zed" "zed@example.org" (clock monday 15 0) "UTC")))
  = 201
  /\ meetings (snd (createBooking sampleZones blockedDb
                      (bookingAt "30-min" "Zed" "zed@example.org" (clock monday 15 0) "UTC")))
     = [mkMeeting 1 1 "Zed" "zed@example.org" (clock monday 15 0) (clock monday 15 30)
                  "UTC" scheduled].
Proof.
  apply (createBooking_ignores_availability sampleZones emptyDb "30-min" "Zed"
           "zed@example.org" "UTC" (LocalTime (clock monday 15 0)) thirtyMin
           (availability blockedDb) (availability_overrides blockedDb));
    try discriminate; try reflexivity.
  intros m [].
Defined.

(** On that database the slot route offers nothing for the day, and the
    instant booked is past for a clock standing at Monday 16:00. *)
Example blocked_day_has_no_slots :
  generateSlots sampleZones utcZone 10 (clock monday 16 0) blockedDb "30-min"
                (Some monday) (Some "UTC") = Some (Json 200 [])
  /\ clock monday 15 0 < clock monday 16 0.
Proof. split; vm_compute; reflexivity. Qed.

(** A meeting that ends at 09:30 does not remove the 09:30 candidate. *)
Lemma slot_conflict_filter_witness :
  pushIfFree sampleZones 0 [(clock monday 9 0, clock monday 9 30)] 30 "UTC" "UTC"
             (clock monday 9 30)
  = [mkSlot (clock monday 9 30) (clock monday 10 0) "UTC"].
Proof.
  destruct (slot_conflict_filter sampleZones 0 [(clock monday 9 0, clock monday 9 30)]
              30 "UTC" "UTC") as [H _].
  destruct (H (clock monday 9 30)) as [Hfree _].
  destruct (Hfree eq_refl) as [_ Hpush].
  rewrite Hpush.
  - vm_compute. reflexivity.
  - intros [b ([<- | []] & Hlt & _)]. vm_compute in Hlt. discriminate Hlt.
Defined.

(** Monday 09:00-17:00 with an override 13:00-14:00: the two slots of the
    override, and nothing of the rule. *)
Lemma override_replaces_rules_witness :
  timeRanges (overrideFor overrideDb 1 monday) (availabilityOf overrideDb 1) "UTC"
  = [mkTimeRange (hhmm 13 0) (hhmm 14 0) "UTC"]
  /\ generateSlots sampleZones utcZone 10 0 overrideDb "30-min" (Some monday) (Some "UTC")
     = Some (Json 200 [mkSlot (clock monday 13 0) (clock monday 13 30) "UTC";
                       mkSlot (clock monday 13 30) (clock monday 14 0) "UTC"]).
Proof.
  destruct (override_replaces_rules sampleZones utcZone 0 overrideDb "30-min" monday
              (Some "UTC") thirtyMin
              (mkOverride 1 monday true (Some (hhmm 13 0)) (Some (hhmm 14 0)))
              eq_refl eq_refl) as [_ H].
  destruct (H (hhmm 13 0) (hhmm 14 0) eq_refl eq_refl eq_refl) as (Hr & _ & Hans & _).
  split.
  - apply Hr.
  - destruct Hans as [_ Hexact].
    + vm_compute. discriminate.
    + reflexivity.
    + destruct (generateSlots sampleZones utcZone 10 0 overrideDb "30-min" (Some monday)
                  (Some "UTC")) as [r|] eqn:G.
      * rewrite (Hexact 10%nat r G). vm_compute. reflexivity.
      * vm_compute in G. discriminate G.
Defined.

(** A list of one complete row replaces the rules of the event type; a
    list whose second row has no end time is rejected as a whole. *)
Lemma saveAvailability_all_or_nothing_witness :
  (replyStatus (fst (saveAvailability simpleDayDb
                       (mkSaveRequest (Some 1) (Some [mondayMorning])))) = 200
   /\ availabilityOf (snd (saveAvailability simpleDayDb
                             (mkSaveRequest (Some 1) (Some [mondayMorning])))) 1
      = [mkAvailability 1 1 (hhmm 9 0) (hhmm 12 0) "UTC"])
  /\ (replyStatus (fst (saveAvailability simpleDayDb
                          (mkSaveRequest (Some 1) (Some [mondayMorning; missingEnd])))) = 500
      /\ snd (saveAvailability simpleDayDb
                (mkSaveRequest (Some 1) (Some [mondayMorning; missingEnd]))) = simpleDayDb).
Proof.
  split.
  - destruct (saveAvailability_all_or_nothing simpleDayDb 1 [mondayMorning] thirtyMin)
      as (Hiff & Hok & _); [ discriminate | reflexivity | ].
    assert (H200 : replyStatus (fst (saveAvailability simpleDayDb
                      (mkSaveRequest (Some 1) (Some [mondayMorning])))) = 200).
    { apply Hiff. exists [mkAvailability 1 1 (hhmm 9 0) (hhmm 12 0) "UTC"].
      split; [ reflexivity | split; reflexivity ]. }
    destruct (Hok H200) as [rows (Hm & Hrows & _)].
    split; [ exact H200 | ].
    rewrite Hrows. simpl in Hm.
    destruct rows as [|r [|r' rest]]; try discriminate Hm.
    injection Hm as <-. reflexivity.
  - destruct (saveAvailability_all_or_nothing simpleDayDb 1 [mondayMorning; missingEnd]
                thirtyMin) as (Hiff & _ & Hfail); [ discriminate | reflexivity | ].
    apply Hfail. intro H200. apply Hiff in H200.
    destruct H200 as [rows (Hm & _)]. simpl in Hm.
    destruct rows as [|r [|r' rest]]; discriminate Hm.
Defined.

(** C6, against the specification.  Lists whose rows all carry dayOfWeek,
    startTime and endTime, yet the save is refused and the prior rules
    stay: a list that repeats a row, and a row whose day of week is outside
    the type of its column. *)
Lemma save_refuses_complete_rows :
  map (rowFor 1) [mondayMorning; mondayMorning]
  = map Some [mkAvailability 1 1 (hhmm 9 0) (hhmm 12 0) "UTC";
              mkAvailability 1 1 (hhmm 9 0) (hhmm 12 0) "UTC"]
  /\ replyStatus (fst (saveAvailability simpleDayDb
                         (mkSaveRequest (Some 1) (Some [mondayMorning; mondayMorning]))))
     = 500
  /\ availabilityOf (snd (saveAvailability simpleDayDb
                            (mkSaveRequest (Some 1) (Some [mondayMorning; mondayMorning])))) 1
     = availabilityOf simpleDayDb 1
  /\ availabilityOf simpleDayDb 1
     <> [mkAvailability 1 1 (hhmm 9 0) (hhmm 12 0) "UTC";
         mkAvailability 1 1 (hhmm 9 0) (hhmm 12 0) "UTC"]
  /\ rowFor 1 dayThousand = Some (mkAvailability 1 1000 (hhmm 9 0) (hhmm 12 0) "UTC")
  /\ replyStatus (fst (saveAvailability simpleDayDb
                         (mkSaveRequest (Some 1) (Some [dayThousand])))) = 500
  /\ availabilityOf (snd (saveAvailability simpleDayDb
                            (mkSaveRequest (Some 1) (Some [dayThousand])))) 1
     = availabilityOf simpleDayDb 1
  /\ availabilityOf simpleDayDb 1
     <> [mkAvailability 1 1000 (hhmm 9 0) (hhmm 12 0) "UTC"].
Proof.
  repeat split; try reflexivity; vm_compute; discriminate.
Qed.

(** C7, against the specification.  A row with day of week 9 and the range 17:00 to
    09:00 is not refused: the save answers 200 and the row is stored. *)
Lemma save_accepts_backwards_row :
  in_dayOfWeek backwardsRow = JsNum 9
  /\ in_startTime backwardsRow = Some (hhmm 17 0)
  /\ in_endTime backwardsRow = Some (hhmm 9 0)
  /\ ~ (0 <= 9 <= 6)
  /\ ~ (hhmm 17 0 < hhmm 9 0)
  /\ errorKind (fst (saveAvailability simpleDayDb
                       (mkSaveRequest (Some 1) (Some [backwardsRow])))) = None
  /\ availability (snd (saveAvailability simpleDayDb
                          (mkSaveRequest (Some 1) (Some [backwardsRow]))))
     = [mkAvailability 1 9 (hhmm 17 0) (hhmm 9 0) "UTC"].
Proof.
  repeat split; try reflexivity.
  - lia.
  - vm_compute. discriminate.
Qed.

Lemma saveAvailability_accepts_any_day_and_order_witness :
  replyStatus (fst (saveAvailability simpleDayDb
                      (mkSaveRequest (Some 1) (Some [backwardsRow; mondayMorning])))) = 200
  /\ availabilityOf (snd (saveAvailability simpleDayDb
                            (mkSaveRequest (Some 1) (Some [backwardsRow; mondayMorning])))) 1
     = [mkAvailability 1 9 (hhmm 17 0) (hhmm 9 0) "UTC";
        mkAvailability 1 1 (hhmm 9 0) (hhmm 12 0) "UTC"].
Proof.
  destruct (saveAvailability_accepts_any_day_and_order simpleDayDb 1
              [backwardsRow; mondayMorning] thirtyMin
              [mkAvailability 1 9 (hhmm 17 0) (hhmm 9 0) "UTC";
               mkAvailability 1 1 (hhmm 9 0) (hhmm 12 0) "UTC"])
    as (H1 & H2 & _);
    [ discriminate | reflexivity | reflexivity | reflexivity | reflexivity | | ].
  - exists (mkAvailability 1 9 (hhmm 17 0) (hhmm 9 0) "UTC").
    split; [ left; reflexivity | left; simpl; lia ].
  - split; [ exact H1 | exact H2 ].
Defined.

(** C8, against the specification.  A completed meeting is cancelled like a
    scheduled one, and cancelling a cancelled meeting is answered with the
    validation status 400, not with Conflict. *)
Lemma cancel_completed_meeting :
  option_map m_status (meetingById statusDb 3) = Some completed
  /\ replyStatus (fst (cancelMeeting statusDb 3)) = 200
  /\ option_map m_status (meetingById (snd (cancelMeeting statusDb 3)) 3) = Some cancelled
  /\ option_map m_status (meetingById statusDb 2) = Some cancelled
  /\ errorKind (fst (cancelMeeting statusDb 2)) = Some ValidationError
  /\ errorKind (fst (cancelMeeting statusDb 2)) <> Some Conflict.
Proof.
  repeat split; try reflexivity.
  vm_compute. discriminate.
Qed.

Lemma cancelMeeting_transitions_witness :
  fst (cancelMeeting statusDb 1)
  = Json 200 (Some (mkMeeting 1 1 "Ann" "ann@example.org" (clock monday 9 0)
                              (clock monday 9 30) "UTC" cancelled))
  /\ replyStatus (fst (cancelMeeting statusDb 2)) = 400
  /\ errorKind (fst (cancelMeeting statusDb 7)) = Some NotFound.
Proof.
  destruct (cancelMeeting_transitions statusDb 1) as (_ & _ & H1).
  destruct (cancelMeeting_transitions statusDb 2) as (_ & H2 & _).
  destruct (cancelMeeting_transitions statusDb 7) as (H7 & _).
  split; [ | split ].
  - apply (H1 (mkMeeting 1 1 "Ann" "ann@example.org" (clock monday 9 0)
                         (clock monday 9 30) "UTC" scheduled)).
    + reflexivity.
    + discriminate.
  - apply (H2 (mkMeeting 2 1 "Bob" "bob@example.org" (clock monday 10 0)
                         (clock monday 10 30) "UTC" cancelled)); reflexivity.
  - apply H7. reflexivity.
Defined.

(* ===================================================================== *)
(** ** Further properties of the routes *)

(* --------------------------------------------------------------------- *)
(** *** Foreign keys *)

Lemma eventTypeBySlug_In (db : DB) (slug : string) (e : EventType) :
  eventTypeBySlug db slug = Some e -> In e (event_types db) /\ et_slug e = slug.
Proof.
  unfold eventTypeBySlug. intro H. apply find_some in H.
  destruct H as [Hin Hs]. apply String.eqb_eq in Hs. split; assumption.
Qed.

Lemma eventTypeById_In (db : DB) (id : Z) (e : EventType) :
  eventTypeById db id = Some e -> In e (event_types db) /\ et_id e = id.
Proof.
  unfold eventTypeById. intro H. apply find_some in H.
  destruct H as [Hin Hs]. apply Z.eqb_eq in Hs. split; assumption.
Qed.

Lemma isEventType_same_types (db db' : DB) (id : Z) :
  event_types db' = event_types db -> isEventType db id -> isEventType db' id.
Proof. unfold isEventType. intros ->. trivial. Qed.

Lemma foreignKeys_same_types (db db' : DB) :
  event_types db' = event_types db ->
  (forall a, In a (availability db') ->
             In a (availability db) \/ isEventType db (av_event_type_id a)) ->
  (forall o, In o (availability_overrides db') -> In o (availability_overrides db)) ->
  (forall m, In m (meetings db') ->
             In m (meetings db) \/ isEventType db (m_event_type_id m)) ->
  foreignKeysHold db -> foreignKeysHold db'.
Proof.
  intros Het Ha Ho Hm (Fa & Fo & Fm). repeat split.
  - intros a Hin. apply (isEventType_same_types db db' _ Het).
    destruct (Ha a Hin) as [H | H]; [ apply Fa; exact H | exact H ].
  - intros o Hin. apply (isEventType_same_types db db' _ Het). apply Fo, Ho, Hin.
  - intros m Hin. apply (isEventType_same_types db db' _ Het).
    destruct (Hm m Hin) as [H | H]; [ apply Fm; exact H | exact H ].
Qed.

Lemma createBooking_foreignKeys (tzdb : string -> option Zone) (db : DB)
    (req : BookingRequest) :
  foreignKeysHold db -> foreignKeysHold (snd (createBooking tzdb db req)).
Proof.
  intro F. unfold createBooking.
  destruct (startTime req) as [st|]; [ | exact F ].
  destruct (bookingFieldsPresent req); [ | exact F ].
  destruct (eventTypeBySlug db (text (eventSlug req))) as [et|] eqn:Het; [ | exact F ].
  destruct (conflictingBookings db _ _ _) as [|c cs]; [ | exact F ].
  simpl snd. apply (foreignKeys_same_types db); try reflexivity; try exact F.
  - intros a Ha. left. exact Ha.
  - intros o Ho. exact Ho.
  - intros m Hm. simpl in Hm. apply in_app_or in Hm.
    destruct Hm as [Hm | [<- | []]]; [ left; exact Hm | right ].
    simpl. exists et. apply eventTypeBySlug_In in Het. split; [ apply Het | reflexivity ].
Qed.

Lemma cancelMeeting_foreignKeys (db : DB) (id : Z) :
  foreignKeysHold db -> foreignKeysHold (snd (cancelMeeting db id)).
Proof.
  intro F. unfold cancelMeeting.
  destruct (meetingById db id) as [m|]; [ | exact F ].
  destruct (status_eqb (m_status m) cancelled); [ exact F | ].
  simpl snd. apply (foreignKeys_same_types db); try reflexivity; try exact F.
  - intros a Ha. left. exact Ha.
  - intros o Ho. exact Ho.
  - intros x Hx. simpl in Hx. apply in_map_iff in Hx. destruct Hx as [y [<- Hy]].
    right. destruct F as (_ & _ & Fm).
    destruct (m_id y =? id); simpl; apply Fm; exact Hy.
Qed.

Lemma saveAvailability_foreignKeys (db : DB) (req : SaveRequest) :
  foreignKeysHold db -> foreignKeysHold (snd (saveAvailability db req)).
Proof.
  intro F. unfold saveAvailability.
  destruct (eventTypeId req) as [id|]; [ | exact F ].
  destruct (in_availability req) as [inputs|]; [ | exact F ].
  destruct (id =? 0); [ exact F | ].
  destruct (eventTypeById db id) as [e|] eqn:He; [ | exact F ].
  destruct (replaceRules id inputs (availability db)) as [rows'|] eqn:R; [ | exact F ].
  simpl snd. unfold replaceRules in R. apply insertAll_Some in R.
  destruct R as [rows (Hm & -> & _)].
  apply (foreignKeys_same_types db); try reflexivity; try exact F.
  - intros a Ha. simpl in Ha. apply in_app_or in Ha. destruct Ha as [Ha | Ha].
    + left. unfold deleteAvailability in Ha. apply filter_In in Ha. apply Ha.
    + right. rewrite (checked_rows_event id inputs rows Hm a Ha).
      exists e. apply (eventTypeById_In db id e He).
  - intros o Ho. exact Ho.
  - intros m Hmm. left. exact Hmm.
Qed.

Lemma clearAvailability_foreignKeys (db : DB) (id : Z) :
  foreignKeysHold db -> foreignKeysHold (snd (clearAvailability db id)).
Proof.
  intro F. unfold clearAvailability. simpl snd.
  apply (foreignKeys_same_types db); try reflexivity; try exact F.
  - intros a Ha. left. simpl in Ha. unfold deleteAvailability in Ha.
    apply filter_In in Ha. apply Ha.
  - intros o Ho. exact Ho.
  - intros m Hm. left. exact Hm.
Qed.

Lemma createEventType_foreignKeys (db : DB) (insertId : Z) (body : EventTypeBody) :
  foreignKeysHold db -> foreignKeysHold (snd (createEventType db insertId body)).
Proof.
  intro F. unfold createEventType.
  destruct (negb _ || negb _ || negb _); [ exact F | ].
  destruct (eventTypeBySlug db (text (b_slug body))); [ exact F | ].
  simpl snd. destruct F as (Fa & Fo & Fm).
  assert (G : forall i, isEventType db i ->
                isEventType (withEventTypes db
                  (event_types db
                   ++ [mkEventType insertId (text (b_name body)) (text (b_slug body))
                                   (number (b_duration_minutes body))])) i).
  { intros i [e [Hin Hid]]. exists e. split; [ | exact Hid ].
    simpl. apply in_or_app. left. exact Hin. }
  repeat split.
  - intros a Ha. apply G, Fa, Ha.
  - intros o Ho. apply G, Fo, Ho.
  - intros m Hm. apply G, Fm, Hm.
Qed.

Lemma applyUpdate_id (body : EventTypeBody) (e : EventType) :
  et_id (applyUpdate body e) = et_id e.
Proof. reflexivity. Qed.

Lemma updateEventType_foreignKeys (db : DB) (id : Z) (body : EventTypeBody) :
  foreignKeysHold db -> foreignKeysHold (snd (updateEventType db id body)).
Proof.
  intro F. unfold updateEventType.
  destruct (eventTypeById db id) as [found|]; [ | exact F ].
  destruct (truthy (b_slug body) && _); [ exact F | ].
  destruct (noFields body); [ exact F | ].
  destruct (match b_slug body with Some v => _ | None => false end); [ exact F | ].
  simpl snd. destruct F as (Fa & Fo & Fm).
  assert (G : forall i, isEventType db i ->
                isEventType (withEventTypes db
                  (map (fun e => if et_id e =? id then applyUpdate body e else e)
                       (event_types db))) i).
  { intros i [e [Hin Hid]].
    exists (if et_id e =? id then applyUpdate body e else e). split.
    - simpl. apply in_map_iff. exists e. split; [ reflexivity | exact Hin ].
    - destruct (et_id e =? id); [ rewrite applyUpdate_id | ]; exact Hid. }
  repeat split.
  - intros a Ha. apply G, Fa, Ha.
  - intros o Ho. apply G, Fo, Ho.
  - intros m Hm. apply G, Fm, Hm.
Qed.

Lemma deleteEventType_foreignKeys (db : DB) (id : Z) :
  foreignKeysHold db -> foreignKeysHold (snd (deleteEventType db id)).
Proof.
  intro F. unfold deleteEventType.
  destruct (eventTypeById db id) as [found|]; [ | exact F ].
  simpl snd. destruct F as (Fa & Fo & Fm).
  assert (G : forall i, i <> id -> isEventType db i ->
                isEventType
                  {| event_types := filter (fun e => negb (et_id e =? id)) (event_types db);
                     availability :=
                       filter (fun a => negb (av_event_type_id a =? id)) (availability db);
                     availability_overrides :=
                       filter (fun o => negb (ov_event_type_id o =? id))
                              (availability_overrides db);
                     meetings :=
                       filter (fun m => negb (m_event_type_id m =? id)) (meetings db);
                     next_meeting_id := next_meeting_id db |} i).
  { intros i Hne [e [Hin Hid]]. exists e. split; [ | exact Hid ].
    simpl. apply filter_In. split; [ exact Hin | ].
    apply negb_true_iff, Z.eqb_neq. congruence. }
  repeat split.
  - intros a Ha. simpl in Ha. apply filter_In in Ha. destruct Ha as [Ha Hne].
    apply negb_true_iff, Z.eqb_neq in Hne. apply G; [ exact Hne | apply Fa, Ha ].
  - intros o Ho. simpl in Ho. apply filter_In in Ho. destruct Ho as [Ho Hne].
    apply negb_true_iff, Z.eqb_neq in Hne. apply G; [ exact Hne | apply Fo, Ho ].
  - intros m Hm. simpl in Hm. apply filter_In in Hm. destruct Hm as [Hm Hne].
    apply negb_true_iff, Z.eqb_neq in Hne. apply G; [ exact Hne | apply Fm, Hm ].
Qed.

(** X1. Every writing route keeps the foreign keys: if each availability
    rule, override and meeting references an existing event type before a
    request, the same holds after it, whatever the request is. *)
Theorem routes_keep_foreign_keys (db : DB) :
  foreignKeysHold db ->
  (forall tzdb req, foreignKeysHold (snd (createBooking tzdb db req)))
  /\ (forall id, foreignKeysHold (snd (cancelMeeting db id)))
  /\ (forall req, foreignKeysHold (snd (saveAvailability db req)))
  /\ (forall id, foreignKeysHold (snd (clearAvailability db id)))
  /\ (forall insertId body, foreignKeysHold (snd (createEventType db insertId body)))
  /\ (forall id body, foreignKeysHold (snd (updateEventType db id body)))
  /\ (forall id, foreignKeysHold (snd (deleteEventType db id))).
Proof.
  intro F.
  split; [ | split; [ | split; [ | split; [ | split; [ | split ] ] ] ] ]; intros.
  - apply createBooking_foreignKeys, F.
  - apply cancelMeeting_foreignKeys, F.
  - apply saveAvailability_foreignKeys, F.
  - apply clearAvailability_foreignKeys, F.
  - apply createEventType_foreignKeys, F.
  - apply updateEventType_foreignKeys, F.
  - apply deleteEventType_foreignKeys, F.
Qed.

(* --------------------------------------------------------------------- *)
(** *** Event types *)

Lemma find_app_split {A} (p : A -> bool) (l1 l2 : list A) :
  find p (l1 ++ l2) = match find p l1 with
                       | Some a => Some a
                       | None => find p l2
                       end.
Proof.
  induction l1 as [|x tl IH]; simpl.
  - reflexivity.
  - destruct (p x); [ reflexivity | exact IH ].
Qed.

Lemma find_none_iff {A} (p : A -> bool) (l : list A) :
  find p l = None <-> forall x, In x l -> p x = false.
Proof.
  split.
  - intros H x Hx. exact (find_none p l H x Hx).
  - induction l as [|y tl IH]; intro H; simpl.
    + reflexivity.
    + rewrite (H y (or_introl eq_refl)). apply IH.
      intros x Hx. apply H. right. exact Hx.
Qed.

Lemma NoDup_map_inj {A B} (f : A -> B) (l : list A) (a b : A) :
  NoDup (map f l) -> In a l -> In b l -> f a = f b -> a = b.
Proof.
  induction l as [|x tl IH]; intros Hnd Ha Hb Hf; [ destruct Ha | ].
  simpl in Hnd. inversion Hnd as [|? ? Hnotin Hnd']; subst.
  destruct Ha as [-> | Ha], Hb as [-> | Hb].
  - reflexivity.
  - exfalso. apply Hnotin. rewrite Hf. apply in_map. exact Hb.
  - exfalso. apply Hnotin. rewrite <- Hf. apply in_map. exact Ha.
  - apply IH; assumption.
Qed.

Lemma NoDup_app_one {A} (l : list A) (x : A) :
  NoDup l -> ~ In x l -> NoDup (l ++ [x]).
Proof.
  intros Hnd Hx. induction l as [|y tl IH]; simpl.
  - constructor; [ intros [] | constructor ].
  - inversion Hnd as [|? ? Hy Htl]; subst. constructor.
    + intro H. apply in_app_or in H. destruct H as [H | [<- | []]].
      * contradiction.
      * apply Hx. left. reflexivity.
    + apply IH; [ exact Htl | ]. intro H. apply Hx. right. exact H.
Qed.

Lemma truthy_text (s : option string) : truthy s = true -> s = Some (text s).
Proof. destruct s; simpl; [ reflexivity | discriminate ]. Qed.

(** X2. Creating an event type and looking it up.  With a non-empty name
    and slug, a non-zero duration, a slug no row has and an id no row has,
    the route answers 201 with the new row; the row is found by its slug
    and by its id afterwards, and lookups of every other slug answer as
    before. *)
Theorem createEventType_round_trip
    (db : DB) (insertId : Z) (name slug : string) (d : Z)
    (description color : option string) :
  name <> "" -> slug <> "" -> d <> 0 ->
  eventTypeBySlug db slug = None ->
  (forall e, In e (event_types db) -> et_id e <> insertId) ->
  let r := createEventType db insertId
             (mkEventTypeBody (Some name) (Some slug) (Some d) description color) in
  let new := mkEventType insertId name slug d in
  fst r = Json 201 (Some new)
  /\ event_types (snd r) = (event_types db ++ [new])%list
  /\ eventTypeBySlug (snd r) slug = Some new
  /\ eventTypeById (snd r) insertId = Some new
  /\ (forall s, s <> slug -> eventTypeBySlug (snd r) s = eventTypeBySlug db s).
Proof.
  intros Hn Hs Hd Hfree Hfresh r new.
  assert (Hid : eventTypeById
                  (withEventTypes db (event_types db ++ [new])) insertId = Some new).
  { unfold eventTypeById. simpl. rewrite find_app_split.
    replace (find (fun e => et_id e =? insertId) (event_types db)) with (@None EventType).
    - simpl. rewrite Z.eqb_refl. reflexivity.
    - symmetry. apply find_none_iff. intros x Hx. apply Z.eqb_neq. apply Hfresh, Hx. }
  assert (Hr : r = (Json 201 (Some new), withEventTypes db (event_types db ++ [new]))).
  { unfold r, createEventType. simpl b_name. simpl b_slug. simpl b_duration_minutes.
    rewrite !truthy_nonempty by assumption. unfold truthyNumber.
    apply Z.eqb_neq in Hd. rewrite Hd. simpl. rewrite Hfree.
    fold new. rewrite Hid. reflexivity. }
  rewrite Hr. simpl fst. simpl snd. repeat split.
  - unfold eventTypeBySlug in *. simpl. rewrite find_app_split, Hfree. simpl.
    rewrite String.eqb_refl. reflexivity.
  - exact Hid.
  - intros s Hne. unfold eventTypeBySlug. simpl. rewrite find_app_split.
    destruct (find (fun e => String.eqb (et_slug e) s) (event_types db)); [ reflexivity | ].
    simpl. apply String.eqb_neq in Hne. rewrite String.eqb_sym, Hne. reflexivity.
Qed.

(** X3. Whatever the body, creating an event type either changes nothing
    (answer 400) or appends one row and answers 201; and when the id the
    engine assigns is not in the table, ids and slugs stay free of
    repetitions. *)
Theorem createEventType_keeps_keys (db : DB) (insertId : Z) (body : EventTypeBody) :
  (forall e, In e (event_types db) -> et_id e <> insertId) ->
  eventTypeKeys db ->
  let r := createEventType db insertId body in
  eventTypeKeys (snd r)
  /\ ((replyStatus (fst r) = 400 /\ snd r = db)
      \/ (replyStatus (fst r) = 201
          /\ exists new, snd r = withEventTypes db (event_types db ++ [new])
                         /\ et_id new = insertId
                         /\ b_name body = Some (et_name new)
                         /\ b_slug body = Some (et_slug new)
                         /\ b_duration_minutes body = Some (duration_minutes new)
                         /\ et_name new <> "" /\ et_slug new <> ""
                         /\ duration_minutes new <> 0)).
Proof.
  intros Hfresh [Hids Hslugs] r. unfold r, createEventType.
  destruct (truthy (b_name body)) eqn:Tn; simpl;
    [ | split; [ split; assumption | left; split; reflexivity ] ].
  destruct (truthy (b_slug body)) eqn:Ts; simpl;
    [ | split; [ split; assumption | left; split; reflexivity ] ].
  destruct (truthyNumber (b_duration_minutes body)) eqn:Td; simpl;
    [ | split; [ split; assumption | left; split; reflexivity ] ].
  destruct (eventTypeBySlug db (text (b_slug body))) eqn:Hfree; simpl;
    [ split; [ split; assumption | left; split; reflexivity ] | ].
  split.
  - unfold eventTypeKeys. simpl. rewrite !map_app. simpl. split.
    + apply NoDup_app_one; [ exact Hids | ].
      intro H. apply in_map_iff in H. destruct H as [e [He Hin]].
      exact (Hfresh e Hin He).
    + apply NoDup_app_one; [ exact Hslugs | ].
      intro H. apply in_map_iff in H. destruct H as [e [He Hin]].
      unfold eventTypeBySlug in Hfree.
      pose proof (proj1 (find_none_iff _ _) Hfree e Hin) as Hf. simpl in Hf.
      apply String.eqb_neq in Hf. contradiction.
  - right. split; [ reflexivity | ]. eexists. split; [ reflexivity | ]. simpl.
    repeat split.
    + apply truthy_text. exact Tn.
    + apply truthy_text. exact Ts.
    + destruct (b_duration_minutes body); [ reflexivity | discriminate Td ].
    + destruct (b_name body) as [v|]; simpl in *; [ | discriminate Tn ].
      intros ->. discriminate Tn.
    + destruct (b_slug body) as [v|]; simpl in *; [ | discriminate Ts ].
      intros ->. discriminate Ts.
    + destruct (b_duration_minutes body) as [v|]; simpl in *; [ | discriminate Td ].
      intros ->. discriminate Td.
Qed.

Lemma find_updated (id : Z) (body : EventTypeBody) (e : EventType) :
  forall rows : list EventType,
    find (fun r => et_id r =? id) rows = Some e ->
    find (fun r => et_id r =? id)
         (map (fun r => if et_id r =? id then applyUpdate body r else r) rows)
    = Some (applyUpdate body e).
Proof.
  induction rows as [|x tl IH]; simpl; intro H.
  - discriminate H.
  - destruct (et_id x =? id) eqn:E.
    + injection H as <-. simpl. rewrite E. reflexivity.
    + rewrite E. apply IH. exact H.
Qed.

Lemma slugUsedByOther_false (db : DB) (slug : string) (id : Z) :
  slugUsedByOther db slug id = false <->
  forall e, In e (event_types db) -> et_slug e = slug -> et_id e = id.
Proof.
  unfold slugUsedByOther. rewrite existsb_false. split.
  - intros H e Hin Hs. specialize (H e Hin).
    apply andb_false_iff in H. destruct H as [H | H].
    + apply String.eqb_neq in H. contradiction.
    + apply negb_false_iff, Z.eqb_eq in H. exact H.
  - intros H e Hin. destruct (String.eqb (et_slug e) slug) eqn:Es; [ | reflexivity ].
    apply String.eqb_eq in Es. simpl. apply negb_false_iff, Z.eqb_eq. apply H; assumption.
Qed.

(** Setting the slug of row [id] to a slug no other row has keeps slugs
    free of repetitions. *)
Lemma update_keeps_slugs (id : Z) (body : EventTypeBody) (s : string) :
  b_slug body = Some s ->
  forall rows : list EventType,
    NoDup (map et_id rows) -> NoDup (map et_slug rows) ->
    (forall e, In e rows -> et_slug e = s -> et_id e = id) ->
    NoDup (map et_slug
               (map (fun e => if et_id e =? id then applyUpdate body e else e) rows)).
Proof.
  intros Hs. induction rows as [|x tl IH]; intros Hids Hslugs Hother; simpl.
  - constructor.
  - inversion Hids as [|? ? Hxid Hids']; subst.
    inversion Hslugs as [|? ? Hxslug Hslugs']; subst.
    constructor.
    + intro Hin. apply in_map_iff in Hin. destruct Hin as [y' [Hy' Hin]].
      apply in_map_iff in Hin. destruct Hin as [y [<- Hy]].
      destruct (Z.eqb_spec (et_id x) id) as [Ex | Ex];
        destruct (Z.eqb_spec (et_id y) id) as [Ey | Ey].
      * apply Hxid. apply in_map_iff. exists y. split; [ congruence | exact Hy ].
      * unfold applyUpdate in Hy'. rewrite Hs in Hy'. simpl in Hy'.
        apply Ey. apply Hother; [ right; exact Hy | exact Hy' ].
      * unfold applyUpdate in Hy'. rewrite Hs in Hy'. simpl in Hy'.
        apply Ex. apply Hother; [ left; reflexivity | symmetry; exact Hy' ].
      * apply Hxslug. apply in_map_iff. exists y. split; [ exact Hy' | exact Hy ].
    + apply IH; try assumption.
      intros e He. apply Hother. right. exact He.
Qed.

Lemma update_keeps_ids (id : Z) (body : EventTypeBody) (rows : list EventType) :
  map et_id (map (fun e => if et_id e =? id then applyUpdate body e else e) rows)
  = map et_id rows.
Proof.
  rewrite map_map. apply map_ext. intro e.
  destruct (et_id e =? id); reflexivity.
Qed.

(** X4. Updating an event type.  On a table whose ids and slugs have no
    repetitions: an update answered 200 replaces the row by the row with
    the provided fields set and the others kept, which is what the lookup by
    id then finds; every other row, the ids of all rows and the other
    tables are as before; ids and slugs still have no repetitions; and an
    update answered otherwise changes nothing. *)
Theorem updateEventType_effect (db : DB) (id : Z) (body : EventTypeBody) :
  eventTypeKeys db ->
  let r := updateEventType db id body in
  eventTypeKeys (snd r)
  /\ map et_id (event_types (snd r)) = map et_id (event_types db)
  /\ (forall e, In e (event_types db) -> et_id e <> id -> In e (event_types (snd r)))
  /\ availability (snd r) = availability db
  /\ availability_overrides (snd r) = availability_overrides db
  /\ meetings (snd r) = meetings db
  /\ (replyStatus (fst r) = 200 ->
      exists e, eventTypeById db id = Some e
                /\ fst r = Json 200 (Some (applyUpdate body e))
                /\ eventTypeById (snd r) id = Some (applyUpdate body e))
  /\ (replyStatus (fst r) <> 200 -> snd r = db).
Proof.
  intros [Hids Hslugs] r. unfold r, updateEventType.
  assert (Same : eventTypeKeys db
                 /\ map et_id (event_types db) = map et_id (event_types db)
                 /\ (forall e, In e (event_types db) -> et_id e <> id ->
                               In e (event_types db))
                 /\ availability db = availability db
                 /\ availability_overrides db = availability_overrides db
                 /\ meetings db = meetings db).
  { repeat split; trivial. }
  destruct Same as (S1 & S2 & S3 & S4 & S5 & S6).
  destruct (eventTypeById db id) as [e|] eqn:He.
  2:{ simpl. repeat split; trivial; try discriminate. }
  destruct (truthy (b_slug body) && slugUsedByOther db (text (b_slug body)) id).
  { simpl. repeat split; trivial; try discriminate. }
  destruct (noFields body).
  { simpl. repeat split; trivial; try discriminate. }
  destruct (match b_slug body with Some v => slugUsedByOther db v id | None => false end)
    eqn:Hdup.
  { simpl. repeat split; trivial; try discriminate. }
  simpl fst. simpl snd.
  assert (Hfound : eventTypeById
                     (withEventTypes db
                        (map (fun e0 => if et_id e0 =? id then applyUpdate body e0 else e0)
                             (event_types db))) id = Some (applyUpdate body e)).
  { unfold eventTypeById in *. simpl. apply find_updated. exact He. }
  split; [ | split; [ | split; [ | split; [ | split; [ | split; [ | split ] ] ] ] ] ].
  - unfold eventTypeKeys. simpl. rewrite update_keeps_ids. split; [ exact Hids | ].
    destruct (b_slug body) as [s|] eqn:Hs.
    + apply (update_keeps_slugs id body s Hs); try assumption.
      apply slugUsedByOther_false. exact Hdup.
    + rewrite map_map.
      replace (map (fun x => et_slug (if et_id x =? id then applyUpdate body x else x))
                   (event_types db)) with (map et_slug (event_types db)); [ exact Hslugs | ].
      apply map_ext. intro x. destruct (et_id x =? id); [ | reflexivity ].
      unfold applyUpdate. rewrite Hs. reflexivity.
  - simpl. apply update_keeps_ids.
  - intros x Hx Hne. simpl. apply in_map_iff. exists x. split; [ | exact Hx ].
    apply Z.eqb_neq in Hne. rewrite Hne. reflexivity.
  - reflexivity.
  - reflexivity.
  - reflexivity.
  - intros _. exists e. rewrite Hfound. repeat split.
  - simpl. intro H. contradiction H. reflexivity.
Qed.

(** X5. Deleting an event type.  The route answers 200, the event type is
    no longer found by its id, no rule, override or meeting references the
    id any more, and the rows of every table that belong to other event
    types are all kept.  When slugs have no repetitions the slug is no
    longer found either, so the slot route answers NotFound for it. *)
Theorem deleteEventType_cascades (db : DB) (id : Z) (e : EventType) :
  eventTypeById db id = Some e ->
  let r := deleteEventType db id in
  replyStatus (fst r) = 200
  /\ eventTypeById (snd r) id = None
  /\ (forall a, In a (availability (snd r)) <->
                In a (availability db) /\ av_event_type_id a <> id)
  /\ (forall o, In o (availability_overrides (snd r)) <->
                In o (availability_overrides db) /\ ov_event_type_id o <> id)
  /\ (forall m, In m (meetings (snd r)) <->
                In m (meetings db) /\ m_event_type_id m <> id)
  /\ (forall x, In x (event_types (snd r)) <-> In x (event_types db) /\ et_id x <> id)
  /\ (eventTypeKeys db ->
      eventTypeBySlug (snd r) (et_slug e) = None
      /\ forall tzdb serverZone fuel now date tz,
           generateSlots tzdb serverZone fuel now (snd r) (et_slug e) (Some date) tz
           = Some (Failure 404 "Event type not found")).
Proof.
  intros He r. unfold r, deleteEventType. rewrite He. simpl fst. simpl snd.
  assert (Hneq : forall v, negb (v =? id) = true <-> v <> id).
  { intro v. rewrite negb_true_iff. apply Z.eqb_neq. }
  split; [ reflexivity | ].
  split.
  { unfold eventTypeById. simpl. apply find_none_iff. intros x Hx.
    apply filter_In in Hx. destruct Hx as [_ Hx]. apply negb_true_iff in Hx. exact Hx. }
  split; [ intro a; simpl; rewrite filter_In, Hneq; tauto | ].
  split; [ intro o; simpl; rewrite filter_In, Hneq; tauto | ].
  split; [ intro m; simpl; rewrite filter_In, Hneq; tauto | ].
  split; [ intro x; simpl; rewrite filter_In, Hneq; tauto | ].
  intros [_ Hslugs].
  assert (Hgone : eventTypeBySlug
                    {| event_types := filter (fun x => negb (et_id x =? id)) (event_types db);
                       availability :=
                         filter (fun a => negb (av_event_type_id a =? id)) (availability db);
                       availability_overrides :=
                         filter (fun o => negb (ov_event_type_id o =? id))
                                (availability_overrides db);
                       meetings :=
                         filter (fun m => negb (m_event_type_id m =? id)) (meetings db);
                       next_meeting_id := next_meeting_id db |} (et_slug e) = None).
  { unfold eventTypeBySlug. simpl. apply find_none_iff. intros x Hx.
    apply filter_In in Hx. destruct Hx as [Hin Hx]. apply Hneq in Hx.
    apply String.eqb_neq. intro Hs. apply Hx.
    destruct (eventTypeById_In db id e He) as [Hein Heid].
    rewrite (NoDup_map_inj et_slug (event_types db) x e Hslugs Hin Hein Hs). exact Heid. }
  split; [ exact Hgone | ].
  intros. unfold generateSlots. rewrite Hgone. reflexivity.
Qed.

(* --------------------------------------------------------------------- *)
(** *** Availability rules *)

Lemma noRepeatedKey_filter (p : Availability -> bool) (rows : list Availability) :
  noRepeatedKey rows = true -> noRepeatedKey (filter p rows) = true.
Proof.
  induction rows as [|x tl IH]; simpl; intro H; [ reflexivity | ].
  apply andb_true_iff in H. destruct H as [Hx Htl]. apply negb_true_iff in Hx.
  destruct (p x); simpl; [ | apply IH; exact Htl ].
  apply andb_true_iff. split; [ | apply IH; exact Htl ].
  apply negb_true_iff, existsb_false. intros y Hy. apply filter_In in Hy.
  exact (proj1 (existsb_false _ _) Hx y (proj1 Hy)).
Qed.

Lemma noRepeatedKey_snoc (rows : list Availability) (r : Availability) :
  noRepeatedKey rows = true -> existsb (sameKey r) rows = false ->
  noRepeatedKey (rows ++ [r]) = true.
Proof.
  induction rows as [|x tl IH]; simpl; intros H Hr; [ reflexivity | ].
  apply andb_true_iff in H. destruct H as [Hx Htl].
  apply orb_false_iff in Hr. destruct Hr as [Hrx Hr].
  apply andb_true_iff. split; [ | apply IH; assumption ].
  rewrite existsb_app. simpl. rewrite sameKey_sym, Hrx.
  apply negb_true_iff in Hx. rewrite Hx. reflexivity.
Qed.

Lemma insertAll_keeps_key (etId : Z) :
  forall (inputs : list AvailabilityInput) (rows0 rows' : list Availability),
    noRepeatedKey rows0 = true ->
    insertAll etId inputs rows0 = Some rows' ->
    noRepeatedKey rows' = true.
Proof.
  induction inputs as [|a rest IH]; intros rows0 rows' H0 H.
  - simpl in H. injection H as <-. exact H0.
  - rewrite insertAll_cons in H.
    destruct (rowFor etId a) as [r|]; [ | discriminate ].
    destruct (fitsColumns r); simpl in H; [ | discriminate ].
    destruct (existsb (sameKey r) rows0) eqn:E; simpl in H; [ discriminate | ].
    apply (IH _ _ (noRepeatedKey_snoc rows0 r H0 E) H).
Qed.

(** X7. The UNIQUE key of the availability table is an invariant: when no
    two rows agree on (event type, day of week, start, end) before a save,
    a clear or an event type deletion, none do after it, whatever the
    request is. *)
Theorem availability_key_is_kept (db : DB) :
  noRepeatedKey (availability db) = true ->
  (forall req, noRepeatedKey (availability (snd (saveAvailability db req))) = true)
  /\ (forall id, noRepeatedKey (availability (snd (clearAvailability db id))) = true)
  /\ (forall id, noRepeatedKey (availability (snd (deleteEventType db id))) = true).
Proof.
  intro H. split; [ | split ].
  - intro req. unfold saveAvailability.
    destruct (eventTypeId req) as [id|]; [ | exact H ].
    destruct (in_availability req) as [inputs|]; [ | exact H ].
    destruct (id =? 0); [ exact H | ].
    destruct (eventTypeById db id); [ | exact H ].
    destruct (replaceRules id inputs (availability db)) as [rows'|] eqn:R; [ | exact H ].
    simpl. unfold replaceRules in R.
    apply (insertAll_keeps_key id inputs (deleteAvailability (availability db) id) rows');
      [ | exact R ].
    apply noRepeatedKey_filter. exact H.
  - intro id. simpl. apply noRepeatedKey_filter. exact H.
  - intro id. unfold deleteEventType.
    destruct (eventTypeById db id); [ | exact H ].
    simpl. apply noRepeatedKey_filter. exact H.
Qed.

Lemma deleteAvailability_replaced (rows0 rows : list Availability) (etId : Z) :
  (forall r, In r rows -> av_event_type_id r = etId) ->
  deleteAvailability (deleteAvailability rows0 etId ++ rows) etId
  = deleteAvailability rows0 etId.
Proof.
  intro Hev. unfold deleteAvailability. rewrite filter_app, filter_twice.
  rewrite (filter_none _ rows).
  - apply app_nil_r.
  - intros r Hr. apply negb_false_iff, Z.eqb_eq. apply Hev. exact Hr.
Qed.

(** X8. Saving again.  Sending the same save request a second time is
    answered as the first time and leaves the tables as the first save
    left them, as far as the request decides the rows: the event type, day
    of week, times and zone of every rule.  (The ids and timestamps the
    engine generates for the re-inserted rows are not part of a row
    here.) *)
Theorem saveAvailability_idempotent (db : DB) (req : SaveRequest) :
  saveAvailability (snd (saveAvailability db req)) req = saveAvailability db req.
Proof.
  unfold saveAvailability at 2 3.
  destruct (eventTypeId req) as [id|] eqn:Eid; [ | unfold saveAvailability; rewrite Eid; reflexivity ].
  destruct (in_availability req) as [inputs|] eqn:Ein;
    [ | unfold saveAvailability; rewrite Eid, Ein; reflexivity ].
  destruct (id =? 0) eqn:E0;
    [ unfold saveAvailability; rewrite Eid, Ein, E0; reflexivity | ].
  destruct (eventTypeById db id) as [e|] eqn:He;
    [ | unfold saveAvailability; rewrite Eid, Ein, E0; simpl snd; rewrite He; reflexivity ].
  destruct (replaceRules id inputs (availability db)) as [rows'|] eqn:R.
  - simpl snd. unfold saveAvailability. rewrite Eid, Ein, E0.
    replace (eventTypeById (withAvailability db rows') id) with (Some e) by (symmetry; exact He).
    unfold replaceRules in R |- *. pose proof R as R'.
    apply insertAll_Some in R'. destruct R' as [rows (Hm & -> & _)].
    simpl availability.
    rewrite (deleteAvailability_replaced _ rows id (checked_rows_event id inputs rows Hm)).
    rewrite R. reflexivity.
  - simpl snd. unfold saveAvailability. rewrite Eid, Ein, E0, He, R. reflexivity.
Qed.

Lemma availabilityOf_cleared (db : DB) (etId : Z) :
  availabilityOf (withAvailability db (deleteAvailability (availability db) etId)) etId = [].
Proof.
  unfold availabilityOf, deleteAvailability. simpl. apply filter_none.
  intros a Ha. apply filter_In in Ha. destruct Ha as [_ Ha].
  apply negb_true_iff in Ha. exact Ha.
Qed.

(** X9. No rules, no slots.  After DELETE /api/availability/:id, or after a
    save of the empty list, the slot route answers the empty list for the
    event type on every date and in every zone, without entering its loop;
    the rules of the other event types are as before. *)
Theorem cleared_availability_gives_no_slots
    (tzdb : string -> option Zone) (serverZone : Zone) (db : DB) (slug : string)
    (et : EventType) :
  eventTypeBySlug db slug = Some et ->
  et_id et <> 0 ->
  let cleared := snd (clearAvailability db (et_id et)) in
  let saved := snd (saveAvailability db (mkSaveRequest (Some (et_id et)) (Some []))) in
  saved = cleared
  /\ (forall fuel now date tz,
        generateSlots tzdb serverZone fuel now cleared slug (Some date) tz
        = Some (Json 200 []))
  /\ (forall j, j <> et_id et -> availabilityOf cleared j = availabilityOf db j).
Proof.
  intros Het Hid cleared saved.
  destruct (eventTypeBySlug_In db slug et Het) as [Hin _].
  assert (Hsaved : saved = cleared).
  { unfold saved, cleared, saveAvailability, clearAvailability. simpl.
    apply Z.eqb_neq in Hid. rewrite Hid.
    destruct (eventTypeById db (et_id et)) as [e|] eqn:He; [ reflexivity | ].
    exfalso. unfold eventTypeById in He.
    pose proof (proj1 (find_none_iff _ _) He et Hin) as Hf. simpl in Hf.
    rewrite Z.eqb_refl in Hf. discriminate Hf. }
  split; [ exact Hsaved | split ].
  - intros fuel now date tz. unfold generateSlots, cleared, clearAvailability. simpl snd.
    replace (eventTypeBySlug (withAvailability db
               (deleteAvailability (availability db) (et_id et))) slug)
      with (Some et) by (symmetry; exact Het).
    rewrite availabilityOf_cleared. reflexivity.
  - intros j Hj. unfold cleared, clearAvailability. simpl snd.
    pose proof (replaced_rows db (et_id et) []) as H.
    rewrite app_nil_r in H. apply H; [ intros r [] | exact Hj ].
Qed.

Lemma Sorted_weaken {A} (R R' : A -> A -> Prop) (l : list A) :
  (forall a b, R a b -> R' a b) -> Sorted R l -> Sorted R' l.
Proof.
  intros HR. induction 1 as [|x tl Hs IH Hhd]; constructor.
  - exact IH.
  - destruct Hhd; constructor. apply HR. assumption.
Qed.

Lemma ruleOrder_spec (a b : Availability) :
  ruleOrder a b = true <->
  day_of_week a < day_of_week b
  \/ (day_of_week a = day_of_week b /\ av_start_time a <= av_start_time b).
Proof.
  unfold ruleOrder.
  rewrite orb_true_iff, andb_true_iff, Z.ltb_lt, Z.eqb_eq, Z.leb_le. tauto.
Qed.

Lemma ruleOrder_total (a b : Availability) :
  ruleOrder a b = false -> ruleOrder b a = true.
Proof.
  intro H. apply ruleOrder_spec.
  destruct (ruleOrder a b) eqn:E; [ discriminate | ].
  assert (N : ~ (day_of_week a < day_of_week b
                 \/ (day_of_week a = day_of_week b
                     /\ av_start_time a <= av_start_time b))).
  { intro C. apply ruleOrder_spec in C. rewrite C in E. discriminate E. }
  lia.
Qed.

(** X10. Reading the rules back.  GET /api/availability/:id answers with
    exactly the rules of the event type, each as often as the table holds
    it, ordered by day of week and then by start time; the body of a
    successful save is ordered the same way. *)
Theorem getAvailability_sorted (db : DB) (id : Z) :
  let byDayThenStart :=
    fun a b => day_of_week a < day_of_week b
               \/ (day_of_week a = day_of_week b
                   /\ av_start_time a <= av_start_time b) in
  (exists rows,
      getAvailability db id = Json 200 rows
      /\ Permutation rows (availabilityOf db id)
      /\ Sorted byDayThenStart rows
      /\ forall a, In a rows <-> In a (availability db) /\ av_event_type_id a = id)
  /\ (forall req rows, fst (saveAvailability db req) = Json 200 rows ->
                       Sorted byDayThenStart rows).
Proof.
  intro R.
  assert (HS : forall l, Sorted R (sortBy ruleOrder l)).
  { intro l. apply (Sorted_weaken (fun a b => ruleOrder a b = true)).
    - intros a b. apply ruleOrder_spec.
    - apply sortBy_sorted. exact ruleOrder_total. }
  split.
  - exists (sortBy ruleOrder (availabilityOf db id)).
    split; [ reflexivity | split; [ apply sortBy_perm | split; [ apply HS | ] ] ].
    intro a. rewrite sortBy_In. unfold availabilityOf.
    rewrite filter_In, Z.eqb_eq. tauto.
  - intros req rows. unfold saveAvailability.
    destruct (eventTypeId req) as [i|]; [ | discriminate ].
    destruct (in_availability req) as [inputs|]; [ | discriminate ].
    destruct (i =? 0); [ discriminate | ].
    destruct (eventTypeById db i); [ | discriminate ].
    destruct (replaceRules i inputs (availability db)); [ | discriminate ].
    simpl. intro H. injection H as <-. apply HS.
Qed.

(* --------------------------------------------------------------------- *)
(** *** Bookings one at a time *)

Lemma ForallOrdPairs_snoc {A} (R : A -> A -> Prop) (l : list A) (x : A) :
  ForallOrdPairs R l -> (forall a, In a l -> R a x) -> ForallOrdPairs R (l ++ [x]).
Proof.
  induction 1 as [|a l Ha Hl IH]; intro Hx; simpl.
  - constructor; [ constructor | constructor ].
  - constructor.
    + apply Forall_app. split; [ exact Ha | ].
      constructor; [ apply Hx; left; reflexivity | constructor ].
    + apply IH. intros b Hb. apply Hx. right. exact Hb.
Qed.

Lemma ForallOrdPairs_map {A} (R : A -> A -> Prop) (f : A -> A) (l : list A) :
  (forall a b, R a b -> R (f a) (f b)) ->
  ForallOrdPairs R l -> ForallOrdPairs R (map f l).
Proof.
  intro Hf. induction 1 as [|a l Ha Hl IH]; simpl; constructor.
  - apply Forall_map. revert Ha. apply Forall_impl. intro b. apply Hf.
  - exact IH.
Qed.

Lemma ForallOrdPairs_filter {A} (R : A -> A -> Prop) (p : A -> bool) (l : list A) :
  ForallOrdPairs R l -> ForallOrdPairs R (filter p l).
Proof.
  induction 1 as [|a l Ha Hl IH]; simpl; [ constructor | ].
  destruct (p a); [ | exact IH ].
  constructor; [ | exact IH ].
  apply Forall_forall. intros b Hb. apply filter_In in Hb.
  exact (proj1 (Forall_forall _ _) Ha b (proj1 Hb)).
Qed.

Lemma conflictingBookings_empty (db : DB) (etId : Z) (e s : Instant) :
  conflictingBookings db etId e s = [] <->
  forall m, In m (meetings db) -> m_event_type_id m = etId -> m_status m = scheduled ->
            ~ overlaps (m_start_time m) (m_end_time m) s e.
Proof.
  split.
  - intros E m Hin Hid Hst [H1 H2].
    assert (Hm : In m (conflictingBookings db etId e s)).
    { apply conflictingBookings_spec. repeat split; try assumption. lia. }
    rewrite E in Hm. exact Hm.
  - intro H. destruct (conflictingBookings db etId e s) as [|m l] eqn:E; [ reflexivity | ].
    exfalso.
    assert (Hm : In m (conflictingBookings db etId e s)) by (rewrite E; left; reflexivity).
    apply conflictingBookings_spec in Hm. destruct Hm as (Hin & Hid & Hst & H1 & H2).
    apply (H m Hin Hid Hst). split; lia.
Qed.

Lemma createBooking_noDoubleBooking (tzdb : string -> option Zone) (db : DB)
    (req : BookingRequest) :
  noDoubleBooking db -> noDoubleBooking (snd (createBooking tzdb db req)).
Proof.
  intro F. unfold createBooking.
  destruct (startTime req) as [st|]; [ | exact F ].
  destruct (bookingFieldsPresent req); [ | exact F ].
  destruct (eventTypeBySlug db (text (eventSlug req))) as [et|]; [ | exact F ].
  destruct (conflictingBookings db _ _ _) as [|c cs] eqn:E; [ | exact F ].
  simpl snd. unfold noDoubleBooking. simpl meetings.
  apply ForallOrdPairs_snoc; [ exact F | ].
  intros a Ha (Hid & Hsa & _ & Hov). simpl in Hid, Hov.
  exact (proj1 (conflictingBookings_empty db _ _ _) E a Ha Hid Hsa Hov).
Qed.

Lemma withStatus_cancelled_doubleBooked (id : Z) (a b : Meeting) :
  ~ doubleBooked a b ->
  ~ doubleBooked (if m_id a =? id then withStatus a cancelled else a)
                 (if m_id b =? id then withStatus b cancelled else b).
Proof.
  intros H (Hid & Ha & Hb & Hov).
  destruct (m_id a =? id); [ discriminate Ha | ].
  destruct (m_id b =? id); [ discriminate Hb | ].
  apply H. exact (conj Hid (conj Ha (conj Hb Hov))).
Qed.

(** X11. Requests served one at a time never double book.  If no two
    scheduled meetings of one event type overlap before a booking, a
    cancellation or an event type deletion, none do after it, whatever the
    request is. *)
Theorem sequential_requests_never_double_book (db : DB) :
  noDoubleBooking db ->
  (forall tzdb req, noDoubleBooking (snd (createBooking tzdb db req)))
  /\ (forall id, noDoubleBooking (snd (cancelMeeting db id)))
  /\ (forall id, noDoubleBooking (snd (deleteEventType db id))).
Proof.
  intro F. split; [ | split ].
  - intros. apply createBooking_noDoubleBooking, F.
  - intro id. unfold cancelMeeting.
    destruct (meetingById db id) as [m|]; [ | exact F ].
    destruct (status_eqb (m_status m) cancelled); [ exact F | ].
    simpl snd. unfold noDoubleBooking. simpl meetings.
    apply ForallOrdPairs_map; [ | exact F ].
    intros a b. apply withStatus_cancelled_doubleBooked.
  - intro id. unfold deleteEventType.
    destruct (eventTypeById db id); [ | exact F ].
    simpl snd. unfold noDoubleBooking. simpl meetings.
    apply ForallOrdPairs_filter. exact F.
Qed.

Lemma filter_by_key {A} (f : A -> Z) (l : list A) (a : A) :
  NoDup (map f l) -> In a l -> filter (fun x => f x =? f a) l = [a].
Proof.
  induction l as [|x tl IH]; intros Hnd Ha; [ destruct Ha | ].
  simpl in Hnd. inversion Hnd as [|? ? Hx Htl]; subst. simpl.
  destruct Ha as [-> | Ha].
  - rewrite Z.eqb_refl. f_equal. apply filter_none.
    intros y Hy. apply Z.eqb_neq. intro E. apply Hx. rewrite <- E.
    apply in_map. exact Hy.
  - destruct (Z.eqb_spec (f x) (f a)) as [E | E].
    + exfalso. apply Hx. rewrite E. apply in_map. exact Ha.
    + apply IH; assumption.
Qed.

(** X12. The reply to a booking is the stored meeting.  On a database whose
    event type ids have no repetitions and whose meeting ids are distinct
    and below the counter, a booking answered 201 carries the inserted
    meeting joined with the name and slug of its event type; GET
    /api/meetings/:id with the new id answers the same; meetings stored
    before are found by their ids as before; and the meeting ids remain
    distinct and below the counter. *)
Theorem createBooking_reply_is_stored_meeting
    (tzdb : string -> option Zone) (db : DB) (slug who mail tz : string)
    (st : DateTimeInput) (et : EventType) :
  slug <> "" -> who <> "" -> mail <> "" -> tz <> "" ->
  eventTypeBySlug db slug = Some et ->
  NoDup (map et_id (event_types db)) ->
  meetingKeys db ->
  let r := createBooking tzdb db
             (mkBookingRequest (Some slug) (Some who) (Some mail) (Some st) (Some tz)) in
  replyStatus (fst r) = 201 ->
  let new := mkMeeting (next_meeting_id db) (et_id et) who mail (momentTz tzdb st tz)
               (addMinutes (momentTz tzdb st tz) (duration_minutes et)) tz scheduled in
  let view := mkMeetingView new (et_name et) (et_slug et) in
  fst r = Json 201 (Some view)
  /\ getMeeting (snd r) (next_meeting_id db) = Json 200 view
  /\ meetingById (snd r) (next_meeting_id db) = Some new
  /\ (forall id m, meetingById db id = Some m -> meetingById (snd r) id = Some m)
  /\ meetingKeys (snd r).
Proof.
  intros Hslug Hwho Hmail Htz Het Hids [Hmids Hbelow] r H201 new view.
  unfold r in *. rewrite (createBooking_present tzdb db slug who mail tz st et) in *
    by assumption.
  destruct (conflictingBookings db (et_id et) _ _) as [|c cs]; [ | discriminate H201 ].
  cbn [fst snd].
  assert (Hnone : filter (fun m => m_id m =? next_meeting_id db) (meetings db) = []).
  { apply filter_none. intros m Hm. apply Z.eqb_neq. specialize (Hbelow m Hm). lia. }
  assert (Hjoin : joinedMeetingById
                    (snd (insertMeeting db (et_id et) who mail (momentTz tzdb st tz)
                            (addMinutes (momentTz tzdb st tz) (duration_minutes et)) tz))
                    (next_meeting_id db) = Some view).
  { unfold joinedMeetingById, insertMeeting. simpl. fold new.
    rewrite filter_app, Hnone. simpl. rewrite Z.eqb_refl. simpl.
    rewrite app_nil_r.
    rewrite (filter_by_key et_id (event_types db) et Hids
               (proj1 (eventTypeBySlug_In db slug et Het))).
    reflexivity. }
  split; [ rewrite Hjoin; reflexivity | ].
  split; [ unfold getMeeting; rewrite Hjoin; reflexivity | ].
  split.
  { unfold meetingById, insertMeeting. simpl. fold new. rewrite find_app_split.
    replace (find (fun m => m_id m =? next_meeting_id db) (meetings db))
      with (@None Meeting).
    - simpl. rewrite Z.eqb_refl. reflexivity.
    - symmetry. apply find_none_iff. intros m Hm. apply Z.eqb_neq.
      specialize (Hbelow m Hm). lia. }
  split.
  { intros id m Hm. unfold meetingById, insertMeeting in *. simpl.
    rewrite find_app_split, Hm. reflexivity. }
  unfold meetingKeys, insertMeeting. simpl. fold new. split.
  - rewrite map_app. simpl. apply NoDup_app_one; [ exact Hmids | ].
    intro H. apply in_map_iff in H. destruct H as [m [E Hm]].
    specialize (Hbelow m Hm). lia.
  - intros m Hm. apply in_app_or in Hm. destruct Hm as [Hm | [<- | []]].
    + specialize (Hbelow m Hm). lia.
    + simpl. lia.
Qed.

Lemma meetingById_In (db : DB) (id : Z) (m : Meeting) :
  meetingById db id = Some m -> In m (meetings db) /\ m_id m = id.
Proof.
  unfold meetingById. intro H. apply find_some in H.
  destruct H as [Hin Hs]. apply Z.eqb_eq in Hs. split; assumption.
Qed.

(** X13. Cancelling frees the slot.  On a database without double bookings,
    a request for exactly the interval of a scheduled meeting is refused
    with Conflict, and once that meeting is cancelled the same request is
    answered 201. *)
Theorem cancel_frees_the_slot
    (tzdb : string -> option Zone) (db : DB) (id : Z) (m : Meeting)
    (slug who mail tz : string) (st : DateTimeInput) (et : EventType) :
  noDoubleBooking db ->
  meetingById db id = Some m ->
  m_status m = scheduled ->
  m_start_time m < m_end_time m ->
  slug <> "" -> who <> "" -> mail <> "" -> tz <> "" ->
  eventTypeBySlug db slug = Some et ->
  et_id et = m_event_type_id m ->
  momentTz tzdb st tz = m_start_time m ->
  addMinutes (m_start_time m) (duration_minutes et) = m_end_time m ->
  let req := mkBookingRequest (Some slug) (Some who) (Some mail) (Some st) (Some tz) in
  errorKind (fst (createBooking tzdb db req)) = Some Conflict
  /\ replyStatus (fst (cancelMeeting db id)) = 200
  /\ replyStatus (fst (createBooking tzdb (snd (cancelMeeting db id)) req)) = 201.
Proof.
  intros F Hm Hst Hlen Hslug Hwho Hmail Htz Het Hid Hstart Hend req.
  destruct (meetingById_In db id m Hm) as [Hin Hmid].
  split; [ | split ].
  - unfold req. rewrite (createBooking_present tzdb db slug who mail tz st et)
      by assumption.
    rewrite Hstart, Hend.
    destruct (conflictingBookings db (et_id et) (m_end_time m) (m_start_time m))
      as [|c cs] eqn:E; [ | reflexivity ].
    exfalso.
    apply (proj1 (conflictingBookings_empty db _ _ _) E m Hin (eq_sym Hid) Hst).
    split; assumption.
  - unfold cancelMeeting. rewrite Hm, Hst. reflexivity.
  - assert (Hdb : snd (cancelMeeting db id) = setCancelled db id).
    { unfold cancelMeeting. rewrite Hm, Hst. reflexivity. }
    rewrite Hdb. unfold req.
    rewrite (createBooking_present tzdb (setCancelled db id) slug who mail tz st et)
      by assumption.
    rewrite Hstart, Hend.
    destruct (conflictingBookings (setCancelled db id) (et_id et) (m_end_time m)
                (m_start_time m)) as [|c cs] eqn:E; [ reflexivity | ].
    exfalso.
    assert (Hc : In c (conflictingBookings (setCancelled db id) (et_id et)
                         (m_end_time m) (m_start_time m))) by (rewrite E; left; reflexivity).
    apply conflictingBookings_spec in Hc.
    destruct Hc as (Hcin & Hcid & Hcst & Hc1 & Hc2).
    simpl in Hcin. apply in_map_iff in Hcin. destruct Hcin as [x [Hx Hxin]].
    destruct (Z.eqb_spec (m_id x) id) as [Ex | Ex].
    + subst c. discriminate Hcst.
    + subst c.
      assert (Hxm : doubleBooked x m).
      { unfold doubleBooked, overlaps. repeat split; try assumption; try lia; try congruence. }
      assert (Hmx : doubleBooked m x).
      { unfold doubleBooked, overlaps. repeat split; try assumption; try lia; try congruence. }
      destruct (ForallOrdPairs_In F x m Hxin Hin) as [E' | [N | N]].
      * apply Ex. rewrite E'. exact Hmid.
      * exact (N Hxm).
      * exact (N Hmx).
Qed.

(** X14. Cancelling twice.  After a cancellation answered 200, a second
    cancellation of the same id is answered 400 and changes nothing. *)
Theorem cancel_twice_is_refused (db : DB) (id : Z) :
  replyStatus (fst (cancelMeeting db id)) = 200 ->
  cancelMeeting (snd (cancelMeeting db id)) id
  = (Failure 400 "Meeting is already cancelled", snd (cancelMeeting db id)).
Proof.
  intro H200.
  destruct (meetingById db id) as [m|] eqn:Hm.
  2:{ unfold cancelMeeting in H200. rewrite Hm in H200. discriminate H200. }
  destruct (status_eqb (m_status m) cancelled) eqn:Hst.
  { unfold cancelMeeting in H200. rewrite Hm, Hst in H200. discriminate H200. }
  assert (Hdb : snd (cancelMeeting db id) = setCancelled db id).
  { unfold cancelMeeting. rewrite Hm, Hst. reflexivity. }
  rewrite Hdb. unfold cancelMeeting.
  assert (H : meetingById (setCancelled db id) id = Some (withStatus m cancelled)).
  { unfold meetingById in *. simpl. apply find_cancelled. exact Hm. }
  rewrite H. reflexivity.
Qed.

(* --------------------------------------------------------------------- *)
(** *** Listing meetings *)

Lemma joinedMeetings_In (db : DB) (rows : list Meeting) (v : MeetingView) :
  In v (joinedMeetings db rows) <->
  In (mv_meeting v) rows
  /\ exists e, In e (event_types db) /\ et_id e = m_event_type_id (mv_meeting v)
               /\ event_type_name v = et_name e /\ event_type_slug v = et_slug e.
Proof.
  unfold joinedMeetings. rewrite in_flat_map. split.
  - intros [m [Hm Hv]]. apply in_map_iff in Hv. destruct Hv as [e [<- He]].
    apply filter_In in He. destruct He as [He Hid]. apply Z.eqb_eq in Hid.
    simpl. split; [ exact Hm | ]. exists e. repeat split; assumption.
  - intros [Hm [e (He & Hid & Hn & Hs)]]. exists (mv_meeting v). split; [ exact Hm | ].
    apply in_map_iff. exists e. split.
    + destruct v as [m n s]. simpl in *. subst. reflexivity.
    + apply filter_In. split; [ exact He | apply Z.eqb_eq; exact Hid ].
Qed.

Lemma startsNoEarlier_total (a b : MeetingView) :
  startsNoEarlier a b = false -> startsNoEarlier b a = true.
Proof.
  unfold startsNoEarlier. intro H. apply Z.leb_gt in H. apply Z.leb_le. lia.
Qed.

(** X15. The meetings list.  GET /api/meetings answers with the stored
    meetings that pass the filters, each joined with its event type, latest
    start first.  With [upcoming=true] every listed meeting is scheduled and
    starts after the clock of the engine, so asking for upcoming meetings of
    another status gives the empty list; with [upcoming=false] every listed
    meeting starts at or before it. *)
Theorem listMeetings_filters (now : Instant) (db : DB) (q : MeetingsQuery) :
  exists l,
    listMeetings now db q = Json 200 l
    /\ Sorted (fun a b => m_start_time (mv_meeting b) <= m_start_time (mv_meeting a)) l
    /\ (forall v, In v l <->
                  In (mv_meeting v) (meetings db)
                  /\ meetingSelected now q (mv_meeting v) = true
                  /\ exists e, In e (event_types db)
                               /\ et_id e = m_event_type_id (mv_meeting v)
                               /\ event_type_name v = et_name e
                               /\ event_type_slug v = et_slug e)
    /\ (q_upcoming q = Some "true" ->
        (forall v, In v l -> m_status (mv_meeting v) = scheduled
                             /\ now < m_start_time (mv_meeting v))
        /\ (forall s, q_status q = StatusNamed s -> s <> scheduled -> l = []))
    /\ (q_upcoming q = Some "false" ->
        forall v, In v l -> m_start_time (mv_meeting v) <= now).
Proof.
  eexists. split; [ reflexivity | ].
  assert (Hin : forall v,
             In v (sortBy startsNoEarlier
                     (joinedMeetings db (filter (meetingSelected now q) (meetings db)))) <->
             In (mv_meeting v) (meetings db)
             /\ meetingSelected now q (mv_meeting v) = true
             /\ exists e, In e (event_types db)
                          /\ et_id e = m_event_type_id (mv_meeting v)
                          /\ event_type_name v = et_name e
                          /\ event_type_slug v = et_slug e).
  { intro v. rewrite sortBy_In, joinedMeetings_In, filter_In. tauto. }
  split; [ | split; [ exact Hin | split ] ].
  - apply (Sorted_weaken (fun a b => startsNoEarlier a b = true)).
    + intros a b H. apply Z.leb_le. exact H.
    + apply sortBy_sorted. exact startsNoEarlier_total.
  - intro Hup.
    assert (Hsel : forall v, In v (sortBy startsNoEarlier
                     (joinedMeetings db (filter (meetingSelected now q) (meetings db)))) ->
                   m_status (mv_meeting v) = scheduled
                   /\ now < m_start_time (mv_meeting v)
                   /\ forall s, q_status q = StatusNamed s -> s = scheduled).
    { intros v Hv. apply Hin in Hv. destruct Hv as (_ & Hs & _).
      unfold meetingSelected in Hs. rewrite Hup in Hs. simpl in Hs.
      apply andb_true_iff in Hs. destruct Hs as [Hq Hs].
      apply andb_true_iff in Hs. destruct Hs as [Hgt Hst].
      apply Z.gtb_gt in Hgt. apply status_eqb_eq in Hst.
      split; [ exact Hst | split; [ lia | ] ].
      intros s Hqs. rewrite Hqs in Hq. apply status_eqb_eq in Hq. congruence. }
    split.
    + intros v Hv. destruct (Hsel v Hv) as (H1 & H2 & _). split; assumption.
    + intros s Hqs Hne.
      destruct (sortBy startsNoEarlier
                  (joinedMeetings db (filter (meetingSelected now q) (meetings db))))
        as [|v tl]; [ reflexivity | ].
      exfalso. apply Hne.
      destruct (Hsel v (or_introl eq_refl)) as (_ & _ & H3). apply H3. exact Hqs.
  - intros Hup v Hv. apply Hin in Hv. destruct Hv as (_ & Hs & _).
    unfold meetingSelected in Hs. rewrite Hup in Hs. simpl in Hs.
    apply andb_true_iff in Hs. destruct Hs as [_ Hs]. apply Z.leb_le. exact Hs.
Qed.

(** X16. A cancelled meeting leaves the list of upcoming meetings: after a
    cancellation answered 200, no entry of the list for [upcoming=true]
    carries the cancelled id, whatever the status filter and the clock. *)
Theorem cancelled_meeting_is_not_upcoming
    (now : Instant) (db : DB) (id : Z) (status : StatusParam) (l : list MeetingView) :
  replyStatus (fst (cancelMeeting db id)) = 200 ->
  listMeetings now (snd (cancelMeeting db id)) (mkMeetingsQuery status (Some "true"))
  = Json 200 l ->
  forall v, In v l -> m_id (mv_meeting v) <> id.
Proof.
  unfold cancelMeeting.
  destruct (meetingById db id) as [m|]; [ | discriminate ].
  destruct (status_eqb (m_status m) cancelled); [ discriminate | ].
  intros _. cbn [snd]. unfold listMeetings. intro H. injection H as <-.
  intros v Hv Hid. apply sortBy_In in Hv. apply joinedMeetings_In in Hv.
  destruct Hv as [Hv _]. apply filter_In in Hv. destruct Hv as [Hv Hs].
  simpl in Hv. apply in_map_iff in Hv. destruct Hv as [x [Hx Hxin]].
  unfold meetingSelected in Hs. simpl in Hs.
  apply andb_true_iff in Hs. destruct Hs as [_ Hs].
  apply andb_true_iff in Hs. destruct Hs as [_ Hs]. apply status_eqb_eq in Hs.
  destruct (Z.eqb_spec (m_id x) id) as [Ex | Ex].
  - rewrite <- Hx in Hs. discriminate Hs.
  - apply Ex. rewrite <- Hid, <- Hx. reflexivity.
Qed.

(* --------------------------------------------------------------------- *)
(** *** Requests in flight *)

Lemma bookingStep_lookup (tzdb : string -> option Zone) (db : DB)
    (slug who mail tz : string) (st : DateTimeInput) (et : EventType) :
  slug <> "" -> who <> "" -> mail <> "" -> tz <> "" ->
  eventTypeBySlug db slug = Some et ->
  bookingStep tzdb db
    (AtLookup (mkBookingRequest (Some slug) (Some who) (Some mail) (Some st) (Some tz)))
  = (AtCheck (mkBookingRequest (Some slug) (Some who) (Some mail) (Some st) (Some tz))
             et (momentTz tzdb st tz)
             (addMinutes (momentTz tzdb st tz) (duration_minutes et)), db).
Proof.
  intros Hslug Hwho Hmail Htz Het. unfold bookingStep. simpl startTime.
  rewrite bookingFieldsPresent_full by assumption. simpl text. rewrite Het. reflexivity.
Qed.

(** X18. Two requests whose statements take turns.  When each of two
    well-formed requests passes the conflict check against the stored
    meetings, the schedule in which their statements alternate answers both
    with 201 and stores both meetings; if they are for the same event type
    and their intervals overlap, the table is double booked afterwards. *)
Theorem interleaved_requests_are_both_stored
    (tzdb : string -> option Zone) (db : DB)
    (slug1 who1 mail1 tz1 : string) (st1 : DateTimeInput) (et1 : EventType)
    (slug2 who2 mail2 tz2 : string) (st2 : DateTimeInput) (et2 : EventType) :
  slug1 <> "" -> who1 <> "" -> mail1 <> "" -> tz1 <> "" ->
  slug2 <> "" -> who2 <> "" -> mail2 <> "" -> tz2 <> "" ->
  eventTypeBySlug db slug1 = Some et1 ->
  eventTypeBySlug db slug2 = Some et2 ->
  let s1 := momentTz tzdb st1 tz1 in
  let e1 := addMinutes s1 (duration_minutes et1) in
  let s2 := momentTz tzdb st2 tz2 in
  let e2 := addMinutes s2 (duration_minutes et2) in
  conflictingBookings db (et_id et1) e1 s1 = [] ->
  conflictingBookings db (et_id et2) e2 s2 = [] ->
  let m1 := mkMeeting (next_meeting_id db) (et_id et1) who1 mail1 s1 e1 tz1 scheduled in
  let m2 := mkMeeting (next_meeting_id db + 1) (et_id et2) who2 mail2 s2 e2 tz2
              scheduled in
  let db' := mkDB (event_types db) (availability db) (availability_overrides db)
                  (meetings db ++ [m1; m2]) (next_meeting_id db + 1 + 1) in
  runSchedule tzdb takingTurns db
    (AtLookup (mkBookingRequest (Some slug1) (Some who1) (Some mail1) (Some st1) (Some tz1)))
    (AtLookup (mkBookingRequest (Some slug2) (Some who2) (Some mail2) (Some st2) (Some tz2)))
  = (db',
     Replied (Json 201 (joinedMeetingById db' (next_meeting_id db))),
     Replied (Json 201 (joinedMeetingById db' (next_meeting_id db + 1))))
  /\ (et_id et1 = et_id et2 -> overlaps s1 e1 s2 e2 -> ~ noDoubleBooking db').
Proof.
  intros A1 A2 A3 A4 B1 B2 B3 B4 Het1 Het2 s1 e1 s2 e2 C1 C2 m1 m2 db'.
  split.
  - unfold takingTurns. cbn [runSchedule].
    rewrite (bookingStep_lookup tzdb db slug1 who1 mail1 tz1 st1 et1) by assumption.
    rewrite (bookingStep_lookup tzdb db slug2 who2 mail2 tz2 st2 et2) by assumption.
    fold s1 e1 s2 e2. cbn [bookingStep]. rewrite C1, C2. cbn [bookingStep].
    unfold insertMeeting. cbn [text inviteeName inviteeEmail timezone meetings
      event_types availability availability_overrides next_meeting_id].
    fold m1. fold m2. rewrite <- app_assoc. simpl app. fold db'. reflexivity.
  - intros Hsame Hov F. unfold noDoubleBooking, db' in F. simpl meetings in F.
    assert (Hin1 : In m1 (meetings db ++ [m1; m2])).
    { apply in_or_app. right. left. reflexivity. }
    assert (Hin2 : In m2 (meetings db ++ [m1; m2])).
    { apply in_or_app. right. right. left. reflexivity. }
    assert (D12 : doubleBooked m1 m2).
    { unfold doubleBooked. simpl. repeat split; try assumption; apply Hov. }
    assert (D21 : doubleBooked m2 m1).
    { unfold doubleBooked, overlaps. simpl. destruct Hov as [O1 O2].
      repeat split; try assumption. symmetry. exact Hsame. }
    destruct (ForallOrdPairs_In F m1 m2 Hin1 Hin2) as [E | [N | N]].
    + assert (Hid : m_id m1 = m_id m2) by (rewrite E; reflexivity).
      simpl in Hid. lia.
    + exact (N D12).
    + exact (N D21).
Qed.

(* --------------------------------------------------------------------- *)
(** *** Emitted slots *)

Lemma allRangeSlots_In (tzdb : string -> option Zone) (fuel : nat) (now : Instant)
    (bookings : list (Instant * Instant)) (d date : Z) (tz : string) :
  forall (ranges : list TimeRange) (l : list Slot) (x : Slot),
    allRangeSlots tzdb fuel now bookings d date tz ranges = Some l ->
    In x l ->
    exists r l', In r ranges
                 /\ rangeSlots tzdb fuel now bookings d date tz r = Some l'
                 /\ In x l'.
Proof.
  induction ranges as [|r rs IH]; intros l x H Hx; simpl in H.
  - injection H as <-. destruct Hx.
  - destruct (rangeSlots tzdb fuel now bookings d date tz r) as [l1|] eqn:R1;
      [ | discriminate ].
    destruct (allRangeSlots tzdb fuel now bookings d date tz rs) as [l2|] eqn:R2;
      [ | discriminate ].
    injection H as <-. apply in_app_or in Hx. destruct Hx as [Hx | Hx].
    + exists r, l1. split; [ left; reflexivity | split; [ exact R1 | exact Hx ] ].
    + destruct (IH l2 x eq_refl Hx) as (r' & l' & Hr & Hl & Hin).
      exists r', l'. split; [ right; exact Hr | split; assumption ].
Qed.

(** Every slot of an answer was pushed by the loop of some range for some
    candidate start that is not past and has no conflict. *)
Lemma generateSlots_emitted (tzdb : string -> option Zone) (serverZone : Zone)
    (fuel : nat) (now : Instant) (db : DB) (slug : string) (date : Z)
    (tzParam : option string) (et : EventType) (slots : list Slot) :
  eventTypeBySlug db slug = Some et ->
  generateSlots tzdb serverZone fuel now db slug (Some date) tzParam
  = Some (Json 200 slots) ->
  let tz := match tzParam with Some t => t | None => "UTC" end in
  forall x, In x slots ->
  exists zoneName cur,
    x = mkSlot (formatCivil (getZone tzdb zoneName) cur)
               (formatCivil (getZone tzdb zoneName)
                            (addMinutes cur (duration_minutes et))) tz
    /\ hasConflict (existingBookings tzdb db (et_id et) tz date) cur
                   (addMinutes cur (duration_minutes et)) = false
    /\ isPast now cur = false.
Proof.
  intros Het Hgen tz x Hx. unfold generateSlots in Hgen. rewrite Het in Hgen.
  destruct (availabilityOf db (et_id et)) as [|a rules];
    [ injection Hgen as <-; destruct Hx | ].
  destruct (filter _ (a :: rules)) as [|a' day];
    [ injection Hgen as <-; destruct Hx | ].
  destruct (blocked _); [ injection Hgen as <-; destruct Hx | ].
  fold tz in Hgen.
  destruct (allRangeSlots tzdb fuel now _ _ date tz _) as [l|] eqn:R; [ | discriminate ].
  injection Hgen as <-. apply sortBy_In in Hx.
  destruct (allRangeSlots_In tzdb fuel now _ _ date tz _ l x R Hx)
    as (r & l' & _ & Hr & Hin).
  unfold rangeSlots in Hr.
  destruct (momentAt tzdb date (range_start r) _) as [S|];
    [ | injection Hr as <-; destruct Hin ].
  destruct (momentAt tzdb date (range_end r) _) as [E|];
    [ | injection Hr as <-; destruct Hin ].
  apply slotLoop_candidates in Hr. destruct Hr as [n (Hl & _ & _)].
  rewrite Hl in Hin. apply in_flat_map in Hin. destruct Hin as [cur [_ Hin]].
  apply pushIfFree_In in Hin.
  exists (orElse (Some (range_timezone r)) "UTC"), cur. exact Hin.
Qed.

(** X19. What the slot route never offers.  Every slot of an answer carries
    the viewer's zone name, starts at an instant that is not before the
    clock, and overlaps none of the meetings the route loaded. *)
Theorem slots_are_free_and_not_past (tzdb : string -> option Zone) (serverZone : Zone)
    (fuel : nat) (now : Instant) (db : DB) (slug : string) (date : Z)
    (tzParam : option string) (et : EventType) (slots : list Slot) :
  eventTypeBySlug db slug = Some et ->
  generateSlots tzdb serverZone fuel now db slug (Some date) tzParam
  = Some (Json 200 slots) ->
  let tz := match tzParam with Some t => t | None => "UTC" end in
  forall x, In x slots ->
  slot_timezone x = tz
  /\ exists zoneName slotStartUTC,
       slot_start x = formatCivil (getZone tzdb zoneName) slotStartUTC
       /\ slot_end x = formatCivil (getZone tzdb zoneName)
                                   (addMinutes slotStartUTC (duration_minutes et))
       /\ now <= slotStartUTC
       /\ forall b, In b (existingBookings tzdb db (et_id et) tz date) ->
                    ~ overlaps slotStartUTC (addMinutes slotStartUTC (duration_minutes et))
                               (fst b) (snd b).
Proof.
  intros Het Hgen tz x Hx.
  destruct (generateSlots_emitted tzdb serverZone fuel now db slug date tzParam et slots
              Het Hgen x Hx) as (zoneName & cur & -> & Hfree & Hnow).
  split; [ reflexivity | ]. exists zoneName, cur. repeat split.
  - unfold isPast in Hnow. apply Z.ltb_ge in Hnow. exact Hnow.
  - intros b Hb [H1 H2].
    assert (Hc : hasConflict (existingBookings tzdb db (et_id et) tz date) cur
                   (addMinutes cur (duration_minutes et)) = true).
    { apply hasConflict_spec. exists b. repeat split; assumption. }
    pose proof (eq_trans (eq_sym Hc) Hfree) as K. discriminate K.
Qed.

Lemma formatCivil_addMinutes (z : Zone) (t d : Z) :
  utcOffset z (addMinutes t d) = utcOffset z t ->
  formatCivil z (addMinutes t d) = formatCivil z t + d * msPerMinute.
Proof.
  intro H. unfold formatCivil, toCivil. rewrite H.
  unfold addMinutes, msPerMinute, msPerSecond.
  replace (t + d * 60000 + utcOffset z t) with (t + utcOffset z t + (d * 60) * 1000) by lia.
  rewrite Z.div_add by lia. lia.
Qed.

(** X20. Length of a slot.  When no zone of the timezone database changes
    its offset, the end of every emitted slot is its start plus the duration
    of the event type, on the wall clock. *)
Theorem slots_last_the_duration (tzdb : string -> option Zone) (serverZone : Zone)
    (fuel : nat) (now : Instant) (db : DB) (slug : string) (date : Z)
    (tzParam : option string) (et : EventType) (slots : list Slot) :
  (forall name z t t', tzdb name = Some z -> utcOffset z t = utcOffset z t') ->
  eventTypeBySlug db slug = Some et ->
  generateSlots tzdb serverZone fuel now db slug (Some date) tzParam
  = Some (Json 200 slots) ->
  forall x, In x slots ->
  slot_end x = slot_start x + duration_minutes et * msPerMinute.
Proof.
  intros Hconst Het Hgen x Hx.
  destruct (generateSlots_emitted tzdb serverZone fuel now db slug date tzParam et slots
              Het Hgen x Hx) as (zoneName & cur & -> & _ & _).
  simpl. apply formatCivil_addMinutes.
  unfold getZone. destruct (tzdb zoneName) as [z|] eqn:E.
  - apply (Hconst zoneName z _ _ E).
  - reflexivity.
Qed.

Lemma weekday_range (n : Z) : 0 <= weekday n <= 6.
Proof.
  unfold weekday. pose proof (Z.mod_pos_bound (n + 4) 7). lia.
Qed.

Lemma filter_implied {A} (p q ev : A -> bool) (l : list A) :
  (forall x, p x = true -> q x = true) ->
  filter p (filter ev (filter q l)) = filter p (filter ev l).
Proof.
  intro Hpq. induction l as [|x tl IH]; simpl; [ reflexivity | ].
  destruct (q x) eqn:Q; simpl.
  - destruct (ev x); simpl; [ | exact IH ].
    destruct (p x); rewrite IH; reflexivity.
  - destruct (ev x); simpl; [ | exact IH ].
    destruct (p x) eqn:P; [ | exact IH ].
    rewrite (Hpq x P) in Q. discriminate Q.
Qed.

(** The answer of the slot route depends on the rules through the rules of
    the requested weekday only. *)
Lemma generateSlots_by_day_rules (tzdb : string -> option Zone) (serverZone : Zone)
    (fuel : nat) (now : Instant) (db db' : DB) (slug : string) (date : Z)
    (tzParam : option string) :
  event_types db' = event_types db ->
  availability_overrides db' = availability_overrides db ->
  meetings db' = meetings db ->
  (forall id,
      filter (fun a => day_of_week a
                       =? dayOfWeek tzdb (match tzParam with Some t => t | None => "UTC" end)
                                    date)
             (availabilityOf db' id)
      = filter (fun a => day_of_week a
                         =? dayOfWeek tzdb (match tzParam with Some t => t | None => "UTC" end)
                                      date)
               (availabilityOf db id)) ->
  generateSlots tzdb serverZone fuel now db' slug (Some date) tzParam
  = generateSlots tzdb serverZone fuel now db slug (Some date) tzParam.
Proof.
  intros Ht Ho Hm Hday. unfold generateSlots, eventTypeBySlug. rewrite Ht.
  destruct (find _ (event_types db)) as [et|]; [ | reflexivity ].
  specialize (Hday (et_id et)).
  unfold overrideFor, existingBookings. rewrite Ho, Hm.
  destruct (availabilityOf db' (et_id et)) as [|a' rules'];
    destruct (availabilityOf db (et_id et)) as [|a rules].
  - reflexivity.
  - rewrite <- Hday. reflexivity.
  - rewrite Hday. reflexivity.
  - rewrite Hday. reflexivity.
Qed.

(** X21. Rules the slot route cannot reach.  The day of week the route
    computes is always one of 0..6, and a rule is used only when its
    day_of_week equals it: removing from the table every rule of another
    day of week leaves the answer for the date as it is, and removing every
    rule whose day_of_week is outside 0..6 leaves every answer as it is.
    When no rule of the event type carries the day of week of the requested
    date the answer is the empty list, so rules stored with a day_of_week
    outside 0..6 never produce a slot. *)
Theorem slots_need_a_rule_of_the_day (tzdb : string -> option Zone) (serverZone : Zone)
    (db : DB) (slug : string) (et : EventType) :
  eventTypeBySlug db slug = Some et ->
  (forall tz date, 0 <= dayOfWeek tzdb tz date <= 6)
  /\ (forall fuel now date tzParam,
        let tz := match tzParam with Some t => t | None => "UTC" end in
        generateSlots tzdb serverZone fuel now
          (withAvailability db
             (filter (fun a => day_of_week a =? dayOfWeek tzdb tz date) (availability db)))
          slug (Some date) tzParam
        = generateSlots tzdb serverZone fuel now db slug (Some date) tzParam)
  /\ (forall fuel now date tzParam,
        generateSlots tzdb serverZone fuel now
          (withAvailability db
             (filter (fun a => (0 <=? day_of_week a) && (day_of_week a <=? 6))
                     (availability db)))
          slug (Some date) tzParam
        = generateSlots tzdb serverZone fuel now db slug (Some date) tzParam)
  /\ (forall fuel now date tzParam,
        let tz := match tzParam with Some t => t | None => "UTC" end in
        (forall a, In a (availability db) -> av_event_type_id a = et_id et ->
                   day_of_week a <> dayOfWeek tzdb tz date) ->
        generateSlots tzdb serverZone fuel now db slug (Some date) tzParam
        = Some (Json 200 []))
  /\ ((forall a, In a (availability db) -> av_event_type_id a = et_id et ->
                 ~ (0 <= day_of_week a <= 6)) ->
      forall fuel now date tzParam,
        generateSlots tzdb serverZone fuel now db slug (Some date) tzParam
        = Some (Json 200 [])).
Proof.
  intro Het.
  assert (Hrange : forall tz date, 0 <= dayOfWeek tzdb tz date <= 6).
  { intros tz date. unfold dayOfWeek. apply weekday_range. }
  assert (Hday : forall fuel now date tzParam,
             (forall a, In a (availability db) -> av_event_type_id a = et_id et ->
                        day_of_week a
                        <> dayOfWeek tzdb (match tzParam with Some t => t | None => "UTC" end)
                                     date) ->
             generateSlots tzdb serverZone fuel now db slug (Some date) tzParam
             = Some (Json 200 [])).
  { intros fuel now date tzParam Hno. unfold generateSlots. rewrite Het.
    destruct (availabilityOf db (et_id et)) as [|a rules] eqn:Ha; [ reflexivity | ].
    rewrite filter_none; [ reflexivity | ].
    intros r Hr. apply Z.eqb_neq. rewrite <- Ha in Hr. unfold availabilityOf in Hr.
    apply filter_In in Hr. destruct Hr as [Hin Hid]. apply Z.eqb_eq in Hid.
    apply Hno; assumption. }
  split; [ exact Hrange | split; [ | split; [ | split ] ] ].
  - intros fuel now date tzParam tz.
    apply generateSlots_by_day_rules; try reflexivity.
    intro id. unfold availabilityOf. simpl availability. fold tz.
    apply filter_implied. intros x Hx. exact Hx.
  - intros fuel now date tzParam.
    apply generateSlots_by_day_rules; try reflexivity.
    intro id. unfold availabilityOf. simpl availability.
    apply filter_implied. intros x Hx. apply Z.eqb_eq in Hx. rewrite Hx.
    pose proof (Hrange (match tzParam with Some t => t | None => "UTC" end) date) as [H0 H6].
    apply andb_true_iff. split; apply Z.leb_le; assumption.
  - intros fuel now date tzParam tz. apply Hday.
  - intros Hout fuel now date tzParam. apply Hday.
    intros a Hin Hid E. apply (Hout a Hin Hid). rewrite E. apply Hrange.
Qed.

Lemma slotLoop_short (tzdb : string -> option Zone) (fuel : nat) (now : Instant)
    (bookings : list (Instant * Instant)) (d : Z) (availTz tz : string)
    (endM startM : Instant) :
  endM < addMinutes startM d ->
  slotLoop tzdb fuel now bookings d availTz tz endM startM = Some [].
Proof.
  intro H. apply Z.leb_gt in H. destruct fuel; simpl; rewrite H; reflexivity.
Qed.

(** X22. A duration that fits no range.  When in every effective range of
    the day the end comes before the start plus the duration (ranges that
    are too short, and ranges whose end is not after their start when the
    duration is positive), the answer is the empty list, not an error, and
    the loop body never runs. *)
Theorem duration_longer_than_every_range
    (tzdb : string -> option Zone) (serverZone : Zone) (now : Instant) (db : DB)
    (slug : string) (date : Z) (tzParam : option string) (et : EventType) :
  eventTypeBySlug db slug = Some et ->
  let tz := match tzParam with Some t => t | None => "UTC" end in
  (forall r,
      In r (timeRanges (overrideFor db (et_id et) date)
              (filter (fun a => day_of_week a =? dayOfWeek tzdb tz date)
                      (availabilityOf db (et_id et))) tz) ->
      forall S E,
        momentAt tzdb date (range_start r) (orElse (Some (range_timezone r)) "UTC") = Some S ->
        momentAt tzdb date (range_end r) (orElse (Some (range_timezone r)) "UTC") = Some E ->
        E < addMinutes S (duration_minutes et)) ->
  forall fuel,
    generateSlots tzdb serverZone fuel now db slug (Some date) tzParam
    = Some (Json 200 []).
Proof.
  intros Het tz Hshort fuel. unfold generateSlots. rewrite Het. fold tz.
  destruct (availabilityOf db (et_id et)) as [|a rules] eqn:Ha; [ reflexivity | ].
  destruct (filter _ (a :: rules)) as [|a' day] eqn:Hd; [ reflexivity | ].
  destruct (blocked _); [ reflexivity | ].
  assert (Hall : forall ranges,
             (forall r, In r ranges ->
                forall S E,
                  momentAt tzdb date (range_start r)
                           (orElse (Some (range_timezone r)) "UTC") = Some S ->
                  momentAt tzdb date (range_end r)
                           (orElse (Some (range_timezone r)) "UTC") = Some E ->
                  E < addMinutes S (duration_minutes et)) ->
             allRangeSlots tzdb fuel now (existingBookings tzdb db (et_id et) tz date)
               (duration_minutes et) date tz ranges = Some []).
  { induction ranges as [|r rs IH]; intro H; simpl; [ reflexivity | ].
    rewrite IH by (intros r' Hr'; apply H; right; exact Hr').
    unfold rangeSlots.
    destruct (momentAt tzdb date (range_start r) _) as [S|] eqn:ES; [ | reflexivity ].
    destruct (momentAt tzdb date (range_end r) _) as [E|] eqn:EE; [ | reflexivity ].
    rewrite slotLoop_short; [ reflexivity | ].
    apply (H r (or_introl eq_refl) S E ES EE). }
  rewrite Hall; [ reflexivity | exact Hshort ].
Qed.

Lemma slotLoop_diverges (tzdb : string -> option Zone) (now : Instant)
    (bookings : list (Instant * Instant)) (d : Z) (availTz tz : string) (endM : Instant) :
  d <= 0 ->
  forall (fuel : nat) (cur : Instant),
    addMinutes cur d <= endM ->
    slotLoop tzdb fuel now bookings d availTz tz endM cur = None.
Proof.
  intros Hd. induction fuel as [|fuel IH]; intros cur Hfit; simpl.
  - apply Z.leb_le in Hfit. rewrite Hfit. reflexivity.
  - pose proof Hfit as G. apply Z.leb_le in G. rewrite G.
    rewrite IH; [ reflexivity | ].
    unfold addMinutes, msPerMinute in *. lia.
Qed.

Lemma allRangeSlots_None (tzdb : string -> option Zone) (fuel : nat) (now : Instant)
    (bookings : list (Instant * Instant)) (d date : Z) (tz : string) (r : TimeRange) :
  rangeSlots tzdb fuel now bookings d date tz r = None ->
  forall ranges, In r ranges ->
    allRangeSlots tzdb fuel now bookings d date tz ranges = None.
Proof.
  intro Hr. induction ranges as [|x rs IH]; intro Hin; [ destruct Hin | ].
  simpl. destruct Hin as [-> | Hin].
  - rewrite Hr. reflexivity.
  - rewrite (IH Hin). destruct (rangeSlots tzdb fuel now bookings d date tz x); reflexivity.
Qed.

(** X23. A duration of zero.  For an event type whose duration is zero, on
    a date without override and with a rule of the day whose start is not
    after its end, the loop of the slot route never ends: the candidate
    does not move, and no number of iterations produces an answer. *)
Theorem zero_duration_never_answers
    (tzdb : string -> option Zone) (serverZone : Zone) (now : Instant) (db : DB)
    (slug : string) (date : Z) (tzParam : option string) (et : EventType)
    (a : Availability) (S E : Instant) :
  eventTypeBySlug db slug = Some et ->
  duration_minutes et = 0 ->
  let tz := match tzParam with Some t => t | None => "UTC" end in
  overrideFor db (et_id et) date = None ->
  In a (availability db) ->
  av_event_type_id a = et_id et ->
  day_of_week a = dayOfWeek tzdb tz date ->
  momentAt tzdb date (av_start_time a) (orElse (Some (av_timezone a)) "UTC") = Some S ->
  momentAt tzdb date (av_end_time a) (orElse (Some (av_timezone a)) "UTC") = Some E ->
  S <= E ->
  forall fuel,
    generateSlots tzdb serverZone fuel now db slug (Some date) tzParam = None.
Proof.
  intros Het Hd tz Hov Hin Hid Hday HS HE Hfit fuel.
  unfold generateSlots. rewrite Het. fold tz.
  assert (Ha : In a (availabilityOf db (et_id et))).
  { unfold availabilityOf. apply filter_In. split; [ exact Hin | apply Z.eqb_eq; exact Hid ]. }
  destruct (availabilityOf db (et_id et)) as [|x rules] eqn:Erules; [ destruct Ha | ].
  assert (Hday' : In a (filter (fun r => day_of_week r =? dayOfWeek tzdb tz date)
                               (x :: rules))).
  { apply filter_In. split; [ exact Ha | apply Z.eqb_eq; exact Hday ]. }
  destruct (filter (fun r => day_of_week r =? dayOfWeek tzdb tz date) (x :: rules))
    as [|y day] eqn:Eday; [ destruct Hday' | ].
  rewrite Hov. simpl blocked. cbv iota. unfold timeRanges.
  rewrite (allRangeSlots_None tzdb fuel now _ _ date tz (rowRange a)).
  - reflexivity.
  - unfold rangeSlots. simpl range_start. simpl range_end. simpl range_timezone.
    rewrite HS, HE. apply slotLoop_diverges.
    + rewrite Hd. apply Z.le_refl.
    + rewrite Hd. unfold addMinutes. lia.
  - apply in_map. exact Hday'.
Qed.

(** X24. The stored start reads back as the requested time.  For a request
    whose start is a wall-clock reading in a zone that formats an instant
    with the offset it parsed the reading with, a booking answered 201
    stores one meeting that records the zone of the request, whose start
    shown in that zone is the requested reading, and whose end is its start
    plus the duration of the event type. *)
Theorem stored_start_reads_back
    (tzdb : string -> option Zone) (db : DB) (slug who mail tz : string)
    (c : Civil) (et : EventType) :
  slug <> "" -> who <> "" -> mail <> "" -> tz <> "" ->
  eventTypeBySlug db slug = Some et ->
  utcOffset (getZone tzdb tz) (toUTC (getZone tzdb tz) c) = parseOffset (getZone tzdb tz) c ->
  let r := createBooking tzdb db
             (mkBookingRequest (Some slug) (Some who) (Some mail) (Some (LocalTime c))
                               (Some tz)) in
  replyStatus (fst r) = 201 ->
  exists m,
    meetings (snd r) = (meetings db ++ [m])%list
    /\ m_timezone m = tz
    /\ toCivil (getZone tzdb (m_timezone m)) (m_start_time m) = c
    /\ m_end_time m = m_start_time m + duration_minutes et * msPerMinute.
Proof.
  intros Hslug Hwho Hmail Htz Het Hco r H201. unfold r in *.
  rewrite (createBooking_present tzdb db slug who mail tz (LocalTime c) et) in *
    by assumption.
  destruct (conflictingBookings db (et_id et) _ _) as [|x xs]; [ | discriminate H201 ].
  cbn [snd]. unfold insertMeeting. cbn [snd meetings].
  eexists. split; [ reflexivity | ]. simpl. repeat split.
  unfold toCivil. rewrite Hco. unfold toUTC. lia.
Qed.

(* --------------------------------------------------------------------- *)
(** *** Further instances *)

Ltac distinct_keys := repeat constructor; simpl; intuition (try discriminate; try lia).

Ltac sample_foreign_keys :=
  split; [ | split ]; intros x Hx; simpl in Hx;
  repeat (destruct Hx as [<- | Hx]); try contradiction;
  first [ exists thirtyMin; split; [ simpl; tauto | reflexivity ]
        | exists oneHour; split; [ simpl; tauto | reflexivity ] ].

Lemma routes_keep_foreign_keys_witness :
  foreignKeysHold (snd (deleteEventType bookedDb 1)).
Proof.
  destruct (routes_keep_foreign_keys bookedDb) as (_ & _ & _ & _ & _ & _ & H).
  - sample_foreign_keys.
  - apply H.
Defined.

Lemma createEventType_round_trip_witness :
  eventTypeBySlug (snd (createEventType emptyDb 3 quickCallBody)) "quick-call"
  = Some (mkEventType 3 "Quick Call" "quick-call" 15).
Proof.
  apply (createEventType_round_trip emptyDb 3 "Quick Call" "quick-call" 15 None None);
    try discriminate; try reflexivity.
  intros e [<- | [<- | []]]; simpl; discriminate.
Defined.

Lemma createEventType_keeps_keys_witness :
  eventTypeKeys (snd (createEventType emptyDb 3 quickCallBody)).
Proof.
  apply (createEventType_keeps_keys emptyDb 3 quickCallBody).
  - intros e [<- | [<- | []]]; simpl; discriminate.
  - split; distinct_keys.
Defined.

Lemma updateEventType_effect_witness :
  eventTypeKeys (snd (updateEventType simpleDayDb 1 renameBody))
  /\ In oneHour (event_types (snd (updateEventType simpleDayDb 1 renameBody))).
Proof.
  destruct (updateEventType_effect simpleDayDb 1 renameBody) as (H1 & _ & H3 & _).
  - split; distinct_keys.
  - split; [ exact H1 | ]. apply H3.
    + right. left. reflexivity.
    + simpl. discriminate.
Defined.

Lemma deleteEventType_cascades_witness :
  eventTypeById (snd (deleteEventType bookedDb 1)) 1 = None
  /\ eventTypeBySlug (snd (deleteEventType bookedDb 1)) "30-min" = None.
Proof.
  destruct (deleteEventType_cascades bookedDb 1 thirtyMin eq_refl)
    as (_ & H2 & _ & _ & _ & _ & H7).
  split; [ exact H2 | ].
  apply H7. split; distinct_keys.
Defined.

Lemma availability_key_is_kept_witness :
  noRepeatedKey
    (availability (snd (saveAvailability simpleDayDb
                          (mkSaveRequest (Some 1) (Some [backwardsRow; mondayMorning])))))
  = true.
Proof.
  destruct (availability_key_is_kept simpleDayDb eq_refl) as [H _]. apply H.
Defined.

Lemma cleared_availability_gives_no_slots_witness :
  generateSlots sampleZones utcZone 0 0 (snd (clearAvailability simpleDayDb 1)) "30-min"
                (Some monday) (Some "UTC") = Some (Json 200 []).
Proof.
  destruct (cleared_availability_gives_no_slots sampleZones utcZone simpleDayDb "30-min"
              thirtyMin eq_refl) as (_ & H & _).
  - simpl. discriminate.
  - apply H.
Defined.

Lemma getAvailability_sorted_witness :
  Sorted (fun a b => day_of_week a < day_of_week b
                     \/ (day_of_week a = day_of_week b
                         /\ av_start_time a <= av_start_time b))
         [mkAvailability 1 1 (hhmm 9 0) (hhmm 12 0) "UTC";
          mkAvailability 1 9 (hhmm 17 0) (hhmm 9 0) "UTC"].
Proof.
  destruct (getAvailability_sorted simpleDayDb 1) as [_ H].
  apply (H (mkSaveRequest (Some 1) (Some [backwardsRow; mondayMorning]))).
  reflexivity.
Defined.

Lemma sequential_requests_never_double_book_witness :
  noDoubleBooking
    (snd (createBooking sampleZones bookedDb
            (bookingAt "30-min" "Zed" "zed@example.org" (clock monday 9 30) "UTC"))).
Proof.
  destruct (sequential_requests_never_double_book bookedDb) as [H _].
  - unfold noDoubleBooking. simpl. repeat constructor.
  - apply H.
Defined.

Lemma createBooking_reply_is_stored_meeting_witness :
  getMeeting (snd (createBooking sampleZones bookedDb
                     (bookingAt "30-min" "Zed" "zed@example.org" (clock monday 9 30) "UTC")))
             2
  = Json 200 (mkMeetingView (zedsMeeting 2) "30 Minute Meeting" "30-min").
Proof.
  destruct (createBooking_reply_is_stored_meeting sampleZones bookedDb "30-min" "Zed"
              "zed@example.org" "UTC" (LocalTime (clock monday 9 30)) thirtyMin)
    as (_ & H & _);
    [ discriminate | discriminate | discriminate | discriminate | reflexivity
    | distinct_keys
    | split; [ distinct_keys | intros m [<- | []]; simpl; lia ]
    | reflexivity
    | exact H ].
Defined.

Lemma cancel_frees_the_slot_witness :
  errorKind (fst (createBooking sampleZones bookedDb annAtNine)) = Some Conflict
  /\ replyStatus (fst (createBooking sampleZones (snd (cancelMeeting bookedDb 1))
                         annAtNine)) = 201.
Proof.
  destruct (cancel_frees_the_slot sampleZones bookedDb 1 (annsMeeting 1) "30-min" "Ann"
              "ann@example.org" "UTC" (LocalTime (clock monday 9 0)) thirtyMin)
    as (H1 & _ & H3); try discriminate; try reflexivity.
  - unfold noDoubleBooking. simpl. repeat constructor.
  - split; [ exact H1 | exact H3 ].
Defined.

Lemma cancel_twice_is_refused_witness :
  cancelMeeting (snd (cancelMeeting statusDb 1)) 1
  = (Failure 400 "Meeting is already cancelled", snd (cancelMeeting statusDb 1)).
Proof.
  apply cancel_twice_is_refused. reflexivity.
Defined.

Lemma listMeetings_filters_witness :
  exists l,
    listMeetings (clock sunday 12 0) statusDb
                 (mkMeetingsQuery (StatusNamed cancelled) (Some "true")) = Json 200 l
    /\ l = [].
Proof.
  destruct (listMeetings_filters (clock sunday 12 0) statusDb
              (mkMeetingsQuery (StatusNamed cancelled) (Some "true")))
    as [l (Hl & _ & _ & Hup & _)].
  exists l. split; [ exact Hl | ].
  apply (proj2 (Hup eq_refl) cancelled eq_refl). discriminate.
Defined.

Lemma cancelled_meeting_is_not_upcoming_witness :
  listMeetings (clock sunday 12 0) (snd (cancelMeeting twoBookingsDb 1))
               (mkMeetingsQuery NoStatus (Some "true"))
  = Json 200 [mkMeetingView (zedsMeeting 2) "30 Minute Meeting" "30-min"]
  /\ m_id (mv_meeting (mkMeetingView (zedsMeeting 2) "30 Minute Meeting" "30-min")) <> 1.
Proof.
  assert (H : listMeetings (clock sunday 12 0) (snd (cancelMeeting twoBookingsDb 1))
                           (mkMeetingsQuery NoStatus (Some "true"))
              = Json 200 [mkMeetingView (zedsMeeting 2) "30 Minute Meeting" "30-min"]).
  { vm_compute. reflexivity. }
  split; [ exact H | ].
  apply (cancelled_meeting_is_not_upcoming (clock sunday 12 0) twoBookingsDb 1 NoStatus
           [mkMeetingView (zedsMeeting 2) "30 Minute Meeting" "30-min"]).
  - reflexivity.
  - exact H.
  - left. reflexivity.
Defined.

Lemma interleaved_requests_are_both_stored_witness :
  ~ noDoubleBooking (mkDB [thirtyMin; oneHour] [] [] [annsMeeting 1; bobsMeeting 2] 3).
Proof.
  destruct (interleaved_requests_are_both_stored sampleZones emptyDb
              "30-min" "Ann" "ann@example.org" "UTC" (LocalTime (clock monday 9 0)) thirtyMin
              "30-min" "Bob" "bob@example.org" "UTC" (LocalTime (clock monday 9 0)) thirtyMin)
    as [_ H]; try discriminate; try reflexivity.
  apply H.
  - reflexivity.
  - unfold overlaps. vm_compute. split; reflexivity.
Defined.

Lemma slots_are_free_and_not_past_witness :
  slot_timezone (mkSlot (clock monday 9 30) (clock monday 10 0) "UTC") = "UTC"
  /\ exists zoneName slotStartUTC,
       clock monday 9 30 = formatCivil (getZone sampleZones zoneName) slotStartUTC
       /\ clock monday 10 0
          = formatCivil (getZone sampleZones zoneName) (addMinutes slotStartUTC 30)
       /\ 0 <= slotStartUTC
       /\ forall b, In b (existingBookings sampleZones bookedDb 1 "UTC" monday) ->
                    ~ overlaps slotStartUTC (addMinutes slotStartUTC 30) (fst b) (snd b).
Proof.
  apply (slots_are_free_and_not_past sampleZones utcZone 10 0 bookedDb "30-min" monday
           (Some "UTC") thirtyMin
           [mkSlot (clock monday 9 30) (clock monday 10 0) "UTC"]).
  - reflexivity.
  - vm_compute. reflexivity.
  - left. reflexivity.
Defined.

Lemma sampleZones_constant (name : string) (z : Zone) (t t' : Z) :
  sampleZones name = Some z -> utcOffset z t = utcOffset z t'.
Proof.
  unfold sampleZones.
  destruct (String.eqb name "UTC"); [ intro H; injection H as <-; reflexivity | ].
  destruct (String.eqb name "Asia/Kolkata"); [ intro H; injection H as <-; reflexivity | ].
  destruct (String.eqb name "Asia/Tokyo"); [ intro H; injection H as <-; reflexivity | ].
  discriminate.
Defined.

Lemma slots_last_the_duration_witness :
  slot_end (mkSlot (clock monday 9 0) (clock monday 9 30) "UTC")
  = slot_start (mkSlot (clock monday 9 0) (clock monday 9 30) "UTC") + 30 * msPerMinute.
Proof.
  apply (slots_last_the_duration sampleZones utcZone 10 0 kolkataDb "30-min" monday
           (Some "UTC") thirtyMin
           [mkSlot (clock monday 9 0) (clock monday 9 30) "UTC";
            mkSlot (clock monday 9 30) (clock monday 10 0) "UTC"]).
  - exact sampleZones_constant.
  - reflexivity.
  - vm_compute. reflexivity.
  - left. reflexivity.
Defined.

(** On a Monday the rule with day of week 9 is not walked: the answer is
    the one the Monday rule alone gives. *)
Lemma slots_need_a_rule_of_the_day_witness :
  generateSlots sampleZones utcZone 10 0 mixedDaysDb "30-min" (Some monday) (Some "UTC")
  = Some (Json 200 [mkSlot (clock monday 9 0) (clock monday 9 30) "UTC";
                    mkSlot (clock monday 9 30) (clock monday 10 0) "UTC"]).
Proof.
  destruct (slots_need_a_rule_of_the_day sampleZones utcZone mixedDaysDb "30-min" thirtyMin
              eq_refl) as (_ & H & _).
  rewrite <- (H 10%nat 0 monday (Some "UTC")).
  vm_compute. reflexivity.
Defined.

Lemma duration_longer_than_every_range_witness :
  generateSlots sampleZones utcZone 0 0 shortRangeDb "30-min" (Some monday) (Some "UTC")
  = Some (Json 200 []).
Proof.
  apply (duration_longer_than_every_range sampleZones utcZone 0 shortRangeDb "30-min"
           monday (Some "UTC") thirtyMin eq_refl).
  intros r Hr S E HS HE. vm_compute in Hr. destruct Hr as [<- | []].
  vm_compute in HS, HE. injection HS as <-. injection HE as <-.
  vm_compute. reflexivity.
Defined.

(** A TIME value below zero is read without its sign: the rule
    -01:00:00..02:00:00 offers 01:00-01:30 and 01:30-02:00. *)
Example negative_start_is_read_without_sign :
  generateSlots sampleZones utcZone 10 0 negativeStartDb "30-min" (Some monday) (Some "UTC")
  = Some (Json 200 [mkSlot (clock monday 1 0) (clock monday 1 30) "UTC";
                    mkSlot (clock monday 1 30) (clock monday 2 0) "UTC"]).
Proof. vm_compute. reflexivity. Qed.

(** The update route accepts a duration of zero; the slot route then does
    not answer for a Monday. *)
Lemma zero_duration_never_answers_witness :
  replyStatus (fst (updateEventType simpleDayDb 1 zeroDurationBody)) = 200
  /\ generateSlots sampleZones utcZone 1000 0
                   (snd (updateEventType simpleDayDb 1 zeroDurationBody)) "30-min"
                   (Some monday) (Some "UTC") = None.
Proof.
  split; [ reflexivity | ].
  apply (zero_duration_never_answers sampleZones utcZone 0
           (snd (updateEventType simpleDayDb 1 zeroDurationBody)) "30-min" monday
           (Some "UTC") (mkEventType 1 "30 Minute Meeting" "30-min" 0)
           (mkAvailability 1 1 (hhmm 9 0) (hhmm 10 0) "UTC")
           (clock monday 9 0) (clock monday 10 0)); try reflexivity.
  - left. reflexivity.
  - vm_compute. discriminate.
Defined.

Lemma stored_start_reads_back_witness :
  exists m,
    meetings (snd (createBooking sampleZones simpleDayDb
                     (bookingAt "30-min" "Ann" "ann@example.org" (clock monday 9 0)
                                "Asia/Kolkata")))
    = (meetings simpleDayDb ++ [m])%list
    /\ m_timezone m = "Asia/Kolkata"
    /\ toCivil (getZone sampleZones (m_timezone m)) (m_start_time m) = clock monday 9 0
    /\ m_end_time m = m_start_time m + 30 * msPerMinute.
Proof.
  apply (stored_start_reads_back sampleZones simpleDayDb "30-min" "Ann" "ann@example.org"
           "Asia/Kolkata" (clock monday 9 0) thirtyMin);
    try discriminate; try reflexivity.
Defined.
